(** * build_noto_ttf_subset.py: CJK OTF -> TTF pipeline driver

    A shallow embedding of [scripts/build_noto_ttf_subset.py].  The script
    is sequential glue around three collaborators that are not part of the
    repository (the fontTools subsetter, the FontForge command line and the
    fontTools table reader), so the embedding is a small state-and-exception
    monad over a model of the process environment:

    - Python [str] values are [string]s (byte strings);
    - the file system is a finite map from resolved paths to nodes;
    - [print], the tool invocations and the file-system calls are recorded
      in a trace, in program order;
    - [raise], [sys.exit], [try/except Exception] and [try/finally] are
      combinators of the monad;
    - the collaborators are variables of the section that holds [main]. *)

From Stdlib Require Import ZArith Lia Ascii String List Strings.Byte.
From stdpp Require Import gmap strings list fin_maps pretty.

Local Open Scope string_scope.
Local Open Scope Z_scope.

(** ** Python string primitives *)

Module PyStr.

(** [c.lower()] on one character.  Only A-Z change; for the comparison
    with [".otf"] made by the script this agrees with Python's Unicode
    lower-casing, since no character outside ASCII lower-cases to [o],
    [t], [f] or [.]. *)
Definition lower_ascii (c : ascii) : ascii :=
  let n := nat_of_ascii c in
  if (65 <=? n)%nat && (n <=? 90)%nat then ascii_of_nat (n + 32) else c.

(** [s.lower()] *)
Fixpoint lower (s : string) : string :=
  match s with
  | EmptyString => EmptyString
  | String c s' => String (lower_ascii c) (lower s')
  end.

(** [s.rfind(c)] for a one-character needle, counted from offset [i]:
    the highest index holding [c], or [-1]. *)
Fixpoint rfind_from (i : Z) (c : ascii) (s : string) : Z :=
  match s with
  | EmptyString => -1
  | String a s' =>
      let r := rfind_from (i + 1) c s' in
      if 0 <=? r then r else if Ascii.eqb a c then i else -1
  end.

Definition rfind (s : string) (c : ascii) : Z := rfind_from 0 c s.

(** [s[:i]] and [s[i:]] for [0 <= i]. *)
Fixpoint take (n : nat) (s : string) : string :=
  match n, s with
  | S n', String c s' => String c (take n' s')
  | _, _ => EmptyString
  end.

Fixpoint drop (n : nat) (s : string) : string :=
  match n, s with
  | S n', String _ s' => drop n' s'
  | _, _ => s
  end.

Definition slice_to (s : string) (i : Z) : string := take (Z.to_nat i) s.
Definition slice_from (s : string) (i : Z) : string := drop (Z.to_nat i) s.

(** [s[i:i+1]]: the character at [i] as a string, empty out of range. *)
Definition char_at (s : string) (i : Z) : string :=
  take 1 (slice_from s i).

(** Truthiness of an optional string ([None] and [""] are falsy). *)
Definition truthy (o : option string) : bool :=
  match o with
  | Some (String _ _) => true
  | _ => false
  end.

(** [a or b] where [a] is an optional string. *)
Definition or_else (a b : option string) : option string :=
  if truthy a then a else b.

(** [str(b)] for a boolean, as an f-string renders it. *)
Definition of_bool (b : bool) : string := if b then "True" else "False".

(** [s.split(c)] *)
Fixpoint split_go (c : ascii) (cur : string) (s : string) : list string :=
  match s with
  | EmptyString => [String.rev cur]
  | String a s' =>
      if Ascii.eqb a c then String.rev cur :: split_go c EmptyString s'
      else split_go c (String a cur) s'
  end.

Definition split (s : string) (c : ascii) : list string :=
  split_go c EmptyString s.

(** [c in s] for a one-character [c]. *)
Fixpoint has_char (c : ascii) (s : string) : bool :=
  match s with
  | EmptyString => false
  | String a s' => Ascii.eqb a c || has_char c s'
  end.

(** The first [n] characters of [s] exist and are dots. *)
Fixpoint dots_only (n : nat) (s : string) : bool :=
  match n, s with
  | O, _ => true
  | S n', String c s' => Ascii.eqb c "." && dots_only n' s'
  | S _, EmptyString => false
  end.

End PyStr.

(** ** posixpath *)

Module PosixPath.

Definition sep : ascii := "/"%char.
Definition extsep : ascii := "."%char.

(** The loop of [genericpath._splitext] that skips the leading dots of
    the file name; [n] bounds the iterations by [dotIndex -
    filenameIndex]. *)
Fixpoint skip_leading_dots (p : string) (filenameIndex dotIndex : Z)
    (n : nat) : string * string :=
  match n with
  | O => (p, "")
  | S n' =>
      if negb (String.eqb (PyStr.char_at p filenameIndex) (String extsep ""))
      then (PyStr.slice_to p dotIndex, PyStr.slice_from p dotIndex)
      else skip_leading_dots p (filenameIndex + 1) dotIndex n'
  end.

(** [os.path.splitext(p)] *)
Definition splitext (p : string) : string * string :=
  let sepIndex := PyStr.rfind p sep in
  let dotIndex := PyStr.rfind p extsep in
  if sepIndex <? dotIndex then
    let filenameIndex := sepIndex + 1 in
    skip_leading_dots p filenameIndex dotIndex
      (Z.to_nat (dotIndex - filenameIndex))
  else (p, "").

(** [os.path.join(a, b)] for a relative, non-empty [b]. *)
Definition join (a b : string) : string :=
  if String.eqb a "" then b
  else if String.eqb (PyStr.slice_from a (Z.of_nat (String.length a) - 1)) "/"
       then a +:+ b
       else a +:+ "/" +:+ b.

(** A resolved path: the components below the root. *)
Definition path := list string.

Definition norm_step (acc : path) (comp : string) : path :=
  if String.eqb comp "" || String.eqb comp "." then acc
  else if String.eqb comp ".." then removelast acc
  else (acc ++ [comp])%list.

(** [os.path.abspath(p)] with current directory [cwd], as the list of
    components of the normalised absolute path.  This is also how the
    operating system resolves [p]: symbolic links are not modelled, and
    a path that starts with exactly two slashes, which POSIX leaves to
    the implementation, resolves like one that starts with one. *)
Definition abspath (cwd : path) (p : string) : path :=
  let start := match p with
               | String "/" _ => []
               | _ => cwd
               end in
  fold_left norm_step (PyStr.split p sep) start.

(** [os.path.dirname] of a normalised absolute path. *)
Definition dirname (p : path) : path := removelast p.

End PosixPath.

(** ** The preset table *)

Definition PRESETS : list (string * string) :=
  [ ("sc-min", "U+0020-007E,U+00A0-00FF,U+2000-206F,U+3000-303F,U+FF00-FFEF,U+4E00-9FFF");
    ("tc-min", "U+0020-007E,U+00A0-00FF,U+2000-206F,U+3000-303F,U+FF00-FFEF,U+4E00-9FFF");
    ("sc-bmp", "U+0020-007E,U+00A0-00FF,U+2000-206F,U+3000-303F,U+FF00-FFEF,U+4E00-9FFF,U+3400-4DBF");
    ("tc-bmp", "U+0020-007E,U+00A0-00FF,U+2000-206F,U+3000-303F,U+FF00-FFEF,U+4E00-9FFF,U+3400-4DBF") ].

(** [PRESETS.get(k)] *)
Fixpoint assoc_get (k : string) (d : list (string * string)) : option string :=
  match d with
  | [] => None
  | (k', v) :: d' => if String.eqb k k' then Some v else assoc_get k d'
  end.

Definition PRESETS_get (k : string) : option string := assoc_get k PRESETS.

(** [list(PRESETS.keys())] *)
Definition PRESETS_keys : list string := map fst PRESETS.

(** ** The process environment *)

(** A node of the file system: a regular file with its bytes, or a
    directory.  The root directory is the empty path and always exists. *)
Inductive node :=
| File (content : list byte)
| Dir.

Abbreviation filesystem := (gmap (list string) node).

Definition node_at (fs : filesystem) (p : PosixPath.path) : option node :=
  match p with
  | [] => Some Dir
  | _ => fs !! p
  end.

Definition is_dir (fs : filesystem) (p : PosixPath.path) : bool :=
  match node_at fs p with
  | Some Dir => true
  | _ => false
  end.

(** What a Python frame can raise: [SystemExit] (a [BaseException]) or an
    instance of a subclass of [Exception], named by its class. *)
Inductive exn :=
| SystemExit (code : Z)
| Exception (cls : string).

(** What the process does to the outside, in program order. *)
Inductive event :=
| Stdout (line : string)
| Stderr (line : string)
| Makedirs (p : PosixPath.path)
| Mkdtemp (p : string)
| Pyftsubset (args_list : list string)
| Subprocess (cmd : list string)
| Copyfile (src dst : string)
| Rmtree (p : string).

(** [rnd] is the sequence of candidate names [tempfile] draws. *)
Record world := World {
  fs : filesystem;
  rnd : list string;
  trace : list event;
}.

Definition set_fs (f : filesystem) (w : world) : world :=
  World f (rnd w) (trace w).

Definition emit (e : event) (w : world) : world :=
  World (fs w) (rnd w) (trace w ++ [e]).

(** ** The state-and-exception monad *)

Definition M (A : Type) : Type := world -> (exn + A) * world.

Definition ret {A} (a : A) : M A := fun w => (inr a, w).

Definition bind {A B} (m : M A) (k : A -> M B) : M B :=
  fun w =>
    match m w with
    | (inr a, w') => k a w'
    | (inl e, w') => (inl e, w')
    end.

Definition raise {A} (e : exn) : M A := fun w => (inl e, w).

Declare Scope py_scope.
Delimit Scope py_scope with py.
Notation "x <- c ;; k" := (bind c (fun x => k))
  (at level 20, c at level 99, k at level 200, only parsing) : py_scope.
Notation "c ;;; k" := (bind c (fun _ => k))
  (at level 100, k at level 200, only parsing, right associativity) : py_scope.
Local Open Scope py_scope.

(** [try: body finally: fin] *)
Definition try_finally {A} (body : M A) (fin : M unit) : M A :=
  fun w =>
    match body w with
    | (r, w') =>
        match fin w' with
        | (inr _, w'') => (r, w'')
        | (inl e, w'') => (inl e, w'')
        end
    end.

(** [try: body except Exception: handler] ([SystemExit] passes through) *)
Definition try_except {A} (body : M A) (handler : string -> M A) : M A :=
  fun w =>
    match body w with
    | (inl (Exception cls), w') => handler cls w'
    | r => r
    end.

(** [sys.exit(code)] *)
Definition sys_exit {A} (code : Z) : M A := raise (SystemExit code).

Definition log (e : event) : M unit := fun w => (inr tt, emit e w).

(** [print(line)] and [print(line, file=sys.stderr)] *)
Definition print (line : string) : M unit := log (Stdout line).
Definition eprint (line : string) : M unit := log (Stderr line).

(** The exit status the operating system sees. *)
Definition exit_status {A} (r : (exn + A) * world) : Z :=
  match fst r with
  | inr _ => 0
  | inl (SystemExit code) => code
  | inl (Exception _) => 1
  end.

(** ** File-system calls *)

Module OS.

Import PosixPath.

(** [os.makedirs(p, exist_ok=True)], walking down from the directory
    [done]: missing directories are created, an existing file stops the
    walk with the directories made so far left behind. *)
Fixpoint makedirs_from (done : path) (todo : list string) (f : filesystem)
    : option string * filesystem :=
  match todo with
  | [] => (None, f)
  | c :: rest =>
      let p := (done ++ [c])%list in
      match node_at f p with
      | Some (File _) =>
          (Some (match rest with
                 | [] => "FileExistsError"
                 | _ => "NotADirectoryError"
                 end), f)
      | Some Dir => makedirs_from p rest f
      | None => makedirs_from p rest (<[p := Dir]> f)
      end
  end.

Definition makedirs (p : path) : M unit :=
  log (Makedirs p) ;;;
  fun w =>
    match makedirs_from [] p (fs w) with
    | (None, f) => (inr tt, set_fs f w)
    | (Some cls, f) => (inl (Exception cls), set_fs f w)
    end.

(** The error of creating an entry whose parent is not a directory. *)
Definition parent_error (q : path) (f : filesystem) : string :=
  match node_at f (dirname q) with
  | Some (File _) => "NotADirectoryError"
  | _ => "FileNotFoundError"
  end.

(** [open(p, 'wb').write(content)] on the file system alone. *)
Definition write_at (q : path) (content : list byte) (f : filesystem)
    : string + filesystem :=
  match node_at f q with
  | Some Dir => inl "IsADirectoryError"
  | _ =>
      if is_dir f (dirname q) then inr (<[q := File content]> f)
      else inl (parent_error q f)
  end.

(** [open(p, 'rb').read()] on the file system alone. *)
Definition read_at (q : path) (f : filesystem) : string + list byte :=
  match node_at f q with
  | Some (File content) => inr content
  | Some Dir => inl "IsADirectoryError"
  | None => inl "FileNotFoundError"
  end.

(** [shutil.rmtree(p, ignore_errors=True)] on the file system alone:
    a directory goes with everything below it; anything else is an
    error, which is ignored. *)
Definition remove_tree (q : path) (f : filesystem) : filesystem :=
  if is_dir f q then filter (fun kv => ¬ q `prefix_of` kv.1) f else f.

Section WithCwd.

Variable cwd : path.

Definition resolve (p : string) : path := abspath cwd p.

(** [os.path.isfile(p)] *)
Definition isfile (p : string) : M bool :=
  fun w =>
    (inr match node_at (fs w) (resolve p) with
         | Some (File _) => true
         | _ => false
         end, w).

(** [os.path.getsize(p)]; the size reported for a directory is left
    at [0], no caller in this script reads it. *)
Definition getsize (p : string) : M Z :=
  fun w =>
    match node_at (fs w) (resolve p) with
    | Some (File content) => (inr (Z.of_nat (length content)), w)
    | Some Dir => (inr 0, w)
    | None => (inl (Exception "FileNotFoundError"), w)
    end.

Definition read_file (p : string) : M (list byte) :=
  fun w =>
    match read_at (resolve p) (fs w) with
    | inr content => (inr content, w)
    | inl cls => (inl (Exception cls), w)
    end.

Definition write_file (p : string) (content : list byte) : M unit :=
  fun w =>
    match write_at (resolve p) content (fs w) with
    | inr f => (inr tt, set_fs f w)
    | inl cls => (inl (Exception cls), w)
    end.

(** [shutil.copyfile(src, dst)] *)
Definition copyfile (src dst : string) : M unit :=
  log (Copyfile src dst) ;;;
  if decide (resolve src = resolve dst)
  then raise (Exception "SameFileError")
  else content <- read_file src ;; write_file dst content.

(** [shutil.rmtree(p, ignore_errors=True)] *)
Definition rmtree (p : string) : M unit :=
  log (Rmtree p) ;;;
  fun w => (inr tt, set_fs (remove_tree (resolve p) (fs w)) w).

(** The loop of [tempfile.mkdtemp]: the first candidate name that
    [os.mkdir] accepts. *)
Fixpoint mkdtemp_loop (dir prefix : string) (names : list string)
    (f : filesystem) : (string + string * filesystem) * list string :=
  match names with
  | [] => (inl "FileExistsError", [])
  | name :: names' =>
      let file := join dir (prefix +:+ name) in
      let q := resolve file in
      match node_at f q with
      | Some _ => mkdtemp_loop dir prefix names' f
      | None =>
          if is_dir f (dirname q)
          then (inr (file, <[q := Dir]> f), names')
          else (inl (parent_error q f), names')
      end
  end.

(** [tempfile.mkdtemp(prefix=prefix)] with [gettempdir() = dir] *)
Definition mkdtemp (dir prefix : string) : M string :=
  fun w =>
    match mkdtemp_loop dir prefix (rnd w) (fs w) with
    | (inr (file, f), names') =>
        (inr file, World f names' (trace w ++ [Mkdtemp file]))
    | (inl cls, names') =>
        (inl (Exception cls), World (fs w) names' (trace w))
    end.

End WithCwd.

End OS.

(** ** The script *)

(** The namespace [argparse] returns.  [preset] is [None] or one of
    [PRESETS_keys] ([choices=]); the three selectors are [None] when the
    flag is absent. *)
Record args := Args {
  in_font : string;
  out_font : string;
  preset : option string;
  unicodes : option string;
  text_file : option string;
  no_second_subset : bool;
  min_glyphs : Z;
}.

(** What [fontTools.ttLib.TTFont] exposes to the script: the tags of the
    table directory and the outcome of [tf['maxp'].numGlyphs], which
    decompiles the table and may raise. *)
Record ttfont := TTFontObj {
  tables : list string;
  maxp_numGlyphs : string + Z;
}.

(** [tag in tf] *)
Definition has_table (tf : ttfont) (tag : string) : bool :=
  bool_decide (tag ∈ tables tf).

(** [str(o)] of an optional string inside an f-string. *)
Definition str_opt (o : option string) : string :=
  match o with
  | Some s => s
  | None => "None"
  end.

(** [s + o]: concatenating [None] is a [TypeError]. *)
Definition str_add (s : string) (o : option string) : M string :=
  match o with
  | Some t => ret (s +:+ t)
  | None => raise (Exception "TypeError")
  end.

Definition nl : string := String (ascii_of_nat 10) "".

(** [human_size(n)].  The source divides a float by [1024.0]; for sizes
    below [2^53] every quotient is exact, so the value at each turn is
    the rational [n / den] and [:.1f] rounds it half-to-even. *)
Definition round_half_even (num den : Z) : Z :=
  let q := num / den in
  let r := num mod den in
  if 2 * r <? den then q
  else if den <? 2 * r then q + 1
  else if Z.even q then q else q + 1.

Definition fmt_1f (num den : Z) : string :=
  let t := round_half_even (10 * num) den in
  pretty (t / 10) +:+ "." +:+ pretty (t mod 10).

Fixpoint human_size_loop (n den : Z) (units : list string) : string :=
  match units with
  | [] => fmt_1f n den +:+ " TB"
  | unit :: rest =>
      if n <? 1024 * den then fmt_1f n den +:+ " " +:+ unit
      else human_size_loop n (den * 1024) rest
  end.

Definition human_size (n : Z) : string :=
  human_size_loop n 1 ["B"; "KB"; "MB"; "GB"].

(** The option parsing of [fontTools.subset.main] the script relies on:
    the output goes to the last [--output-file=] among the arguments
    after the font file. *)
Definition output_file_of (args_list : list string) : option string :=
  fold_left
    (fun acc g =>
       if String.prefix "--output-file=" g then Some (PyStr.drop 14 g) else acc)
    (tail args_list) None.

Section Script.

Import PosixPath.

(** *** Collaborators outside the repository *)

(** [os.getcwd()] and [tempfile.gettempdir()] *)
Variable cwd : path.
Variable gettempdir : string.

(** [shutil.which] *)
Variable which : string -> option string.

(** The subsetting engine behind [fontTools.subset.main]: from the
    argument list and the files it reads, it raises an exception of
    the named class, or returns after a usage message without writing,
    or yields the bytes of the subset font that is then saved at the
    output path. *)
Variable subset_engine : list string -> filesystem -> string + option (list byte).

(** The FontForge process: its return code and the bytes it generated
    at [sys.argv[2]], if any. *)
Variable fontforge_engine : list string -> filesystem -> Z * option (list byte).

(** The sfnt reader behind [TTFont(path)]. *)
Variable TTFont_parse : list byte -> string + ttfont.

Abbreviation resolve := (OS.resolve cwd).

(** *** Lines 38-67 *)

Definition have (exe : string) : bool :=
  match which exe with
  | Some _ => true
  | None => false
  end.

Definition pyftsubset_main (args_list : list string) : M unit :=
  fun w =>
    match subset_engine args_list (fs w) with
    | inl cls => (inl (Exception cls), w)
    | inr None => (inr tt, w)
    | inr (Some font) =>
        match output_file_of args_list with
        | Some out => OS.write_file cwd out font w
        | None => (inr tt, w)
        end
    end.

Definition run_pyftsubset (args_list : list string) : M unit :=
  log (Pyftsubset args_list) ;;;
  pyftsubset_main args_list.

(** [subprocess.run(cmd, check=True)] for the FontForge command: the
    child writes its output, if it generates one and the path can be
    written, and a return code other than zero raises. *)
Definition subprocess_run (cmd : list string) : M unit :=
  log (Subprocess cmd) ;;;
  fun w =>
    let '(returncode, generated) := fontforge_engine cmd (fs w) in
    let w' :=
      match generated with
      | Some font =>
          match OS.write_at (resolve (nth 5 cmd "")) font (fs w) with
          | inr f => set_fs f w
          | inl _ => w
          end
      | None => w
      end in
    if returncode =? 0 then (inr tt, w')
    else (inl (Exception "CalledProcessError"), w').

Definition ff_script : string :=
  "import fontforge, sys" +:+ nl +:+
  "f = fontforge.open(sys.argv[1])" +:+ nl +:+
  "try:" +:+ nl +:+
  "    # Flatten CID if present" +:+ nl +:+
  "    if getattr(f, 'cidfontname', None):" +:+ nl +:+
  "        f.cidFlatten()" +:+ nl +:+
  "except Exception:" +:+ nl +:+
  "    pass" +:+ nl +:+
  "f.encoding = 'UnicodeFull'" +:+ nl +:+
  "for g in f.glyphs():" +:+ nl +:+
  "    try:" +:+ nl +:+
  "        g.unlinkRef()" +:+ nl +:+
  "    except Exception:" +:+ nl +:+
  "        pass" +:+ nl +:+
  "f.generate(sys.argv[2])" +:+ nl.

Definition ff_convert_otf_to_ttf (otf_path ttf_path : string) : M unit :=
  let ff := which "fontforge" in
  if negb (PyStr.truthy ff) then raise (Exception "RuntimeError")
  else
    let cmd := [str_opt ff; "-lang=py"; "-c"; ff_script; otf_path; ttf_path] in
    subprocess_run cmd.

(** *** Lines 69-78 *)

(** [TTFont(path)] *)
Definition TTFont (path : string) : M ttfont :=
  content <- OS.read_file cwd path ;;
  match TTFont_parse content with
  | inr tf => ret tf
  | inl cls => raise (Exception cls)
  end.

(** [tf['maxp'].numGlyphs] *)
Definition get_numGlyphs (tf : ttfont) : M Z :=
  match maxp_numGlyphs tf with
  | inr n => ret n
  | inl cls => raise (Exception cls)
  end.

(** The [try] block of [check_ttf_tables], lines 71-76.  [tf.close()]
    releases the reader and does not raise. *)
Definition check_ttf_tables_try (path : string) : M (bool * bool * bool * Z) :=
  tf <- TTFont path ;;
  let has_glyf := has_table tf "glyf" in
  let has_loca := has_table tf "loca" in
  num_glyphs <- (if has_table tf "maxp" then get_numGlyphs tf
                 else ret (-1)) ;;
  ret (has_glyf && has_loca, has_glyf, has_loca, num_glyphs).

Definition check_ttf_tables (path : string) : M (bool * bool * bool * Z) :=
  try_except
    (check_ttf_tables_try path)
    (fun _ => ret (false, false, false, -1)).

(** *** Lines 87-231: [main] *)

(** Stage A, lines 112-138. *)
Definition stage_A (a : args) (subset_otf : string) : M unit :=
  let in_path := in_font a in
  if PyStr.truthy (text_file a) then
    print ("[A] Pre-subset OTF by text-file → " +:+ subset_otf) ;;;
    sel <- str_add "--text-file=" (text_file a) ;;
    run_pyftsubset
      [ in_path;
        "--output-file=" +:+ subset_otf;
        "--layout-features=*";
        "--no-hinting";
        "--desubroutinize";
        sel ]
  else
    let u := if PyStr.truthy (unicodes a) then unicodes a
             else PRESETS_get (str_opt (PyStr.or_else (preset a) (Some "sc-min"))) in
    print ("[A] Pre-subset OTF by unicodes (" +:+ str_opt u +:+ ") → "
           +:+ subset_otf) ;;;
    sel <- str_add "--unicodes=" u ;;
    run_pyftsubset
      [ in_path;
        "--output-file=" +:+ subset_otf;
        "--layout-features=*";
        "--no-hinting";
        "--desubroutinize";
        sel ].

(** Stage B, lines 140-143. *)
Definition stage_B (subset_otf ttf_intermediate : string) : M unit :=
  print ("[B] Convert subset OTF → TTF via FontForge: " +:+ subset_otf
         +:+ " → " +:+ ttf_intermediate) ;;;
  ff_convert_otf_to_ttf subset_otf ttf_intermediate.

(** The test of both checkpoints: [not ok or num_glyphs < args.min_glyphs]. *)
Definition rejected (a : args) (r : bool * bool * bool * Z) : bool :=
  let '(ok, _, _, num_glyphs) := r in
  negb ok || (num_glyphs <? min_glyphs a).

(** The intermediate checkpoint, lines 145-148. *)
Definition intermediate_check (a : args) (ttf_intermediate : string) : M unit :=
  r <- check_ttf_tables ttf_intermediate ;;
  let '(ok, has_glyf, has_loca, num_glyphs) := r in
  if rejected a r then
    eprint ("ERROR: Converted TTF invalid or too few glyphs (glyf="
            +:+ PyStr.of_bool has_glyf +:+ ", loca=" +:+ PyStr.of_bool has_loca
            +:+ ", numGlyphs=" +:+ pretty num_glyphs +:+ ").") ;;;
    sys_exit 2
  else ret tt.

(** The arguments of a TrueType-stage subsetting call. *)
Definition ttf_subset_args (src out_path sel : string) : list string :=
  [ src;
    "--output-file=" +:+ out_path;
    "--layout-features=*";
    "--no-hinting";
    "--glyph-names";
    "--retain-gids=no";
    "--passthrough-tables";
    sel ].

(** Stage C, lines 150-179. *)
Definition stage_C (a : args) (ttf_intermediate : string) : M unit :=
  let out_path := out_font a in
  if no_second_subset a then
    print ("[C] Skipping second subset. Writing TTF → " +:+ out_path) ;;;
    OS.copyfile cwd ttf_intermediate out_path
  else
    if PyStr.truthy (text_file a) then
      print ("[C] Subset TTF by text-file → " +:+ out_path) ;;;
      sel <- str_add "--text-file=" (text_file a) ;;
      run_pyftsubset (ttf_subset_args ttf_intermediate out_path sel)
    else
      let u2 := PyStr.or_else (unicodes a)
                  (PRESETS_get (str_opt (PyStr.or_else (preset a) (Some "sc-min")))) in
      print ("[C] Subset TTF by unicodes (" +:+ str_opt u2 +:+ ") → "
             +:+ out_path) ;;;
      sel <- str_add "--unicodes=" u2 ;;
      run_pyftsubset (ttf_subset_args ttf_intermediate out_path sel).

(** The three-stage pipeline, lines 112-179. *)
Definition otf_pipeline (a : args) (tmpdir : string) : M unit :=
  let subset_otf := join tmpdir "subset.otf" in
  stage_A a subset_otf ;;;
  let ttf_intermediate := join tmpdir "intermediate.ttf" in
  stage_B subset_otf ttf_intermediate ;;;
  intermediate_check a ttf_intermediate ;;;
  stage_C a ttf_intermediate.

(** The TrueType path, lines 182-212. *)
Definition truetype_path (a : args) : M unit :=
  let in_path := in_font a in
  let out_path := out_font a in
  if PyStr.truthy (text_file a) || PyStr.truthy (unicodes a)
     || PyStr.truthy (preset a) then
    if PyStr.truthy (text_file a) then
      print ("[T] Subset TTF by text-file → " +:+ out_path) ;;;
      sel <- str_add "--text-file=" (text_file a) ;;
      run_pyftsubset (ttf_subset_args in_path out_path sel)
    else
      let u := PyStr.or_else (unicodes a)
                 (PRESETS_get (str_opt (PyStr.or_else (preset a) (Some "sc-min")))) in
      print ("[T] Subset TTF by unicodes (" +:+ str_opt u +:+ ") → "
             +:+ out_path) ;;;
      sel <- str_add "--unicodes=" u ;;
      run_pyftsubset (ttf_subset_args in_path out_path sel)
  else
    print ("[T] Copy TTF as-is → " +:+ out_path) ;;;
    OS.copyfile cwd in_path out_path.

(** The production of the final output, lines 111-212. *)
Definition produce (a : args) (ext tmpdir : string) : M unit :=
  if String.eqb ext ".otf" then otf_pipeline a tmpdir else truetype_path a.

(** The final checkpoint, lines 214-219. *)
Definition final_verification (a : args) : M unit :=
  let out_path := out_font a in
  r <- check_ttf_tables out_path ;;
  let '(ok, has_glyf, has_loca, num_glyphs) := r in
  if rejected a r then
    print ("[✓] Output path: " +:+ out_path) ;;;
    eprint ("[X] Verification failed: glyf=" +:+ PyStr.of_bool has_glyf
            +:+ ", loca=" +:+ PyStr.of_bool has_loca
            +:+ ", numGlyphs=" +:+ pretty num_glyphs
            +:+ " (< " +:+ pretty (min_glyphs a) +:+ ").") ;;;
    sys_exit 3
  else ret tt.

(** The success report, lines 221-228. *)
Definition report (a : args) : M unit :=
  print "[✓] Success." ;;;
  print ("Output: " +:+ out_font a) ;;;
  try_except
    (in_size <- OS.getsize cwd (in_font a) ;;
     out_size <- OS.getsize cwd (out_font a) ;;
     print ("Size: " +:+ human_size in_size +:+ " → " +:+ human_size out_size))
    (fun _ => ret tt).

(** The body of the [try], lines 111-228. *)
Definition try_body (a : args) (ext tmpdir : string) : M unit :=
  produce a ext tmpdir ;;;
  final_verification a ;;;
  report a.

(** Lines 101-108, up to the creation of the temporary directory. *)
Definition prelude (a : args) : M (string * string) :=
  let in_path := in_font a in
  let out_path := out_font a in
  found <- OS.isfile cwd in_path ;;
  (if negb found then
     eprint ("ERROR: input not found: " +:+ in_path) ;;;
     sys_exit 1
   else ret tt) ;;;
  OS.makedirs (dirname (abspath cwd out_path)) ;;;
  let ext := PyStr.lower (snd (splitext in_path)) in
  tmpdir <- OS.mkdtemp cwd gettempdir "cjk2ttf_" ;;
  ret (ext, tmpdir).

Definition main (a : args) : M unit :=
  et <- prelude a ;;
  try_finally (try_body a (fst et) (snd et)) (OS.rmtree cwd (snd et)).

End Script.

(** ** Vocabulary of the specification *)

(** The Unicode blocks the preset table is described with: the block as
    Unicode defines it and the range of it a preset keeps. *)
Inductive block :=
| BasicLatin
| Latin1Supplement
| GeneralPunctuation
| CJKSymbolsAndPunctuation
| HalfwidthAndFullwidthForms
| CJKUnifiedIdeographs
| CJKUnifiedIdeographsExtensionA.

Definition block_bounds (b : block) : Z * Z :=
  match b with
  | BasicLatin => (0x0000, 0x007F)
  | Latin1Supplement => (0x0080, 0x00FF)
  | GeneralPunctuation => (0x2000, 0x206F)
  | CJKSymbolsAndPunctuation => (0x3000, 0x303F)
  | HalfwidthAndFullwidthForms => (0xFF00, 0xFFEF)
  | CJKUnifiedIdeographs => (0x4E00, 0x9FFF)
  | CJKUnifiedIdeographsExtensionA => (0x3400, 0x4DBF)
  end.

Definition kept_range (b : block) : Z * Z :=
  match b with
  | BasicLatin => (0x0020, 0x007E)
  | Latin1Supplement => (0x00A0, 0x00FF)
  | GeneralPunctuation => (0x2000, 0x206F)
  | CJKSymbolsAndPunctuation => (0x3000, 0x303F)
  | HalfwidthAndFullwidthForms => (0xFF00, 0xFFEF)
  | CJKUnifiedIdeographs => (0x4E00, 0x9FFF)
  | CJKUnifiedIdeographsExtensionA => (0x3400, 0x4DBF)
  end.

Definition hex_digit (d : Z) : string :=
  String.substring (Z.to_nat d) 1 "0123456789ABCDEF".

Definition hex4 (n : Z) : string :=
  hex_digit (n / 4096 mod 16) +:+ hex_digit (n / 256 mod 16)
  +:+ hex_digit (n / 16 mod 16) +:+ hex_digit (n mod 16).

Definition range_spec (b : block) : string :=
  "U+" +:+ hex4 (fst (kept_range b)) +:+ "-" +:+ hex4 (snd (kept_range b)).

Definition ranges_spec (bs : list block) : string :=
  String.concat "," (map range_spec bs).

Definition min_blocks : list block :=
  [ BasicLatin; Latin1Supplement; GeneralPunctuation;
    CJKSymbolsAndPunctuation; HalfwidthAndFullwidthForms;
    CJKUnifiedIdeographs ].

(** The glyph count a font's [maxp] table declares, when the font has
    the table and it decompiles. *)
Definition maxp_glyph_count (tf : ttfont) : option Z :=
  if has_table tf "maxp" then
    match maxp_numGlyphs tf with
    | inr n => Some n
    | inl _ => None
    end
  else None.

(** The tuple the description of [check_ttf_tables] promises for a font
    that parsed: both-present, each table's presence, and the glyph
    count read from [maxp]. *)
Definition described_tuple (tf : ttfont) (t : bool * bool * bool * Z) : Prop :=
  exists n, maxp_glyph_count tf = Some n /\
    t = (has_table tf "glyf" && has_table tf "loca",
         has_table tf "glyf", has_table tf "loca", n).

(** The selection argument as the specification words it, "if given"
    read as "the flag is present": text file, else explicit ranges, else
    the named preset, else [sc-min]. *)
Definition described_selection (a : args) : option string :=
  match text_file a with
  | Some t => Some ("--text-file=" +:+ t)
  | None =>
      match unicodes a with
      | Some u => Some ("--unicodes=" +:+ u)
      | None =>
          match preset a with
          | Some k => option_map (String.append "--unicodes=") (PRESETS_get k)
          | None => option_map (String.append "--unicodes=") (PRESETS_get "sc-min")
          end
      end
  end.

(** A flag counts when its value is a non-empty string. *)
Definition given (o : option string) : option string :=
  if PyStr.truthy o then o else None.

(** The same precedence over the flags that count. *)
Definition resolved_selection (a : args) : option string :=
  match given (text_file a) with
  | Some t => Some ("--text-file=" +:+ t)
  | None =>
      match given (unicodes a) with
      | Some u => Some ("--unicodes=" +:+ u)
      | None =>
          match given (preset a) with
          | Some k => option_map (String.append "--unicodes=") (PRESETS_get k)
          | None => option_map (String.append "--unicodes=") (PRESETS_get "sc-min")
          end
      end
  end.

(** An event is fine when, if it is a subsetting call, its selection
    argument (the last one) is [sel a]. *)
Definition subset_call_ok (sel : args -> option string) (a : args) (e : event) : Prop :=
  match e with
  | Pyftsubset args_list =>
      exists s, sel a = Some s /\ last args_list = Some s
  | _ => True
  end.

(** Every subsetting call a run of [m] makes passes [sel a]. *)
Definition calls_pass (sel : args -> option string) (a : args) (m : M unit) : Prop :=
  forall w r w', m w = (r, w') ->
    exists new, trace w' = (trace w ++ new)%list /\
                Forall (subset_call_ok sel a) new.

(** The test [main] dispatches on: [ext == ".otf"] for the lower-cased
    extension of the input path. *)
Definition takes_otf_pipeline (in_path : string) : bool :=
  String.eqb (PyStr.lower (snd (PosixPath.splitext in_path))) ".otf".

(** The path ends in [.otf], in some letter case. *)
Definition ends_in_otf (p : string) : Prop :=
  exists stem e, p = stem +:+ e /\ PyStr.lower e = ".otf".

(** The file name of a path: what follows its last [/]. *)
Definition filename (p : string) : string :=
  PyStr.slice_from p (PyStr.rfind p PosixPath.sep + 1).

Fixpoint all_dots (s : string) : bool :=
  match s with
  | EmptyString => true
  | String c s' => Ascii.eqb c PosixPath.extsep && all_dots s'
  end.

(** The path is a name followed by [.otf] in some letter case, where the
    name is more than dots: what [os.path.splitext] calls an extension. *)
Definition has_otf_extension (p : string) : Prop :=
  exists stem e, p = stem +:+ e /\ PyStr.lower e = ".otf" /\
                 all_dots (filename stem) = false.

(** The subsetting calls among the events. *)
Definition is_subset_call (e : event) : Prop :=
  match e with
  | Pyftsubset _ => True
  | _ => False
  end.

(** The exceptions a part of the script may end with: any [Exception],
    and [SystemExit] with one of the listed codes. *)
Definition exits (codes : list Z) (e : exn) : Prop :=
  match e with
  | Exception _ => True
  | SystemExit code => code ∈ codes
  end.

(** ** Invariants of the file system

    What the proofs track from one state of the file system to a later
    one. *)

(** Every node of [f] is still there in [f']. *)
Definition nodes_kept (f f' : filesystem) : Prop :=
  forall k n, node_at f k = Some n -> node_at f' k = Some n.

(** Every directory of [f] is still a directory in [f']. *)
Definition dirs_kept (f f' : filesystem) : Prop :=
  forall k, node_at f k = Some Dir -> node_at f' k = Some Dir.

(** ** A program logic for the monad

    [sat P E Q m]: every run of [m] keeps the directories of the file
    system, appends only events satisfying [P], raises only exceptions
    satisfying [E], and returns only values satisfying [Q]. *)
Definition sat {A} (P : event -> Prop) (E : exn -> Prop) (Q : A -> Prop)
    (m : M A) : Prop :=
  forall w r w', m w = (r, w') ->
    dirs_kept (fs w) (fs w') /\
    (exists new, trace w' = (trace w ++ new)%list /\ Forall P new) /\
    match r with
    | inl e => E e
    | inr a => Q a
    end.

Definition any {A} (a : A) : Prop := True.

(** ** A small concrete environment

    A toy font format and toy collaborators, to run the script on:
    a font file is two bytes, the first holding one bit per table
    ([glyf], [loca], [maxp]) and the second the glyph count; the
    subsetter and the converter copy their input. *)
Module Demo.

Definition cwd : PosixPath.path := ["work"].

Definition gettempdir : string := "/tmp".

Definition which (exe : string) : option string :=
  if String.eqb exe "fontforge" then Some "/usr/bin/fontforge" else None.

Definition subset_engine (args_list : list string) (f : filesystem)
    : string + option (list byte) :=
  match OS.read_at (PosixPath.abspath cwd (hd "" args_list)) f with
  | inr content => inr (Some content)
  | inl cls => inl cls
  end.

Definition fontforge_engine (cmd : list string) (f : filesystem)
    : Z * option (list byte) :=
  match OS.read_at (PosixPath.abspath cwd (nth 4 cmd "")) f with
  | inr content => (0, Some content)
  | inl _ => (1, None)
  end.

Definition TTFont_parse (content : list byte) : string + ttfont :=
  match content with
  | t :: n :: _ =>
      let bits := Byte.to_N t in
      inr (TTFontObj
             ((if N.testbit bits 0 then ["glyf"] else []) ++
              (if N.testbit bits 1 then ["loca"] else []) ++
              (if N.testbit bits 2 then ["maxp"] else []))%list
             (inr (Z.of_N (Byte.to_N n))))
  | _ => inl "TTLibError"
  end.

(** A directory tree with a good font (all three tables, 9 glyphs), a
    font without [maxp] and a font without [loca]. *)
Definition fs0 : filesystem :=
  <[ ["work"; "in.otf"] := File [x07; x09] ]>
  (<[ ["work"; "in.ttf"] := File [x07; x09] ]>
  (<[ ["work"; "nomaxp.ttf"] := File [x03; x09] ]>
  (<[ ["work"; "noloca.ttf"] := File [x05; x09] ]>
  (<[ ["work"; ".otf"] := File [x07; x09] ]>
  (<[ ["work"] := Dir ]>
  (<[ ["tmp"] := Dir ]> ∅)))))).

Definition w0 : world := World fs0 ["a"; "b"] [].

Definition main : args -> M unit :=
  main cwd gettempdir which subset_engine fontforge_engine TTFont_parse.

Definition check_ttf_tables : string -> M (bool * bool * bool * Z) :=
  check_ttf_tables cwd TTFont_parse.

Definition check_ttf_tables_try : string -> M (bool * bool * bool * Z) :=
  check_ttf_tables_try cwd TTFont_parse.

Definition TTFont : string -> M ttfont := TTFont cwd TTFont_parse.

Definition prelude : args -> M (string * string) := prelude cwd gettempdir.

Definition produce : args -> string -> string -> M unit :=
  produce cwd which subset_engine fontforge_engine TTFont_parse.

Definition stages_AB (a : args) (tmpdir : string) : M unit :=
  stage_A cwd subset_engine a (PosixPath.join tmpdir "subset.otf") ;;;
  stage_B cwd which fontforge_engine
    (PosixPath.join tmpdir "subset.otf")
    (PosixPath.join tmpdir "intermediate.ttf").

(** The command lines of the runs below. *)

(** [--in in.otf --out out/o.ttf --no-second-subset --min-glyphs 5] *)
Definition a_skip : args := Args "in.otf" "out/o.ttf" None None None true 5.

(** [--in in.otf --out out/o.ttf --min-glyphs 10]: the font has 9 glyphs. *)
Definition a_few : args := Args "in.otf" "out/o.ttf" None None None false 10.

(** [--in in.ttf --out o.ttf --min-glyphs 5] *)
Definition a_plain : args := Args "in.ttf" "o.ttf" None None None false 5.

(** [--in noloca.ttf --out o.ttf --min-glyphs 5] *)
Definition a_reject : args := Args "noloca.ttf" "o.ttf" None None None false 5.

(** [--in nothere.otf --out o.ttf] *)
Definition a_missing : args := Args "nothere.otf" "o.ttf" None None None false 500.

(** [--in in.otf --out o.ttf --unicodes U+0041 --text-file '' --min-glyphs 5] *)
Definition a_empty_text : args :=
  Args "in.otf" "o.ttf" None (Some "U+0041") (Some "") false 5.

(** [--in in.ttf --out o.ttf --preset sc-bmp --text-file chars.txt --min-glyphs 5] *)
Definition a_text : args :=
  Args "in.ttf" "o.ttf" (Some "sc-bmp") None (Some "chars.txt") false 5.

(** [--in .otf --out o.ttf --min-glyphs 5]: a file whose whole name is [.otf]. *)
Definition a_dot : args := Args ".otf" "o.ttf" None None None false 5.

End Demo.

(** ** Further vocabulary *)

(** The units of [human_size] with the power of 1024 each one counts. *)
Definition size_units : list (Z * string) :=
  [ (1, "B"); (1024, "KB"); (1024 ^ 2, "MB"); (1024 ^ 3, "GB");
    (1024 ^ 4, "TB") ].

(** The process launches among the events. *)
Definition is_subprocess (e : event) : Prop :=
  match e with
  | Subprocess _ => True
  | _ => False
  end.

(** A file system is a tree: whatever exists lies in a directory. *)
Definition well_formed (f : filesystem) : Prop :=
  map_Forall (fun k _ => is_dir f (removelast k) = true) f.

(** [frames S P m]: a run of [m] changes the file system only at paths
    in [S] and appends only events satisfying [P]. *)
Definition frames {A} (S : PosixPath.path -> Prop) (P : event -> Prop)
    (m : M A) : Prop :=
  forall w r w', m w = (r, w') ->
    (forall k, ~ S k -> node_at (fs w') k = node_at (fs w) k) /\
    exists new, trace w' = (trace w ++ new)%list /\ Forall P new.

(** What [argparse] guarantees of [--preset]: absent, or one of the
    [choices]. *)
Definition valid_preset (a : args) : Prop :=
  match preset a with
  | None => True
  | Some k => k ∈ PRESETS_keys
  end.

(** The same command line with [--no-second-subset] set or cleared. *)
Definition with_no_second_subset (b : bool) (a : args) : args :=
  Args (in_font a) (out_font a) (preset a) (unicodes a) (text_file a) b
       (min_glyphs a).

(** A second toy environment: as [Demo], with no FontForge on the PATH. *)
Module DemoMore.

Definition which_none (exe : string) : option string := None.

Definition main_without_fontforge : args -> M unit :=
  main Demo.cwd Demo.gettempdir which_none Demo.subset_engine
    Demo.fontforge_engine Demo.TTFont_parse.

(** [--in in.ttf --out new/dir/o.ttf --preset tc-min --min-glyphs 5] *)
Definition a_preset : args :=
  Args "in.ttf" "new/dir/o.ttf" (Some "tc-min") None None false 5.


End DemoMore.

(** * Properties *)

(** ** The preset table *)

Lemma kept_range_in_block (b : block) :
  fst (block_bounds b) <= fst (kept_range b) /\
  fst (kept_range b) <= snd (kept_range b) /\
  snd (kept_range b) <= snd (block_bounds b).
Proof. destruct b; cbn; lia. Qed.

(** C8. The preset table has exactly the keys sc-min, tc-min, sc-bmp and
    tc-bmp; sc-min and tc-min hold the ranges U+0020-007E, U+00A0-00FF,
    U+2000-206F, U+3000-303F, U+FF00-FFEF, U+4E00-9FFF (each inside the
    Unicode block it is named after), and sc-bmp and tc-bmp hold that
    string followed by U+3400-4DBF, CJK Unified Ideographs Extension A. *)
Theorem presets_table :
  PRESETS_keys = ["sc-min"; "tc-min"; "sc-bmp"; "tc-bmp"] /\
  (forall k, is_Some (PRESETS_get k) <-> k ∈ ["sc-min"; "tc-min"; "sc-bmp"; "tc-bmp"]) /\
  ranges_spec min_blocks
    = "U+0020-007E,U+00A0-00FF,U+2000-206F,U+3000-303F,U+FF00-FFEF,U+4E00-9FFF" /\
  PRESETS_get "sc-min" = Some (ranges_spec min_blocks) /\
  PRESETS_get "tc-min" = Some (ranges_spec min_blocks) /\
  PRESETS_get "sc-bmp"
    = Some (ranges_spec min_blocks +:+ "," +:+ range_spec CJKUnifiedIdeographsExtensionA) /\
  PRESETS_get "tc-bmp"
    = Some (ranges_spec min_blocks +:+ "," +:+ range_spec CJKUnifiedIdeographsExtensionA) /\
  range_spec CJKUnifiedIdeographsExtensionA = "U+3400-4DBF" /\
  (forall b, fst (block_bounds b) <= fst (kept_range b) /\
             snd (kept_range b) <= snd (block_bounds b)).
Proof.
  split; [reflexivity |].
  split.
  { intros k. unfold PRESETS_get, PRESETS. cbn [assoc_get].
    rewrite !elem_of_cons, elem_of_nil.
    repeat match goal with
    | |- context [String.eqb k ?s] =>
        destruct (String.eqb_spec k s) as [-> | ?]
    end; split; intros H; eauto.
    - destruct H as [? [=]].
    - exfalso. intuition congruence. }
  repeat (split; [reflexivity |]).
  intros b. pose proof (kept_range_in_block b). lia.
Qed.

(** ** Strings and [splitext] *)

Module PyStrFacts.

Import PyStr.

Lemma app_nil (e : string) : "" +:+ e = e.
Proof. reflexivity. Qed.

Lemma app_cons (c : ascii) (s e : string) :
  String c s +:+ e = String c (s +:+ e).
Proof. reflexivity. Qed.

Lemma length_app (s e : string) :
  String.length (s +:+ e) = (String.length s + String.length e)%nat.
Proof.
  induction s as [| c s IH]; rewrite ?app_nil, ?app_cons; simpl;
    [done | by f_equal].
Qed.

Lemma take_app_length (s e : string) : take (String.length s) (s +:+ e) = s.
Proof.
  induction s as [| c s IH]; rewrite ?app_nil, ?app_cons; simpl;
    [by destruct e | by f_equal].
Qed.

Lemma drop_app_length (s e : string) : drop (String.length s) (s +:+ e) = e.
Proof.
  induction s as [| c s IH]; rewrite ?app_nil, ?app_cons; simpl;
    [by destruct e | apply IH].
Qed.

Lemma take_drop (n : nat) (s : string) : take n s +:+ drop n s = s.
Proof.
  revert s. induction n as [| n IH]; intros [| c s]; simpl; try done.
  rewrite app_cons. f_equal. apply IH.
Qed.

Lemma drop_app (i : nat) (s e : string) :
  (i <= String.length s)%nat -> drop i (s +:+ e) = drop i s +:+ e.
Proof.
  revert s. induction i as [| i IH]; intros [| c s] H;
    rewrite ?app_nil, ?app_cons; simpl in *; try done;
    first [lia | apply IH; lia].
Qed.

Lemma length_drop (i : nat) (s : string) :
  String.length (drop i s) = (String.length s - i)%nat.
Proof.
  revert s. induction i as [| i IH]; intros [| c s]; simpl; done.
Qed.

Lemma dots_only_app (s e : string) :
  dots_only (String.length s) (s +:+ e) = all_dots s.
Proof.
  induction s as [| c s IH]; rewrite ?app_nil, ?app_cons; simpl;
    [done | f_equal; apply IH].
Qed.

Lemma rfind_from_absent (c : ascii) (s : string) (i : Z) :
  has_char c s = false -> rfind_from i c s = -1.
Proof.
  revert i. induction s as [| a s IH]; intros i; cbn; [done |].
  intros [Ha Hs]%orb_false_iff. rewrite (IH _ Hs), Ha. done.
Qed.

Lemma rfind_from_bounds (c : ascii) (s : string) (i : Z) :
  0 <= i ->
  rfind_from i c s = -1 \/
  i <= rfind_from i c s < i + Z.of_nat (String.length s).
Proof.
  revert i. induction s as [| a s IH]; intros i Hi; cbn [rfind_from]; [by left |].
  destruct (IH (i + 1) ltac:(lia)) as [-> | Hb].
  - cbn. destruct (Ascii.eqb a c); [right | by left].
    cbn [String.length]. lia.
  - destruct (Z.leb_spec 0 (rfind_from (i + 1) c s)); [| lia].
    right. cbn [String.length]. lia.
Qed.

Lemma rfind_from_app_absent (c : ascii) (s e : string) (i : Z) :
  has_char c e = false -> rfind_from i c (s +:+ e) = rfind_from i c s.
Proof.
  intros He. revert i. induction s as [| a s IH]; intros i.
  - rewrite app_nil. by rewrite rfind_from_absent.
  - rewrite app_cons. cbn [rfind_from]. by rewrite IH.
Qed.

Lemma rfind_from_app_last (c : ascii) (s x : string) (i : Z) :
  0 <= i -> has_char c x = false ->
  rfind_from i c (s +:+ String c x) = i + Z.of_nat (String.length s).
Proof.
  intros Hi Hx. revert i Hi. induction s as [| a s IH]; intros i Hi.
  - rewrite app_nil. cbn [rfind_from String.length].
    rewrite (rfind_from_absent _ _ _ Hx), Ascii.eqb_refl. cbn.
    by rewrite Z.add_0_r.
  - rewrite app_cons. cbn [rfind_from]. rewrite IH by lia.
    destruct (Z.leb_spec 0 (i + 1 + Z.of_nat (String.length s)));
      [cbn [String.length]; lia | lia].
Qed.

Lemma rfind_from_present (c : ascii) (s : string) (i : Z) :
  0 <= i -> has_char c s = true -> 0 <= rfind_from i c s.
Proof.
  revert i. induction s as [| a s IH]; intros i Hi; cbn [has_char rfind_from];
    [done |].
  destruct (Z.leb_spec 0 (rfind_from (i + 1) c s)) as [E | E]; [done |].
  intros [-> | Hs]%orb_true_iff; [done |].
  specialize (IH (i + 1) ltac:(lia) Hs). lia.
Qed.

(** A hit of [rfind] splits the string at the last occurrence. *)
Lemma rfind_from_hit (c : ascii) (s : string) (i : Z) :
  0 <= i -> 0 <= rfind_from i c s ->
  exists pre post,
    s = pre +:+ String c post /\ has_char c post = false /\
    rfind_from i c s = i + Z.of_nat (String.length pre).
Proof.
  revert i. induction s as [| a s IH]; intros i Hi; cbn [rfind_from]; [lia |].
  destruct (Z.leb_spec 0 (rfind_from (i + 1) c s)) as [E | E].
  - intros _. destruct (IH (i + 1) ltac:(lia) ltac:(lia))
      as (pre & post & -> & Hpost & Hr).
    exists (String a pre), post. rewrite Hr. cbn [String.length].
    split; [done |]. split; [done | lia].
  - destruct (Ascii.eqb_spec a c) as [-> |]; [| lia]. intros _.
    exists "", s. split; [done |]. split; [| cbn; lia].
    destruct (has_char c s) eqn:Hs; [| done].
    pose proof (rfind_from_present c s (i + 1) ltac:(lia) Hs). lia.
Qed.

Lemma lower_ascii_fixes (c : ascii) :
  c = "."%char \/ c = "/"%char ->
  lower_ascii c = c /\ forall d, lower_ascii d = c -> d = c.
Proof.
  intros [-> | ->]; (split; [reflexivity |]);
    intros [[] [] [] [] [] [] [] []]; vm_compute; congruence.
Qed.

Lemma has_char_lower (c : ascii) (s : string) :
  c = "."%char \/ c = "/"%char ->
  has_char c (lower s) = has_char c s.
Proof.
  intros Hc. destruct (lower_ascii_fixes c Hc) as [Hfix Hinv].
  induction s as [| a s IH]; cbn; [done |]. rewrite IH. f_equal.
  destruct (Ascii.eqb_spec a c) as [-> | Hne].
  - rewrite Hfix. apply Ascii.eqb_refl.
  - apply Ascii.eqb_neq. intros E. by apply Hne, Hinv.
Qed.

(** A case variant of [".otf"] is a dot followed by three characters
    that are neither dots nor slashes. *)
Lemma lower_otf_inv (e : string) :
  lower e = ".otf" ->
  exists x, e = String "." x /\ has_char "." x = false /\
            has_char "/" e = false.
Proof.
  intros H.
  assert (Hs : has_char "/" e = false).
  { rewrite <- has_char_lower, H by auto. reflexivity. }
  destruct e as [| c x]; [discriminate |]. cbn in H.
  injection H as Hc Hx. exists x.
  apply (lower_ascii_fixes "." ltac:(auto)) in Hc as ->.
  split; [done |]. split; [| done].
  rewrite <- has_char_lower, Hx by auto. reflexivity.
Qed.

Lemma drop_succ (i : nat) (p : string) : drop (S i) p = drop 1 (drop i p).
Proof.
  revert p. induction i as [| i IH]; intros p.
  - by destruct p.
  - destruct p as [| c p]; [done |]. apply IH.
Qed.

Lemma skip_leading_dots_spec (p : string) (d : Z) (n : nat) :
  forall i : nat,
    PosixPath.skip_leading_dots p (Z.of_nat i) d n =
    if dots_only n (drop i p) then (p, "")
    else (slice_to p d, slice_from p d).
Proof.
  induction n as [| n IH]; intros i; cbn [PosixPath.skip_leading_dots]; [done |].
  replace (Z.of_nat i + 1) with (Z.of_nat (S i)) by lia. rewrite IH.
  unfold char_at. unfold slice_from at 1. rewrite Nat2Z.id, drop_succ.
  destruct (drop i p) as [| c q]; [done |].
  cbn [take dots_only drop].
  destruct (Ascii.eqb_spec c ".") as [-> | Hne]; [by destruct q |].
  cbn [andb].
  destruct (String.eqb_spec (String c "") (String PosixPath.extsep ""))
    as [[= E] | _]; [done | by destruct q].
Qed.

(** [splitext] on a path that ends in a case variant of [.otf]. *)
Lemma splitext_otf (stem e : string) :
  lower e = ".otf" ->
  PosixPath.splitext (stem +:+ e) =
  if all_dots (filename stem) then (stem +:+ e, "") else (stem, e).
Proof.
  intros He. destruct (lower_otf_inv e He) as (x & -> & Hx & Hs).
  unfold PosixPath.splitext, rfind, PosixPath.sep, PosixPath.extsep.
  rewrite (rfind_from_app_absent "/" _ _ _ Hs).
  rewrite (rfind_from_app_last "." _ _ 0 ltac:(lia) Hx).
  set (sepIndex := rfind_from 0 "/" stem).
  assert (Hb : -1 <= sepIndex < Z.of_nat (String.length stem)).
  { destruct (rfind_from_bounds "/" stem 0 ltac:(lia)) as [E | E];
      fold sepIndex in E; lia. }
  destruct (sepIndex <? 0 + Z.of_nat (String.length stem)) eqn:E; [| lia].
  replace (sepIndex + 1) with (Z.of_nat (Z.to_nat (sepIndex + 1))) at 1 by lia.
  rewrite skip_leading_dots_spec.
  unfold slice_to, slice_from. rewrite Z.add_0_l, Nat2Z.id.
  rewrite take_app_length, drop_app_length.
  rewrite drop_app by lia.
  unfold filename, slice_from, rfind. fold sepIndex.
  replace (Z.to_nat (Z.of_nat (String.length stem) - (sepIndex + 1)))
    with (String.length (drop (Z.to_nat (sepIndex + 1)) stem))
    by (rewrite length_drop; lia).
  by rewrite dots_only_app.
Qed.

Lemma splitext_unfold (p : string) :
  PosixPath.splitext p =
  let sepIndex := rfind p PosixPath.sep in
  let dotIndex := rfind p PosixPath.extsep in
  if sepIndex <? dotIndex then
    if dots_only (Z.to_nat (dotIndex - (sepIndex + 1)))
         (drop (Z.to_nat (sepIndex + 1)) p)
    then (p, "")
    else (slice_to p dotIndex, slice_from p dotIndex)
  else (p, "").
Proof.
  unfold PosixPath.splitext. cbv zeta.
  destruct (rfind p PosixPath.sep <? rfind p PosixPath.extsep); [| done].
  assert (H : -1 <= rfind p PosixPath.sep).
  { destruct (rfind_from_bounds PosixPath.sep p 0 ltac:(lia)) as [E | E];
      fold (rfind p PosixPath.sep) in E; lia. }
  replace (rfind p PosixPath.sep + 1)
    with (Z.of_nat (Z.to_nat (rfind p PosixPath.sep + 1))) at 1 by lia.
  apply skip_leading_dots_spec.
Qed.

(** The extension [splitext] returns is empty or starts at the last dot
    of the path. *)
Lemma splitext_ext (p : string) :
  snd (PosixPath.splitext p) = "" \/
  exists stem x, p = stem +:+ String "." x /\ has_char "." x = false /\
                 PosixPath.splitext p = (stem, String "." x).
Proof.
  rewrite splitext_unfold. cbv zeta.
  destruct (Z.ltb_spec (rfind p PosixPath.sep) (rfind p PosixPath.extsep))
    as [E | E]; [| by left].
  destruct (dots_only _ _); [by left |]. right.
  assert (H : -1 <= rfind p PosixPath.sep).
  { destruct (rfind_from_bounds PosixPath.sep p 0 ltac:(lia)) as [E' | E'];
      fold (rfind p PosixPath.sep) in E'; lia. }
  destruct (rfind_from_hit PosixPath.extsep p 0 ltac:(lia)
              ltac:(fold (rfind p PosixPath.extsep); lia))
    as (pre & post & Hp & Hpost & Hr).
  fold (rfind p PosixPath.extsep) in Hr.
  exists pre, post. split; [done |]. split; [done |].
  unfold slice_to, slice_from. rewrite Hr, Z.add_0_l, Nat2Z.id.
  rewrite Hp at 1 2. by rewrite take_app_length, drop_app_length.
Qed.

End PyStrFacts.

(** ** Running the monad *)

Lemma bind_unfold {A B} (m : M A) (k : A -> M B) (w : world) :
  bind m k w =
  match m w with
  | (inr a, w') => k a w'
  | (inl e, w') => (inl e, w')
  end.
Proof. reflexivity. Qed.

Lemma bind_returns {A B} (m : M A) (k : A -> M B) w a w' :
  m w = (inr a, w') -> bind m k w = k a w'.
Proof. intros H. rewrite bind_unfold, H. reflexivity. Qed.

Lemma bind_raises {A B} (m : M A) (k : A -> M B) w e w' :
  m w = (inl e, w') -> bind m k w = (inl e, w').
Proof. intros H. rewrite bind_unfold, H. reflexivity. Qed.

(** Every run of [bind m k] either stops in [m] or continues in [k]. *)
Lemma bind_inv {A B} (m : M A) (k : A -> M B) w r w' :
  bind m k w = (r, w') ->
  (exists e, m w = (inl e, w') /\ r = inl e) \/
  (exists a w1, m w = (inr a, w1) /\ k a w1 = (r, w')).
Proof.
  rewrite bind_unfold. destruct (m w) as [[e | a] w1]; intros H.
  - left. exists e. inversion H; subst. auto.
  - right. exists a, w1. auto.
Qed.

(** ** File-system facts *)

#[local] Instance nodes_kept_preorder : PreOrder nodes_kept.
Proof. split; unfold nodes_kept; [intros f | intros f g h]; eauto. Qed.

#[local] Instance dirs_kept_preorder : PreOrder dirs_kept.
Proof. split; unfold dirs_kept; [intros f | intros f g h]; eauto. Qed.

Lemma nodes_kept_dirs f f' : nodes_kept f f' -> dirs_kept f f'.
Proof. unfold nodes_kept, dirs_kept. eauto. Qed.

Lemma node_at_insert (f : filesystem) (q k : list string) (n : node) :
  q <> [] ->
  node_at (<[q := n]> f) k = if decide (q = k) then Some n else node_at f k.
Proof.
  intros Hq. destruct k as [| c k']; cbn.
  - destruct (decide (q = [])); congruence.
  - apply lookup_insert.
Qed.

Lemma node_at_None_nonroot (f : filesystem) (q : list string) :
  node_at f q = None -> q <> [].
Proof. destruct q; [discriminate | discriminate]. Qed.

Lemma insert_fresh_nodes_kept (f : filesystem) (q : list string) (n : node) :
  node_at f q = None -> nodes_kept f (<[q := n]> f).
Proof.
  intros Hq k m Hk. rewrite node_at_insert by eauto using node_at_None_nonroot.
  case_decide; [congruence | done].
Qed.

Lemma write_at_inv (q : list string) (content : list byte) (f f' : filesystem) :
  OS.write_at q content f = inr f' ->
  f' = <[q := File content]> f /\ node_at f q <> Some Dir /\ q <> [].
Proof.
  unfold OS.write_at. intros H.
  assert (Hnd : node_at f q <> Some Dir).
  { intros E. rewrite E in H. discriminate. }
  split; [| split; [done | intros ->; auto]].
  destruct (node_at f q) as [[c |] |]; try done;
    destruct (is_dir f (PosixPath.dirname q)); by inversion H.
Qed.

Lemma write_at_dirs_kept (q : list string) (content : list byte) (f f' : filesystem) :
  OS.write_at q content f = inr f' -> dirs_kept f f'.
Proof.
  intros (-> & Hnd & Hq)%write_at_inv k Hk. rewrite node_at_insert by done.
  case_decide; [congruence | done].
Qed.

Lemma write_at_read (q : list string) (content : list byte) (f f' : filesystem) :
  OS.write_at q content f = inr f' -> node_at f' q = Some (File content).
Proof.
  intros (-> & Hnd & Hq)%write_at_inv. rewrite node_at_insert by done.
  by rewrite decide_True.
Qed.

Lemma makedirs_from_nodes_kept (todo : list string) :
  forall (done : list string) (f f' : filesystem) (r : option string),
  OS.makedirs_from done todo f = (r, f') -> nodes_kept f f'.
Proof.
  induction todo as [| c rest IH]; intros done f f' r; cbn.
  - intros [= _ <-]. reflexivity.
  - destruct (node_at f (done ++ [c])%list) as [[content |] |] eqn:E.
    + intros [= _ <-]. reflexivity.
    + apply IH.
    + intros H. etransitivity; [| eapply IH, H].
      by apply insert_fresh_nodes_kept.
Qed.

(** After a successful [makedirs] every directory on the way exists. *)
Lemma makedirs_from_dirs (todo : list string) :
  forall (done : list string) (f f' : filesystem),
  OS.makedirs_from done todo f = (None, f') ->
  node_at f done = Some Dir ->
  forall q, done `prefix_of` q -> q `prefix_of` (done ++ todo)%list ->
            node_at f' q = Some Dir.
Proof.
  induction todo as [| c rest IH]; intros done f f' H Hd q H1 H2.
  - cbn in H. injection H as <-. rewrite app_nil_r in H2.
    by rewrite (anti_symm prefix _ _ H2 H1).
  - destruct (decide (q = done)) as [-> | Hne].
    { eapply makedirs_from_nodes_kept; eauto. }
    assert (Hq : (done ++ [c])%list `prefix_of` q).
    { destruct H1 as [x ->]. destruct H2 as [y Hy].
      rewrite <- app_assoc in Hy. apply app_inv_head in Hy.
      destruct x as [| c' x]; [by rewrite app_nil_r in Hne |].
      cbn in Hy. injection Hy as -> _. exists x. by rewrite <- app_assoc. }
    rewrite (cons_middle c done rest), app_assoc in H2.
    cbn in H.
    destruct (node_at f (done ++ [c])%list) as [[content |] |] eqn:E.
    + discriminate.
    + eapply IH; eauto.
    + eapply IH; eauto. rewrite node_at_insert by (by destruct done).
      by rewrite decide_True.
Qed.

Lemma prefix_of_removelast {A} (q o : list A) :
  q `prefix_of` o -> q <> o -> q `prefix_of` removelast o.
Proof.
  intros [x ->] Hne. destruct x as [| a x] using rev_ind.
  - by rewrite app_nil_r in Hne.
  - rewrite app_assoc, removelast_last. by exists x.
Qed.

Lemma node_at_cons (f : filesystem) (c : string) (k : list string) :
  node_at f (c :: k) = f !! (c :: k).
Proof. reflexivity. Qed.

Lemma remove_tree_outside (q : list string) (f : filesystem) (k : list string) :
  ~ q `prefix_of` k -> node_at (OS.remove_tree q f) k = node_at f k.
Proof.
  intros Hk. unfold OS.remove_tree. destruct (is_dir f q); [| done].
  destruct k as [| c k']; [done |]. rewrite !node_at_cons.
  destruct (f !! (c :: k')) as [n |] eqn:E.
  - apply map_lookup_filter_Some. done.
  - apply map_lookup_filter_None. left. done.
Qed.

Lemma remove_tree_inside (q : list string) (f : filesystem) (k : list string) :
  node_at f q = Some Dir -> q <> [] -> q `prefix_of` k ->
  OS.remove_tree q f !! k = None.
Proof.
  intros Hq Hne Hk. unfold OS.remove_tree, is_dir. rewrite Hq.
  apply map_lookup_filter_None. right. intros n _. cbn. tauto.
Qed.

(** ** The program logic *)

Lemma exits_code (codes : list Z) (code : Z) :
  exits codes (SystemExit code) -> bool_decide (code ∈ codes) = true.
Proof. intros H. by apply bool_decide_eq_true. Qed.

Section Sat.

Context (P : event -> Prop) (E : exn -> Prop).

Lemma sat_ret {A} (Q : A -> Prop) a : Q a -> sat P E Q (ret a).
Proof.
  intros HQ w r w' [= <- <-]. split; [reflexivity |]. split; [| done].
  exists []. by rewrite app_nil_r.
Qed.

Lemma sat_raise {A} (Q : A -> Prop) e : E e -> sat P E Q (raise e).
Proof.
  intros HE w r w' [= <- <-]. split; [reflexivity |]. split; [| done].
  exists []. by rewrite app_nil_r.
Qed.

Lemma sat_log e : P e -> sat P E any (log e).
Proof.
  intros HP w r w' [= <- <-]. split; [reflexivity |]. split; [| done].
  exists [e]. split; [done | by constructor].
Qed.

Lemma sat_bind {A B} (Q : A -> Prop) (Q' : B -> Prop) m k :
  sat P E Q m -> (forall a, Q a -> sat P E Q' (k a)) ->
  sat P E Q' (bind m k).
Proof.
  intros Hm Hk w r w' H.
  destruct (bind_inv _ _ _ _ _ H) as [(e & Hw & ->) | (a & w1 & Hw & Hw1)].
  - destruct (Hm _ _ _ Hw) as (? & ? & ?). done.
  - destruct (Hm _ _ _ Hw) as (D1 & (n1 & T1 & F1) & HQ).
    destruct (Hk a HQ _ _ _ Hw1) as (D2 & (n2 & T2 & F2) & Hr).
    split; [by etransitivity |]. split; [| done].
    exists (n1 ++ n2)%list. split.
    + by rewrite T2, T1, app_assoc.
    + by apply Forall_app.
Qed.

Lemma sat_weaken {A} (E' : exn -> Prop) (Q Q' : A -> Prop) m :
  (forall e, E' e -> E e) -> (forall a, Q a -> Q' a) ->
  sat P E' Q m -> sat P E Q' m.
Proof.
  intros HE HQ Hm w r w' H. destruct (Hm _ _ _ H) as (? & ? & Hr).
  split; [done |]. split; [done |]. destruct r; auto.
Qed.

(** A step that reads the world, or rewrites only the file system. *)
Lemma sat_quiet {A} (Q : A -> Prop) (m : M A) :
  (forall w r w', m w = (r, w') ->
     dirs_kept (fs w) (fs w') /\ trace w' = trace w /\
     match r with inl e => E e | inr a => Q a end) ->
  sat P E Q m.
Proof.
  intros Hm w r w' H. destruct (Hm _ _ _ H) as (? & T & ?).
  split; [done |]. split; [| done]. exists []. by rewrite app_nil_r.
Qed.

End Sat.

Section Properties.

Variable cwd : PosixPath.path.
Variable gettempdir : string.
Variable which : string -> option string.
Variable subset_engine : list string -> filesystem -> string + option (list byte).
Variable fontforge_engine : list string -> filesystem -> Z * option (list byte).
Variable TTFont_parse : list byte -> string + ttfont.

Abbreviation resolve := (OS.resolve cwd).
Abbreviation TTFont' := (TTFont cwd TTFont_parse).
Abbreviation check_try := (check_ttf_tables_try cwd TTFont_parse).
Abbreviation check := (check_ttf_tables cwd TTFont_parse).
Abbreviation run_pyftsubset' := (run_pyftsubset cwd subset_engine).
Abbreviation stage_A' := (stage_A cwd subset_engine).
Abbreviation stage_B' := (stage_B cwd which fontforge_engine).
Abbreviation stage_C' := (stage_C cwd subset_engine).
Abbreviation intermediate_check' := (intermediate_check cwd TTFont_parse).
Abbreviation final_verification' := (final_verification cwd TTFont_parse).
Abbreviation otf_pipeline' :=
  (otf_pipeline cwd which subset_engine fontforge_engine TTFont_parse).
Abbreviation truetype_path' := (truetype_path cwd subset_engine).
Abbreviation produce' :=
  (produce cwd which subset_engine fontforge_engine TTFont_parse).
Abbreviation try_body' :=
  (try_body cwd which subset_engine fontforge_engine TTFont_parse).
Abbreviation prelude' := (prelude cwd gettempdir).
Abbreviation main' :=
  (main cwd gettempdir which subset_engine fontforge_engine TTFont_parse).

(** *** [check_ttf_tables] *)

Lemma TTFont_outcome path w :
  (exists cls, TTFont' path w = (inl (Exception cls), w)) \/
  (exists tf, TTFont' path w = (inr tf, w)).
Proof.
  unfold TTFont, OS.read_file. rewrite bind_unfold.
  destruct (OS.read_at _ _) as [cls | content]; [eauto |].
  destruct (TTFont_parse content) as [cls | tf]; cbn; eauto.
Qed.

Lemma check_try_outcome path w :
  (exists cls, check_try path w = (inl (Exception cls), w)) \/
  (exists t, check_try path w = (inr t, w)).
Proof.
  unfold check_ttf_tables_try. rewrite bind_unfold.
  destruct (TTFont_outcome path w) as [[cls ->] | [tf ->]]; [eauto |].
  rewrite bind_unfold. destruct (has_table tf "maxp"); [| cbn; eauto].
  unfold get_numGlyphs. destruct (maxp_numGlyphs tf); cbn; eauto.
Qed.

(** The result is always a tuple, the world is untouched, and the first
    component is the conjunction of the next two. *)
Lemma check_returns path w :
  exists g l n, check path w = (inr (g && l, g, l, n), w).
Proof.
  unfold check_ttf_tables, try_except.
  destruct (check_try_outcome path w) as [[cls ->] | [t Ht]].
  { exists false, false, (-1). reflexivity. }
  rewrite Ht. revert Ht.
  unfold check_ttf_tables_try. rewrite bind_unfold.
  destruct (TTFont_outcome path w) as [[cls ->] | [tf ->]]; [discriminate |].
  rewrite bind_unfold.
  destruct (if has_table tf "maxp" then _ else _) as [[e | n] w1];
    [discriminate |].
  cbn. intros [= <-]. eauto.
Qed.

(** C5. [check_ttf_tables] returns on every path and never raises; when
    opening the font or reading its glyph count fails it returns
    (false, false, false, -1); otherwise it returns (glyf and loca,
    glyf, loca, count), where the count is read from [maxp] when the
    font has that table and is -1 when it has not. *)
Theorem check_ttf_tables_total (path : string) (w : world) :
  exists t,
    check path w = (inr t, w) /\
    match TTFont' path w with
    | (inl _, _) => t = (false, false, false, -1)
    | (inr tf, _) =>
        let g := has_table tf "glyf" in
        let l := has_table tf "loca" in
        if has_table tf "maxp" then
          match maxp_numGlyphs tf with
          | inr n => t = (g && l, g, l, n)
          | inl _ => t = (false, false, false, -1)
          end
        else t = (g && l, g, l, -1)
    end.
Proof.
  unfold check_ttf_tables, try_except, check_ttf_tables_try.
  rewrite bind_unfold.
  destruct (TTFont_outcome path w) as [[cls ->] | [tf ->]].
  { eexists. split; reflexivity. }
  rewrite bind_unfold. unfold get_numGlyphs.
  destruct (has_table tf "maxp").
  - destruct (maxp_numGlyphs tf) as [cls | n]; cbn;
      eexists; split; reflexivity.
  - cbn. eexists. split; reflexivity.
Qed.

(** *** Exit paths of [main] *)

Lemma bind_assoc {A B C} (m : M A) (k : A -> M B) (h : B -> M C) w :
  bind (bind m k) h w = bind m (fun a => bind (k a) h) w.
Proof.
  rewrite !bind_unfold. destruct (m w) as [[e | a] w1]; reflexivity.
Qed.

Lemma rmtree_run p w :
  OS.rmtree cwd p w =
  (inr tt, World (OS.remove_tree (resolve p) (fs w)) (rnd w)
             (trace w ++ [Rmtree p])).
Proof. reflexivity. Qed.

(** The [finally] clause of [main] never replaces the outcome of the
    [try] body. *)
Lemma finally_rmtree {A} (body : M A) p w r w1 :
  body w = (r, w1) ->
  try_finally body (OS.rmtree cwd p) w =
  (r, World (OS.remove_tree (resolve p) (fs w1)) (rnd w1)
        (trace w1 ++ [Rmtree p])).
Proof. intros H. unfold try_finally. rewrite H, rmtree_run. reflexivity. Qed.

Lemma main_after_prelude a w ext tmpdir w0 :
  prelude' a w = (inr (ext, tmpdir), w0) ->
  main' a w = try_finally (try_body' a ext tmpdir) (OS.rmtree cwd tmpdir) w0.
Proof. intros H. unfold main. rewrite (bind_returns _ _ _ _ _ H). reflexivity. Qed.

(** The success report cannot fail: its only fallible part is guarded. *)
Lemma report_returns a w :
  exists w', report cwd a w = (inr tt, w').
Proof.
  unfold report, print, log. rewrite !bind_unfold.
  unfold try_except. rewrite bind_unfold.
  unfold OS.getsize at 1.
  destruct (node_at _ _) as [[c |] |]; [| | eexists; reflexivity].
  all: rewrite bind_unfold; unfold OS.getsize;
    destruct (node_at _ _) as [[c' |] |]; eexists; reflexivity.
Qed.

(** C3. When the input path is not an existing file, the run prints
    the error line on standard error and exits with status 1, and it
    does nothing else: the file system is unchanged (no output
    directory, no temporary directory), no temporary name is drawn and
    the error line is the only event. *)
Theorem missing_input_exits_1 (a : args) (w : world) :
  OS.isfile cwd (in_font a) w = (inr false, w) ->
  fst (main' a w) = inl (SystemExit 1) /\
  exit_status (main' a w) = 1 /\
  fs (snd (main' a w)) = fs w /\
  rnd (snd (main' a w)) = rnd w /\
  trace (snd (main' a w))
    = (trace w ++ [Stderr ("ERROR: input not found: " +:+ in_font a)])%list.
Proof.
  intros H.
  assert (Hm : main' a w =
               (inl (SystemExit 1),
                emit (Stderr ("ERROR: input not found: " +:+ in_font a)) w)).
  { unfold main, prelude. rewrite bind_unfold.
    rewrite (bind_returns _ _ _ _ _ H). reflexivity. }
  rewrite Hm. unfold exit_status. cbn. auto.
Qed.

(** C1. With minimum glyph count N = [min_glyphs a]: a run on an OTF
    input that completes Stages A and B and whose intermediate font
    lacks glyf or loca, or has fewer than N glyphs, exits with status
    2; a run that produces its final output exits with status 3 when
    the output lacks glyf or loca or has fewer than N glyphs, and with
    status 0 otherwise. *)
Theorem checkpoint_exit_codes (a : args) (w : world) :
  (forall tmpdir w0 w1 ok has_glyf has_loca num_glyphs,
      prelude' a w = (inr (".otf", tmpdir), w0) ->
      (stage_A' a (PosixPath.join tmpdir "subset.otf") ;;;
       stage_B' (PosixPath.join tmpdir "subset.otf")
                (PosixPath.join tmpdir "intermediate.ttf")) w0 = (inr tt, w1) ->
      check (PosixPath.join tmpdir "intermediate.ttf") w1
        = (inr (ok, has_glyf, has_loca, num_glyphs), w1) ->
      has_glyf && has_loca = false \/ num_glyphs < min_glyphs a ->
      exit_status (main' a w) = 2) /\
  (forall ext tmpdir w0 w2 ok has_glyf has_loca num_glyphs,
      prelude' a w = (inr (ext, tmpdir), w0) ->
      produce' a ext tmpdir w0 = (inr tt, w2) ->
      check (out_font a) w2 = (inr (ok, has_glyf, has_loca, num_glyphs), w2) ->
      exit_status (main' a w) =
      if negb (has_glyf && has_loca) || (num_glyphs <? min_glyphs a)
      then 3 else 0).
Proof.
  split.
  - intros tmpdir w0 w1 ok g l n Hpre HAB Hchk Hbad.
    rewrite (main_after_prelude _ _ _ _ _ Hpre).
    assert (Hok : ok = g && l).
    { destruct (check_returns (PosixPath.join tmpdir "intermediate.ttf") w1)
        as (g' & l' & n' & E). rewrite E in Hchk. congruence. }
    assert (Hrej : rejected a (ok, g, l, n) = true).
    { unfold rejected. subst ok.
      destruct Hbad as [-> | Hlt]; [reflexivity |].
      apply orb_true_iff. right. lia. }
    assert (Hbody : exists w2, try_body' a ".otf" tmpdir w0 = (inl (SystemExit 2), w2)).
    { unfold try_body, produce, otf_pipeline. cbn [String.eqb Ascii.eqb Bool.eqb].
      rewrite bind_unfold.
      rewrite <- bind_assoc. rewrite (bind_returns _ _ _ _ _ HAB).
      unfold intermediate_check at 1. rewrite bind_unfold.
      rewrite (bind_returns _ _ _ _ _ Hchk). rewrite Hrej.
      eexists. reflexivity. }
    destruct Hbody as [w2 Hbody].
    rewrite (finally_rmtree _ _ _ _ _ Hbody). reflexivity.
  - intros ext tmpdir w0 w2 ok g l n Hpre Hprod Hchk.
    rewrite (main_after_prelude _ _ _ _ _ Hpre).
    assert (Hok : ok = g && l).
    { destruct (check_returns (out_font a) w2) as (g' & l' & n' & E).
      rewrite E in Hchk. congruence. }
    subst ok.
    assert (Hbody : exists r w3,
               try_body' a ext tmpdir w0 = (r, w3) /\
               r = if negb (g && l) || (n <? min_glyphs a)
                   then inl (SystemExit 3) else inr tt).
    { unfold try_body. rewrite (bind_returns _ _ _ _ _ Hprod).
      unfold final_verification. rewrite bind_unfold.
      rewrite (bind_returns _ _ _ _ _ Hchk). unfold rejected.
      destruct (negb (g && l) || (n <? min_glyphs a)).
      - do 2 eexists. split; reflexivity.
      - cbn [ret].
        destruct (report_returns a w2) as [w3 ->].
        do 2 eexists. split; reflexivity. }
    destruct Hbody as (r & w3 & Hbody & ->).
    rewrite (finally_rmtree _ _ _ _ _ Hbody).
    destruct (negb (g && l) || (n <? min_glyphs a)); reflexivity.
Qed.

(** *** What every part of the script preserves *)

Section Invariants.

Variable a : args.
Variable codes : list Z.
Variable sel : args -> option string.

Abbreviation okay := (sat (subset_call_ok sel a) (exits codes)).

Local Ltac quiet H :=
  apply sat_quiet; intros w r w' H.

Lemma sat_isfile p : okay any (OS.isfile cwd p).
Proof. quiet H. injection H as <- <-. done. Qed.

Lemma sat_read_file p : okay any (OS.read_file cwd p).
Proof.
  quiet H. unfold OS.read_file in H.
  destruct (OS.read_at _ _); injection H as <- <-; done.
Qed.

Lemma sat_write_file p content : okay any (OS.write_file cwd p content).
Proof.
  quiet H. unfold OS.write_file in H.
  destruct (OS.write_at _ _ _) as [cls | f] eqn:E; injection H as <- <-.
  - done.
  - split; [| done]. eapply write_at_dirs_kept, E.
Qed.

Lemma sat_print line : okay any (print line).
Proof. by apply sat_log. Qed.

Lemma sat_eprint line : okay any (eprint line).
Proof. by apply sat_log. Qed.

Lemma sat_sys_exit {A} (Q : A -> Prop) code :
  code ∈ codes -> okay Q (sys_exit code).
Proof. intros H. by apply sat_raise. Qed.

Lemma sat_copyfile src dst : okay any (OS.copyfile cwd src dst).
Proof.
  unfold OS.copyfile. eapply sat_bind; [by apply sat_log |]. intros _ _.
  case_decide; [by apply sat_raise |].
  eapply sat_bind; [apply sat_read_file |]. intros content _.
  apply sat_write_file.
Qed.

Lemma sat_str_add pre o :
  okay (fun s => exists t, o = Some t /\ s = pre +:+ t) (str_add pre o).
Proof.
  destruct o as [t |]; [apply sat_ret; eauto | by apply sat_raise].
Qed.

Lemma sat_pyftsubset_main args_list :
  okay any (pyftsubset_main cwd subset_engine args_list).
Proof.
  quiet H. unfold pyftsubset_main in H.
  destruct (subset_engine _ _) as [cls | [font |]];
    [injection H as <- <-; done | | injection H as <- <-; done].
  destruct (output_file_of args_list) as [out |];
    [| injection H as <- <-; done].
  destruct (sat_write_file out font _ _ _ H) as (D & (new & T & F) & R).
  split; [done |]. split; [| done].
  unfold OS.write_file in H.
  destruct (OS.write_at _ _ _); injection H as <- <-; done.
Qed.

Lemma sat_run_pyftsubset args_list :
  (exists s, sel a = Some s /\ last args_list = Some s) ->
  okay any (run_pyftsubset' args_list).
Proof.
  intros H. unfold run_pyftsubset.
  eapply sat_bind; [by apply sat_log |]. intros _ _.
  apply sat_pyftsubset_main.
Qed.

Lemma sat_subprocess_run cmd :
  okay any (subprocess_run cwd fontforge_engine cmd).
Proof.
  unfold subprocess_run. eapply sat_bind; [by apply sat_log |]. intros _ _.
  quiet H. destruct (fontforge_engine _ _) as [returncode generated].
  assert (D : dirs_kept (fs w)
                (fs match generated with
                    | Some font =>
                        match OS.write_at (resolve (nth 5 cmd "")) font (fs w) with
                        | inr f => set_fs f w
                        | inl _ => w
                        end
                    | None => w
                    end)).
  { destruct generated as [font |]; [| reflexivity].
    destruct (OS.write_at _ _ _) eqn:E; [reflexivity |].
    eapply write_at_dirs_kept, E. }
  assert (T : trace match generated with
                    | Some font =>
                        match OS.write_at (resolve (nth 5 cmd "")) font (fs w) with
                        | inr f => set_fs f w
                        | inl _ => w
                        end
                    | None => w
                    end = trace w).
  { destruct generated as [font |]; [| reflexivity].
    destruct (OS.write_at _ _ _); reflexivity. }
  destruct (returncode =? 0); injection H as <- <-; done.
Qed.

Lemma sat_ff_convert otf ttf :
  okay any (ff_convert_otf_to_ttf cwd which fontforge_engine otf ttf).
Proof.
  unfold ff_convert_otf_to_ttf. destruct (negb _).
  - by apply sat_raise.
  - apply sat_subprocess_run.
Qed.

Lemma sat_check path : okay any (check path).
Proof.
  quiet H. destruct (check_returns path w) as (g & l & n & E).
  rewrite E in H. injection H as <- <-. done.
Qed.

Lemma sat_report : okay any (report cwd a).
Proof.
  unfold report.
  eapply sat_bind; [apply sat_print |]. intros _ _.
  eapply sat_bind; [apply sat_print |]. intros _ _.
  intros w r w' H. unfold try_except in H. rewrite !bind_unfold in H.
  unfold OS.getsize at 1 in H.
  destruct (node_at _ _) as [[c |] |] in H.
  3: { injection H as <- <-. split; [reflexivity |]. split; [| done].
       exists []. by rewrite app_nil_r. }
  all: rewrite bind_unfold in H; unfold OS.getsize in H;
    destruct (node_at _ _) as [[c' |] |] in H; injection H as <- <-;
    (split; [reflexivity |]); (split; [| done]);
    first [ by (eexists [_]; split; [reflexivity | by constructor])
          | by (exists []; rewrite app_nil_r) ].
Qed.

(** From here on the selection is the resolved one. *)
Hypothesis Hsel : sel a = resolved_selection a.

(** The text-file branch of a subsetting stage passes the text file. *)
Lemma selection_text_file t :
  PyStr.truthy (text_file a) = true -> text_file a = Some t ->
  resolved_selection a = Some ("--text-file=" +:+ t).
Proof.
  intros Ht E. unfold resolved_selection, given. by rewrite Ht, E.
Qed.

(** The other branch passes the ranges, the preset or [sc-min]. *)
Lemma selection_unicodes u :
  PyStr.truthy (text_file a) = false ->
  PyStr.or_else (unicodes a)
    (PRESETS_get (str_opt (PyStr.or_else (preset a) (Some "sc-min")))) = Some u ->
  resolved_selection a = Some ("--unicodes=" +:+ u).
Proof.
  intros Ht E. unfold resolved_selection, given. rewrite Ht.
  unfold PyStr.or_else in E.
  destruct (PyStr.truthy (unicodes a)) eqn:Hu; [by rewrite E |].
  destruct (PyStr.truthy (preset a)) eqn:Hp.
  - destruct (preset a) as [k |]; [| done].
    change (str_opt (Some k)) with k in E. by rewrite E.
  - change (str_opt (Some "sc-min")) with "sc-min" in E. by rewrite E.
Qed.

Lemma sat_stage_A subset_otf : okay any (stage_A' a subset_otf).
Proof.
  unfold stage_A. destruct (PyStr.truthy (text_file a)) eqn:Ht.
  - eapply sat_bind; [apply sat_print |]. intros _ _.
    eapply sat_bind; [apply sat_str_add |]. intros arg (t & E & ->).
    apply sat_run_pyftsubset. rewrite Hsel. eauto using selection_text_file.
  - eapply sat_bind; [apply sat_print |]. intros _ _.
    eapply sat_bind; [apply sat_str_add |]. intros arg (u & E & ->).
    apply sat_run_pyftsubset. rewrite Hsel.
    exists ("--unicodes=" +:+ u). split; [| done].
    apply selection_unicodes; [done |]. unfold PyStr.or_else.
    by destruct (PyStr.truthy (unicodes a)).
Qed.

Lemma sat_stage_B subset_otf ttf_intermediate :
  okay any (stage_B' subset_otf ttf_intermediate).
Proof.
  unfold stage_B. eapply sat_bind; [apply sat_print |]. intros _ _.
  apply sat_ff_convert.
Qed.

Lemma sat_intermediate_check ttf_intermediate :
  2 ∈ codes -> okay any (intermediate_check' a ttf_intermediate).
Proof.
  intros H2. unfold intermediate_check.
  eapply sat_bind; [apply sat_check |]. intros [[[ok g] l] n] _.
  destruct (rejected a _); [| by apply sat_ret].
  eapply sat_bind; [apply sat_eprint |]. intros _ _.
  by apply sat_sys_exit.
Qed.

Lemma sat_stage_C ttf_intermediate : okay any (stage_C' a ttf_intermediate).
Proof.
  unfold stage_C. destruct (no_second_subset a).
  { eapply sat_bind; [apply sat_print |]. intros _ _. apply sat_copyfile. }
  destruct (PyStr.truthy (text_file a)) eqn:Ht.
  - eapply sat_bind; [apply sat_print |]. intros _ _.
    eapply sat_bind; [apply sat_str_add |]. intros arg (t & E & ->).
    apply sat_run_pyftsubset. rewrite Hsel. eauto using selection_text_file.
  - eapply sat_bind; [apply sat_print |]. intros _ _.
    eapply sat_bind; [apply sat_str_add |]. intros arg (u & E & ->).
    apply sat_run_pyftsubset. rewrite Hsel. eauto using selection_unicodes.
Qed.

Lemma sat_truetype_path : okay any (truetype_path' a).
Proof.
  unfold truetype_path.
  destruct (PyStr.truthy (text_file a) || PyStr.truthy (unicodes a)
            || PyStr.truthy (preset a)).
  2: { eapply sat_bind; [apply sat_print |]. intros _ _. apply sat_copyfile. }
  destruct (PyStr.truthy (text_file a)) eqn:Ht.
  - eapply sat_bind; [apply sat_print |]. intros _ _.
    eapply sat_bind; [apply sat_str_add |]. intros arg (t & E & ->).
    apply sat_run_pyftsubset. rewrite Hsel. eauto using selection_text_file.
  - eapply sat_bind; [apply sat_print |]. intros _ _.
    eapply sat_bind; [apply sat_str_add |]. intros arg (u & E & ->).
    apply sat_run_pyftsubset. rewrite Hsel. eauto using selection_unicodes.
Qed.

Lemma sat_produce ext tmpdir :
  2 ∈ codes -> okay any (produce' a ext tmpdir).
Proof.
  intros H2. unfold produce. destruct (String.eqb ext ".otf").
  - unfold otf_pipeline.
    eapply sat_bind; [apply sat_stage_A |]. intros _ _.
    eapply sat_bind; [apply sat_stage_B |]. intros _ _.
    eapply sat_bind; [by apply sat_intermediate_check |]. intros _ _.
    apply sat_stage_C.
  - apply sat_truetype_path.
Qed.

Lemma sat_final_verification :
  3 ∈ codes -> okay any (final_verification' a).
Proof.
  intros H3. unfold final_verification.
  eapply sat_bind; [apply sat_check |]. intros [[[ok g] l] n] _.
  destruct (rejected a _); [| by apply sat_ret].
  eapply sat_bind; [apply sat_print |]. intros _ _.
  eapply sat_bind; [apply sat_eprint |]. intros _ _.
  by apply sat_sys_exit.
Qed.

Lemma sat_makedirs p : okay any (OS.makedirs p).
Proof.
  unfold OS.makedirs. eapply sat_bind; [by apply sat_log |]. intros _ _.
  quiet H. destruct (OS.makedirs_from [] p (fs w)) as [[cls |] f] eqn:E;
    injection H as <- <-; (split; [| done]);
    eapply nodes_kept_dirs, makedirs_from_nodes_kept, E.
Qed.

Lemma mkdtemp_loop_inv dir prefix names : forall (f f' : filesystem) file names',
  OS.mkdtemp_loop cwd dir prefix names f = (inr (file, f'), names') ->
  node_at f (resolve file) = None /\ f' = <[resolve file := Dir]> f.
Proof.
  induction names as [| name names IH]; intros f f' file names'; cbn.
  - discriminate.
  - destruct (node_at f _) as [n |] eqn:E; [apply IH |].
    destruct (is_dir f _); [| discriminate].
    intros [= <- <- <-]. done.
Qed.

Lemma sat_mkdtemp dir prefix : okay any (OS.mkdtemp cwd dir prefix).
Proof.
  intros w r w' H. unfold OS.mkdtemp in H.
  destruct (OS.mkdtemp_loop _ _ _ _ _) as [[cls | [file f]] names'] eqn:E;
    injection H as <- <-.
  - split; [reflexivity |]. split; [| done]. exists []. by rewrite app_nil_r.
  - apply mkdtemp_loop_inv in E as [E ->].
    split; [by apply nodes_kept_dirs, insert_fresh_nodes_kept |].
    split; [| done]. eexists [_]. split; [done | by constructor].
Qed.

Lemma sat_prelude : 1 ∈ codes -> okay any (prelude' a).
Proof.
  intros H1. unfold prelude.
  eapply sat_bind; [apply sat_isfile |]. intros found _.
  eapply sat_bind.
  { instantiate (1 := any). destruct (negb found); [| by apply sat_ret].
    eapply sat_bind; [apply sat_eprint |]. intros _ _.
    by apply sat_sys_exit. }
  intros _ _.
  eapply sat_bind; [apply sat_makedirs |]. intros _ _.
  eapply sat_bind; [apply sat_mkdtemp |]. intros tmpdir _.
  by apply sat_ret.
Qed.

Lemma sat_try_body ext tmpdir :
  2 ∈ codes -> 3 ∈ codes -> okay any (try_body' a ext tmpdir).
Proof.
  intros H2 H3. unfold try_body.
  eapply sat_bind; [by apply sat_produce |]. intros _ _.
  eapply sat_bind; [by apply sat_final_verification |]. intros _ _.
  apply sat_report.
Qed.

End Invariants.

(** *** The shape of a run *)

(** What a returning [prelude] has done: the input is a file, the
    directory of the output path exists with all its ancestors, and
    the temporary directory is a directory that was not there before. *)
Lemma prelude_returns a w ext tmpdir w0 :
  prelude' a w = (inr (ext, tmpdir), w0) ->
  exists content f1,
    node_at (fs w) (resolve (in_font a)) = Some (File content) /\
    OS.makedirs_from [] (PosixPath.dirname (resolve (out_font a))) (fs w)
      = (None, f1) /\
    node_at f1 (resolve tmpdir) = None /\
    fs w0 = <[resolve tmpdir := Dir]> f1 /\
    ext = PyStr.lower (snd (PosixPath.splitext (in_font a))) /\
    trace w0 = (trace w ++ [Makedirs (PosixPath.dirname (resolve (out_font a)));
                            Mkdtemp tmpdir])%list.
Proof.
  unfold prelude. rewrite bind_unfold. unfold OS.isfile at 1.
  destruct (node_at (fs w) (resolve (in_font a))) as [[content |] |] eqn:Ein;
    cbn [negb]; rewrite bind_unfold; [| discriminate | discriminate].
  cbn [ret]. rewrite bind_unfold. unfold OS.makedirs at 1.
  rewrite bind_unfold. cbn [log emit fs rnd trace].
  destruct (OS.makedirs_from _ _ _) as [[cls |] f1] eqn:Emk; [discriminate |].
  rewrite bind_unfold. unfold OS.mkdtemp, set_fs. cbn [fs rnd trace].
  destruct (OS.mkdtemp_loop _ _ _ _ _) as [[cls | [file f]] names'] eqn:Etmp;
    [discriminate |].
  cbn [ret]. intros [= <- <- <-].
  apply mkdtemp_loop_inv in Etmp as [E ->].
  exists content, f1. cbn [fs trace]. rewrite <- app_assoc. done.
Qed.

(** The facts about the temporary directory every later step relies on. *)
Lemma tmpdir_facts a w ext tmpdir w0 :
  prelude' a w = (inr (ext, tmpdir), w0) ->
  node_at (fs w0) (resolve tmpdir) = Some Dir /\
  resolve tmpdir <> [] /\
  ~ resolve tmpdir `prefix_of` PosixPath.dirname (resolve (out_font a)) /\
  nodes_kept (fs w) (fs w0).
Proof.
  intros (content & f1 & Hin & Hmk & Hfresh & -> & _ & _)%prelude_returns.
  assert (Hq : resolve tmpdir <> []) by eauto using node_at_None_nonroot.
  split; [| split; [done | split]].
  - rewrite node_at_insert by done. by rewrite decide_True.
  - intros Hpre.
    assert (D : node_at f1 (resolve tmpdir) = Some Dir); [| congruence].
    eapply makedirs_from_dirs; eauto. apply prefix_nil.
  - etransitivity; [eapply makedirs_from_nodes_kept, Hmk |].
    by apply insert_fresh_nodes_kept.
Qed.

(** A file at the output path is out of reach of the cleanup. *)
Lemma output_survives (a : args) (w : world) (ext tmpdir : string) (w0 : world)
    (f2 : filesystem) (content : list byte) :
  prelude' a w = (inr (ext, tmpdir), w0) ->
  dirs_kept (fs w0) f2 ->
  node_at f2 (resolve (out_font a)) = Some (File content) ->
  node_at (OS.remove_tree (resolve tmpdir) f2) (resolve (out_font a))
    = Some (File content).
Proof.
  intros (Hd & Hq & Hpre & _)%tmpdir_facts Hkept Hout.
  rewrite remove_tree_outside; [done |]. intros Hp.
  destruct (decide (resolve tmpdir = resolve (out_font a))) as [E | Hne].
  - apply Hkept in Hd. rewrite E in Hd. congruence.
  - by apply Hpre, prefix_of_removelast.
Qed.

Lemma main_inv a w ext tmpdir w0 r w1 :
  prelude' a w = (inr (ext, tmpdir), w0) ->
  try_body' a ext tmpdir w0 = (r, w1) ->
  main' a w = (r, World (OS.remove_tree (resolve tmpdir) (fs w1)) (rnd w1)
                    (trace w1 ++ [Rmtree tmpdir])).
Proof.
  intros Hpre Hbody. rewrite (main_after_prelude _ _ _ _ _ Hpre).
  by apply finally_rmtree.
Qed.

(** The tail of the [try] body after the output is produced. *)
Lemma verification_outcome a w2 r w1 :
  (final_verification' a ;;; report cwd a) w2 = (r, w1) ->
  exists t, check (out_font a) w2 = (inr t, w2) /\
            fs w1 = fs w2 /\
            r = if rejected a t then inl (SystemExit 3) else inr tt.
Proof.
  rewrite bind_unfold. unfold final_verification. rewrite bind_unfold.
  destruct (check_returns (out_font a) w2) as (g & l & n & E). rewrite E.
  exists (g && l, g, l, n). split; [done |].
  destruct (rejected a _).
  - injection H as <- <-. done.
  - cbn [ret] in H. destruct (report_returns a w2) as [w3 Hr].
    rewrite Hr in H. injection H as <- <-. split; [| done].
    revert Hr. unfold report, print, log, try_except. rewrite !bind_unfold.
    unfold OS.getsize at 1. cbn [emit fs].
    destruct (node_at _ _) as [[c |] |]; [| | by intros [= <-]].
    all: rewrite bind_unfold; unfold OS.getsize; cbn [fs];
      destruct (node_at _ _) as [[c' |] |]; by intros [= <-].
Qed.

(** Every run of [main] is of one of three shapes: it stops in the
    prelude; or it stops while producing the output; or it produces
    the output, verifies it and ends on the verdict.  In the last two
    the cleanup has run. *)
Lemma main_shape a w :
  (exists e w', prelude' a w = (inl e, w') /\ main' a w = (inl e, w') /\
                exits [1] e) \/
  (exists ext tmpdir w0 r w1,
      prelude' a w = (inr (ext, tmpdir), w0) /\
      try_body' a ext tmpdir w0 = (r, w1) /\
      dirs_kept (fs w0) (fs w1) /\
      main' a w = (r, World (OS.remove_tree (resolve tmpdir) (fs w1)) (rnd w1)
                        (trace w1 ++ [Rmtree tmpdir])) /\
      ((exists e, produce' a ext tmpdir w0 = (inl e, w1) /\ r = inl e /\
                  exits [2] e) \/
       (exists w2 t, produce' a ext tmpdir w0 = (inr tt, w2) /\
                     check (out_font a) w2 = (inr t, w2) /\
                     fs w1 = fs w2 /\
                     r = if rejected a t then inl (SystemExit 3) else inr tt))).
Proof.
  destruct (prelude' a w) as [[e | [ext tmpdir]] w0] eqn:Hpre.
  - left. exists e, w0. split; [done |]. split.
    + unfold main. by rewrite (bind_raises _ _ _ _ _ Hpre).
    + apply (sat_prelude a [1] resolved_selection) in Hpre; [by destruct Hpre as (_ & _ & ?) |].
      set_solver.
  - right. destruct (try_body' a ext tmpdir w0) as [r w1] eqn:Hbody.
    exists ext, tmpdir, w0, r, w1. split; [done |]. split; [done |].
    split.
    { apply (sat_try_body a [2; 3] resolved_selection eq_refl) in Hbody; [by destruct Hbody |
        set_solver | set_solver]. }
    split; [by eapply main_inv |].
    unfold try_body in Hbody.
    apply bind_inv in Hbody as [(e & Hp & ->) | ([] & w2 & Hp & Htail)].
    + left. exists e. split; [done |]. split; [done |].
      apply (sat_produce a [2] resolved_selection eq_refl) in Hp; [by destruct Hp as (_ & _ & ?) |].
      set_solver.
    + right. apply verification_outcome in Htail as (t & ? & ? & ?).
      exists w2, t. done.
Qed.

(** *** Cleanup *)

(** C6. Once the temporary directory has been created, every run ends
    with it removed: whatever the outcome of the [try] body (normal
    return, [sys.exit(2)], [sys.exit(3)] or an exception), [main] ends
    with that same outcome, the last thing it does is the [rmtree] of
    the temporary directory, and neither the directory nor anything
    below it is left in the file system. *)
Theorem tmpdir_always_removed (a : args) (w : world) (ext tmpdir : string)
    (w0 : world) :
  prelude' a w = (inr (ext, tmpdir), w0) ->
  (forall k, resolve tmpdir `prefix_of` k -> fs (snd (main' a w)) !! k = None) /\
  last (trace (snd (main' a w))) = Some (Rmtree tmpdir) /\
  fst (main' a w) = fst (try_body' a ext tmpdir w0) /\
  match fst (main' a w) with
  | inr _ => True
  | inl e => exits [2; 3] e
  end.
Proof.
  intros Hpre.
  destruct (try_body' a ext tmpdir w0) as [r w1] eqn:Hbody.
  rewrite (main_inv _ _ _ _ _ _ _ Hpre Hbody). cbn [fst snd fs trace].
  destruct (tmpdir_facts _ _ _ _ _ Hpre) as (Hd & Hq & _ & _).
  apply (sat_try_body a [2; 3] resolved_selection eq_refl) in Hbody as (Hkept & _ & Hr);
    [| set_solver | set_solver].
  split; [| split; [by rewrite last_snoc | split; [done |]]].
  - intros k Hk. apply remove_tree_inside; auto.
  - by destruct r.
Qed.

(** C10. When a run exits with status 3, it has produced its output
    and the final verification has rejected it, and the font file that
    was at the output path when it was verified is still there, with
    the same bytes, when the process ends. *)
Theorem rejected_output_left_in_place (a : args) (w : world) :
  fst (main' a w) = inl (SystemExit 3) ->
  exists ext tmpdir w0 w2 t,
    prelude' a w = (inr (ext, tmpdir), w0) /\
    produce' a ext tmpdir w0 = (inr tt, w2) /\
    check (out_font a) w2 = (inr t, w2) /\
    rejected a t = true /\
    forall content,
      node_at (fs w2) (resolve (out_font a)) = Some (File content) ->
      node_at (fs (snd (main' a w))) (resolve (out_font a))
        = Some (File content).
Proof.
  intros Hexit.
  destruct (main_shape a w) as
    [(e & w' & _ & Hm & He) |
     (ext & tmpdir & w0 & r & w1 & Hpre & Hbody & Hkept & Hm & Hshape)];
    rewrite Hm in Hexit |- *; cbn [fst snd fs] in *.
  { injection Hexit as ->. by apply exits_code in He. }
  subst r.
  destruct Hshape as [(e & _ & [= <-] & He) | (w2 & t & Hp & Hchk & Hfs & Hr)].
  { by apply exits_code in He. }
  exists ext, tmpdir, w0, w2, t. split; [done |]. split; [done |].
  split; [done |]. split.
  { destruct (rejected a t); [done | discriminate]. }
  intros content Hout. eapply output_survives; eauto. by rewrite Hfs.
Qed.

(** *** The plain copy *)

Lemma copyfile_returns src dst w w' :
  OS.copyfile cwd src dst w = (inr tt, w') ->
  exists content f',
    resolve src <> resolve dst /\
    node_at (fs w) (resolve src) = Some (File content) /\
    OS.write_at (resolve dst) content (fs w) = inr f' /\
    fs w' = f' /\
    trace w' = (trace w ++ [Copyfile src dst])%list.
Proof.
  unfold OS.copyfile. rewrite bind_unfold. cbn [log].
  case_decide; [discriminate |].
  rewrite bind_unfold. unfold OS.read_file, OS.read_at. cbn [emit fs].
  destruct (node_at (fs w) (resolve src)) as [[content |] |] eqn:E;
    [| discriminate | discriminate].
  unfold OS.write_file. cbn [fs].
  destruct (OS.write_at _ _ _) as [cls | f'] eqn:Ew; [discriminate |].
  intros [= <-]. exists content, f'. done.
Qed.

(** C4. When the extension of the input path is not [.otf] and none of
    --preset, --unicodes, --text-file is given, a run that gets as far
    as its verdict (exit 0 or exit 3) leaves at the output path a file
    with exactly the bytes the input file had. *)
Theorem plain_copy_identical (a : args) (w : world) :
  PyStr.lower (snd (PosixPath.splitext (in_font a))) <> ".otf" ->
  preset a = None -> unicodes a = None -> text_file a = None ->
  fst (main' a w) = inr tt \/ fst (main' a w) = inl (SystemExit 3) ->
  exists content,
    node_at (fs w) (resolve (in_font a)) = Some (File content) /\
    node_at (fs (snd (main' a w))) (resolve (out_font a))
      = Some (File content).
Proof.
  intros Hext Hp Hu Ht Hexit.
  destruct (main_shape a w) as
    [(e & w' & _ & Hm & He) |
     (ext & tmpdir & w0 & r & w1 & Hpre & Hbody & Hkept & Hm & Hshape)];
    rewrite Hm in Hexit |- *; cbn [fst snd fs] in *.
  { destruct Hexit as [[=] | [= ->]]. by apply exits_code in He. }
  destruct Hshape as [(e & _ & -> & He) | (w2 & t & Hprod & Hchk & Hfs & Hr)].
  { destruct Hexit as [[=] | [= ->]]. by apply exits_code in He. }
  destruct (prelude_returns _ _ _ _ _ Hpre)
    as (content & f1 & Hin & _ & _ & _ & -> & _).
  destruct (tmpdir_facts _ _ _ _ _ Hpre) as (_ & _ & _ & Hnodes).
  exists content. split; [done |].
  unfold produce in Hprod.
  apply String.eqb_neq in Hext. rewrite Hext in Hprod.
  unfold truetype_path in Hprod. rewrite Hp, Hu, Ht in Hprod.
  cbn [PyStr.truthy orb] in Hprod.
  apply bind_inv in Hprod as [(e & _ & [=]) | ([] & w0' & Hprint & Hcopy)].
  injection Hprint as <-.
  apply copyfile_returns in Hcopy as (c & f' & _ & Hsrc & Hw & <- & _).
  cbn [emit fs] in Hsrc, Hw.
  rewrite (Hnodes _ _ Hin) in Hsrc. injection Hsrc as <-.
  eapply output_survives; eauto. rewrite Hfs. eapply write_at_read, Hw.
Qed.

(** *** Skipping the second subset *)

(** [check_ttf_tables] depends on the node at the path only. *)
Lemma check_same_node p w p' w' :
  node_at (fs w) (resolve p) = node_at (fs w') (resolve p') ->
  fst (check p w) = fst (check p' w').
Proof.
  intros H.
  unfold check_ttf_tables, try_except, check_ttf_tables_try, TTFont,
    OS.read_file, OS.read_at.
  rewrite !bind_unfold, H.
  destruct (node_at (fs w') (resolve p')) as [[c |] |]; try reflexivity.
  destruct (TTFont_parse c) as [cls | tf]; try reflexivity.
  cbn [ret]. rewrite !bind_unfold. unfold get_numGlyphs.
  destruct (has_table tf "maxp"); [| reflexivity].
  destruct (maxp_numGlyphs tf); reflexivity.
Qed.

(** A font that passes a checkpoint is a file. *)
Lemma accepted_is_file a p w t :
  check p w = (inr t, w) -> rejected a t = false ->
  exists content, node_at (fs w) (resolve p) = Some (File content).
Proof.
  unfold check_ttf_tables, try_except, check_ttf_tables_try, TTFont,
    OS.read_file, OS.read_at.
  rewrite !bind_unfold.
  destruct (node_at (fs w) (resolve p)) as [[c |] |]; [eauto | |];
    cbn; intros [= <-]; discriminate.
Qed.

Lemma no_selection_no_call a e :
  subset_call_ok (fun _ => None) a e -> ~ is_subset_call e.
Proof. destruct e; cbn; try tauto. intros (s & [=] & _). Qed.

(** C7. On an OTF input with --no-second-subset, once the intermediate
    font has passed its check, a run that is not cut short by an
    exception makes no further subsetting call, ends with status 0 and
    leaves at the output path the very bytes of the Stage B
    intermediate; the final check reports the same tuple as the
    intermediate check, so the same glyph count. *)
Theorem no_second_subset_copies (a : args) (w : world) (tmpdir : string)
    (w0 w1 : world) (t : bool * bool * bool * Z) :
  prelude' a w = (inr (".otf", tmpdir), w0) ->
  (stage_A' a (PosixPath.join tmpdir "subset.otf") ;;;
   stage_B' (PosixPath.join tmpdir "subset.otf")
            (PosixPath.join tmpdir "intermediate.ttf")) w0 = (inr tt, w1) ->
  check (PosixPath.join tmpdir "intermediate.ttf") w1 = (inr t, w1) ->
  rejected a t = false ->
  no_second_subset a = true ->
  (forall cls, fst (main' a w) <> inl (Exception cls)) ->
  exists content,
    node_at (fs w1) (resolve (PosixPath.join tmpdir "intermediate.ttf"))
      = Some (File content) /\
    node_at (fs (snd (main' a w))) (resolve (out_font a))
      = Some (File content) /\
    check (out_font a) (snd (main' a w)) = (inr t, snd (main' a w)) /\
    fst (main' a w) = inr tt /\
    exists new,
      trace (snd (main' a w)) = (trace w1 ++ new)%list /\
      Forall (fun e => ~ is_subset_call e) new.
Proof.
  intros Hpre HAB Hchk Hacc Hskip Hnoexn.
  destruct (accepted_is_file _ _ _ _ Hchk Hacc) as [content Hint].
  exists content. split; [done |].
  (* the OTF pipeline from the checkpoint on *)
  assert (Hprod : produce' a ".otf" tmpdir w0
                  = OS.copyfile cwd (PosixPath.join tmpdir "intermediate.ttf") (out_font a)
                      (emit (Stdout ("[C] Skipping second subset. Writing TTF → "
                                     +:+ out_font a)) w1)).
  { unfold produce, otf_pipeline. cbn [String.eqb Ascii.eqb Bool.eqb].
    rewrite <- bind_assoc. rewrite (bind_returns _ _ _ _ _ HAB).
    unfold intermediate_check at 1. rewrite !bind_unfold, Hchk.
    destruct t as [[[ok g] l] n]. rewrite Hacc. cbn [ret].
    unfold stage_C. rewrite Hskip. reflexivity. }
  destruct (main_shape a w) as
    [(e & w' & Hp' & _) |
     (ext & tmpdir' & w0' & r & w3 & Hpre' & Hbody & Hkept & Hm & Hshape)];
    [congruence |].
  rewrite Hpre in Hpre'. injection Hpre' as <- <- <-.
  rewrite Hm in Hnoexn |- *. cbn [fst snd fs trace] in *.
  destruct Hshape as [(e & Hp & -> & He) | (w2 & t2 & Hp & Hchk2 & Hfs & Hr)];
    rewrite Hprod in Hp.
  { apply (sat_copyfile a [] (fun _ => None)) in Hp as (_ & _ & Hexn).
    destruct e as [code | cls]; [by apply exits_code in Hexn |].
    by destruct (Hnoexn cls). }
  pose proof (sat_copyfile a [] (fun _ => None) _ _ _ _ _ Hp)
    as (_ & (new1 & Tcopy & Fcopy) & _).
  apply copyfile_returns in Hp as (c & f' & _ & Hsrc & Hw & <- & _).
  cbn [emit fs trace] in Hsrc, Hw, Tcopy.
  rewrite Hint in Hsrc. injection Hsrc as <-.
  assert (Hout2 : node_at (fs w2) (resolve (out_font a)) = Some (File content))
    by (eapply write_at_read, Hw).
  assert (Ht2 : t2 = t).
  { assert (E : fst (check (out_font a) w2)
                = fst (check (PosixPath.join tmpdir "intermediate.ttf") w1))
      by (apply check_same_node; congruence).
    rewrite Hchk2, Hchk in E. by injection E. }
  subst t2. rewrite Hacc in Hr. subst r.
  assert (Hfin : node_at (OS.remove_tree (resolve tmpdir) (fs w3))
                   (resolve (out_font a)) = Some (File content)).
  { eapply output_survives; eauto. by rewrite Hfs. }
  split; [done |]. split.
  { set (wf := {| fs := _ |}).
    assert (E : fst (check (out_font a) wf)
                = fst (check (PosixPath.join tmpdir "intermediate.ttf") w1))
      by (apply check_same_node; subst wf; cbn [fs]; congruence).
    destruct (check_returns (out_font a) wf) as (g & l & n & E').
    rewrite E'. rewrite E', Hchk in E. cbn [fst] in E. by injection E as <-. }
  split; [done |].
  unfold try_body in Hbody.
  apply bind_inv in Hbody as [(e & _ & [=]) | ([] & w2' & Hc & Htail)].
  rewrite Hprod in Hc.
  pose proof (sat_copyfile a [] (fun _ => None) _ _ _ _ _ Hc)
    as (_ & (new1' & Tc & Fc) & _).
  assert (Stail : sat (subset_call_ok (fun _ => None) a) (exits [3]) any
                    (final_verification' a ;;; report cwd a)).
  { eapply sat_bind; [apply sat_final_verification; set_solver |].
    intros _ _. apply sat_report. }
  destruct (Stail _ _ _ Htail) as (_ & (new2 & Tt & Ft) & _).
  cbn [emit trace] in Tc.
  exists ([Stdout ("[C] Skipping second subset. Writing TTF → " +:+ out_font a)]
          ++ new1' ++ new2 ++ [Rmtree tmpdir])%list.
  split.
  { rewrite Tt, Tc. by rewrite <- !app_assoc. }
  apply Forall_app. split; [apply Forall_singleton; cbn; tauto |].
  apply Forall_app. split.
  { eapply Forall_impl; [exact Fc |]. apply no_selection_no_call. }
  apply Forall_app. split.
  { eapply Forall_impl; [exact Ft |]. apply no_selection_no_call. }
  apply Forall_singleton; cbn; tauto.
Qed.

(** *** The selection argument *)

Lemma sat_calls_pass a codes (m : M unit) :
  sat (subset_call_ok resolved_selection a) (exits codes) any m ->
  calls_pass resolved_selection a m.
Proof. intros H w r w' Hm. by destruct (H _ _ _ Hm) as (_ & ? & _). Qed.

(** C2. Every subsetting call the script makes (in Stage A, in Stage C
    and on the direct-TTF path, hence in every run of [main]) passes as
    its selection argument the one resolved by the same precedence:
    the text file when --text-file has a non-empty value, else the
    ranges when --unicodes has a non-empty value, else the ranges of
    the named preset, else the ranges of the default preset sc-min. *)
Theorem selection_precedence (a : args) (subset_otf ttf_intermediate : string) :
  calls_pass resolved_selection a (stage_A' a subset_otf) /\
  calls_pass resolved_selection a (stage_C' a ttf_intermediate) /\
  calls_pass resolved_selection a (truetype_path' a) /\
  calls_pass resolved_selection a (main' a).
Proof.
  split; [eapply (sat_calls_pass a []), sat_stage_A; done |].
  split; [eapply (sat_calls_pass a []), sat_stage_C; done |].
  split; [eapply (sat_calls_pass a []), sat_truetype_path; done |].
  intros w r w' Hm.
  destruct (main_shape a w) as
    [(e & w1 & Hpre & Hm' & _) |
     (ext & tmpdir & w0 & r' & w1 & Hpre & Hbody & _ & Hm' & _)];
    rewrite Hm' in Hm; injection Hm as <- <-.
  - by destruct (sat_prelude a [1] resolved_selection ltac:(set_solver) _ _ _ Hpre)
      as (_ & ? & _).
  - destruct (sat_prelude a [1] resolved_selection ltac:(set_solver) _ _ _ Hpre)
      as (_ & (n1 & T1 & F1) & _).
    destruct (sat_try_body a [2; 3] resolved_selection eq_refl ext tmpdir
                ltac:(set_solver) ltac:(set_solver) _ _ _ Hbody)
      as (_ & (n2 & T2 & F2) & _).
    exists (n1 ++ n2 ++ [Rmtree tmpdir])%list. cbn [trace]. split.
    + by rewrite T2, T1, <- !app_assoc.
    + rewrite !Forall_app. repeat split; try done. by repeat constructor.
Qed.

(** *** Dispatch *)

(** C9. Which pipeline runs is decided by the input path alone, through
    its lower-cased [os.path.splitext] extension: the three-stage OTF
    pipeline runs exactly when the path is a stem followed by [.otf] in
    some letter case, where the file name part of the stem has a
    character other than a dot; every other path ([.ttf], [.woff], no
    extension, a file named just [.otf]) takes the TrueType path.  The
    file itself is not looked at. *)
Theorem dispatch_by_extension (a : args) (tmpdir : string) :
  (takes_otf_pipeline (in_font a) = true <-> has_otf_extension (in_font a)) /\
  produce' a (PyStr.lower (snd (PosixPath.splitext (in_font a)))) tmpdir
  = (if takes_otf_pipeline (in_font a) then otf_pipeline' a tmpdir
     else truetype_path' a) /\
  (forall w ext w0,
      prelude' a w = (inr (ext, tmpdir), w0) ->
      main' a w =
      try_finally
        ((if takes_otf_pipeline (in_font a) then otf_pipeline' a tmpdir
          else truetype_path' a) ;;;
         final_verification' a ;;;
         report cwd a)
        (OS.rmtree cwd tmpdir) w0).
Proof.
  split; [| split; [reflexivity |]].
  - unfold takes_otf_pipeline, has_otf_extension. rewrite String.eqb_eq. split.
    + intros Hext.
      destruct (PyStrFacts.splitext_ext (in_font a))
        as [E | (stem & x & Hp & Hx & Hsplit)].
      { rewrite E in Hext. discriminate. }
      rewrite Hsplit in Hext. cbn [snd] in Hext.
      exists stem, (String "." x). split; [done |]. split; [done |].
      pose proof (PyStrFacts.splitext_otf stem _ Hext) as Hs.
      rewrite <- Hp, Hsplit in Hs.
      destruct (all_dots (filename stem)); [| done].
      by injection Hs.
    + intros (stem & e & -> & He & Hdots).
      by rewrite (PyStrFacts.splitext_otf stem e He), Hdots.
  - intros w ext w0 Hpre. rewrite (main_after_prelude _ _ _ _ _ Hpre).
    apply prelude_returns in Hpre as (_ & _ & _ & _ & _ & _ & -> & _).
    reflexivity.
Qed.

End Properties.

(** * Worked runs *)

(** The toy environment at each theorem, and the inputs on which the
    description differs from the script. *)

Lemma checkpoint_exit_codes_run :
  exit_status (Demo.main Demo.a_few Demo.w0) = 2 /\
  exit_status (Demo.main Demo.a_skip Demo.w0) = 0 /\
  exit_status (Demo.main Demo.a_reject Demo.w0) = 3.
Proof.
  pose proof (checkpoint_exit_codes Demo.cwd Demo.gettempdir Demo.which
                Demo.subset_engine Demo.fontforge_engine Demo.TTFont_parse) as T.
  split; [| split].
  - apply (proj1 (T Demo.a_few Demo.w0) "/tmp/cjk2ttf_a"
             (snd (Demo.prelude Demo.a_few Demo.w0))
             (snd (Demo.stages_AB Demo.a_few "/tmp/cjk2ttf_a"
                     (snd (Demo.prelude Demo.a_few Demo.w0))))
             true true true 9).
    + vm_compute. reflexivity.
    + vm_compute. reflexivity.
    + vm_compute. reflexivity.
    + right. vm_compute. reflexivity.
  - apply (proj2 (T Demo.a_skip Demo.w0) ".otf" "/tmp/cjk2ttf_a"
             (snd (Demo.prelude Demo.a_skip Demo.w0))
             (snd (Demo.produce Demo.a_skip ".otf" "/tmp/cjk2ttf_a"
                     (snd (Demo.prelude Demo.a_skip Demo.w0))))
             true true true 9).
    + vm_compute. reflexivity.
    + vm_compute. reflexivity.
    + vm_compute. reflexivity.
  - apply (proj2 (T Demo.a_reject Demo.w0) ".ttf" "/tmp/cjk2ttf_a"
             (snd (Demo.prelude Demo.a_reject Demo.w0))
             (snd (Demo.produce Demo.a_reject ".ttf" "/tmp/cjk2ttf_a"
                     (snd (Demo.prelude Demo.a_reject Demo.w0))))
             false true false 9).
    + vm_compute. reflexivity.
    + vm_compute. reflexivity.
    + vm_compute. reflexivity.
Defined.

Lemma missing_input_run :
  OS.isfile Demo.cwd "nothere.otf" Demo.w0 = (inr false, Demo.w0) /\
  fst (Demo.main Demo.a_missing Demo.w0) = inl (SystemExit 1) /\
  exit_status (Demo.main Demo.a_missing Demo.w0) = 1 /\
  fs (snd (Demo.main Demo.a_missing Demo.w0)) = Demo.fs0 /\
  rnd (snd (Demo.main Demo.a_missing Demo.w0)) = ["a"; "b"] /\
  trace (snd (Demo.main Demo.a_missing Demo.w0))
    = [Stderr "ERROR: input not found: nothere.otf"].
Proof.
  split; [vm_compute; reflexivity |].
  apply (missing_input_exits_1 Demo.cwd Demo.gettempdir Demo.which
           Demo.subset_engine Demo.fontforge_engine Demo.TTFont_parse
           Demo.a_missing Demo.w0).
  vm_compute. reflexivity.
Defined.

Lemma plain_copy_run :
  PyStr.lower (snd (PosixPath.splitext "in.ttf")) <> ".otf" /\
  fst (Demo.main Demo.a_plain Demo.w0) = inr tt /\
  exists content,
    node_at Demo.fs0 ["work"; "in.ttf"] = Some (File content) /\
    node_at (fs (snd (Demo.main Demo.a_plain Demo.w0))) ["work"; "o.ttf"]
      = Some (File content).
Proof.
  split; [vm_compute; discriminate |].
  split; [vm_compute; reflexivity |].
  apply (plain_copy_identical Demo.cwd Demo.gettempdir Demo.which
           Demo.subset_engine Demo.fontforge_engine Demo.TTFont_parse
           Demo.a_plain Demo.w0).
  - vm_compute. discriminate.
  - reflexivity.
  - reflexivity.
  - reflexivity.
  - left. vm_compute. reflexivity.
Defined.

Lemma tmpdir_removed_run :
  Demo.prelude Demo.a_few Demo.w0
    = (inr (".otf", "/tmp/cjk2ttf_a"), snd (Demo.prelude Demo.a_few Demo.w0)) /\
  fst (Demo.main Demo.a_few Demo.w0) = inl (SystemExit 2) /\
  (forall k, ["tmp"; "cjk2ttf_a"] `prefix_of` k ->
             fs (snd (Demo.main Demo.a_few Demo.w0)) !! k = None) /\
  last (trace (snd (Demo.main Demo.a_few Demo.w0))) = Some (Rmtree "/tmp/cjk2ttf_a").
Proof.
  assert (Hpre : Demo.prelude Demo.a_few Demo.w0
                 = (inr (".otf", "/tmp/cjk2ttf_a"),
                    snd (Demo.prelude Demo.a_few Demo.w0)))
    by (vm_compute; reflexivity).
  split; [exact Hpre |].
  split; [vm_compute; reflexivity |].
  destruct (tmpdir_always_removed Demo.cwd Demo.gettempdir Demo.which
              Demo.subset_engine Demo.fontforge_engine Demo.TTFont_parse
              Demo.a_few Demo.w0 ".otf" "/tmp/cjk2ttf_a" _ Hpre)
    as (Hgone & Hlast & _ & _).
  split; [exact Hgone | exact Hlast].
Defined.

Lemma no_second_subset_run :
  fst (Demo.main Demo.a_skip Demo.w0) = inr tt /\
  node_at (fs (snd (Demo.main Demo.a_skip Demo.w0))) ["work"; "out"; "o.ttf"]
    = Some (File [x07; x09]) /\
  Demo.check_ttf_tables "out/o.ttf" (snd (Demo.main Demo.a_skip Demo.w0))
    = (inr (true, true, true, 9), snd (Demo.main Demo.a_skip Demo.w0)).
Proof.
  set (w0 := snd (Demo.prelude Demo.a_skip Demo.w0)).
  set (w1 := snd (Demo.stages_AB Demo.a_skip "/tmp/cjk2ttf_a" w0)).
  destruct (no_second_subset_copies Demo.cwd Demo.gettempdir Demo.which
              Demo.subset_engine Demo.fontforge_engine Demo.TTFont_parse
              Demo.a_skip Demo.w0 "/tmp/cjk2ttf_a" w0 w1 (true, true, true, 9))
    as (content & Hint & Hout & Hchk & Hexit & _).
  - vm_compute. reflexivity.
  - vm_compute. reflexivity.
  - vm_compute. reflexivity.
  - vm_compute. reflexivity.
  - reflexivity.
  - intros cls. vm_compute. discriminate.
  - split; [exact Hexit |]. split; [| exact Hchk].
    assert (E : content = [x07; x09]).
    { vm_compute in Hint. by injection Hint. }
    rewrite <- E. exact Hout.
Defined.

Lemma rejected_output_run :
  fst (Demo.main Demo.a_reject Demo.w0) = inl (SystemExit 3) /\
  exists ext tmpdir w0 w2 t,
    Demo.prelude Demo.a_reject Demo.w0 = (inr (ext, tmpdir), w0) /\
    Demo.produce Demo.a_reject ext tmpdir w0 = (inr tt, w2) /\
    Demo.check_ttf_tables "o.ttf" w2 = (inr t, w2) /\
    rejected Demo.a_reject t = true /\
    forall content,
      node_at (fs w2) ["work"; "o.ttf"] = Some (File content) ->
      node_at (fs (snd (Demo.main Demo.a_reject Demo.w0))) ["work"; "o.ttf"]
        = Some (File content).
Proof.
  assert (Hexit : fst (Demo.main Demo.a_reject Demo.w0) = inl (SystemExit 3))
    by (vm_compute; reflexivity).
  split; [exact Hexit |].
  exact (rejected_output_left_in_place Demo.cwd Demo.gettempdir Demo.which
           Demo.subset_engine Demo.fontforge_engine Demo.TTFont_parse
           Demo.a_reject Demo.w0 Hexit).
Defined.

Lemma selection_precedence_run :
  resolved_selection Demo.a_text = Some "--text-file=chars.txt" /\
  Forall (subset_call_ok resolved_selection Demo.a_text)
    (trace (snd (Demo.main Demo.a_text Demo.w0))) /\
  Pyftsubset (ttf_subset_args "in.ttf" "o.ttf" "--text-file=chars.txt")
    ∈ trace (snd (Demo.main Demo.a_text Demo.w0)).
Proof.
  split; [reflexivity |].
  destruct (selection_precedence Demo.cwd Demo.gettempdir Demo.which
              Demo.subset_engine Demo.fontforge_engine Demo.TTFont_parse
              Demo.a_text "" "")
    as (_ & _ & _ & Hmain).
  destruct (Hmain Demo.w0 _ _ (surjective_pairing _)) as (new & Htrace & Hall).
  split.
  - unfold Demo.main. rewrite Htrace. exact Hall.
  - vm_compute. do 3 apply list_elem_of_further. apply list_elem_of_here.
Defined.

(** With [--text-file ''] and [--unicodes U+0041] the text file "is given"
    but the script passes the ranges. *)
Lemma empty_text_file_is_skipped :
  described_selection Demo.a_empty_text = Some "--text-file=" /\
  resolved_selection Demo.a_empty_text = Some "--unicodes=U+0041" /\
  Pyftsubset [ "in.otf"; "--output-file=/tmp/cjk2ttf_a/subset.otf";
               "--layout-features=*"; "--no-hinting"; "--desubroutinize";
               "--unicodes=U+0041" ]
    ∈ trace (snd (Demo.main Demo.a_empty_text Demo.w0)) /\
  ~ calls_pass described_selection Demo.a_empty_text (Demo.main Demo.a_empty_text).
Proof.
  split; [reflexivity |]. split; [reflexivity |].
  assert (Hin : Pyftsubset [ "in.otf"; "--output-file=/tmp/cjk2ttf_a/subset.otf";
                             "--layout-features=*"; "--no-hinting";
                             "--desubroutinize"; "--unicodes=U+0041" ]
                ∈ trace (snd (Demo.main Demo.a_empty_text Demo.w0))).
  { vm_compute. do 3 apply list_elem_of_further. apply list_elem_of_here. }
  split; [exact Hin |].
  intros H.
  destruct (H Demo.w0 _ _ (surjective_pairing _)) as (new & Htrace & Hall).
  cbn [trace Demo.w0 app] in Htrace. rewrite Htrace in Hin.
  rewrite Forall_forall in Hall. apply Hall in Hin.
  destruct Hin as (s & Hs & Hlast). vm_compute in Hs, Hlast. congruence.
Qed.

(** A font with [glyf] and [loca] but no [maxp] parses, and the count
    returned for it is not read from any table. *)
Lemma font_without_maxp :
  exists tf,
    Demo.TTFont "nomaxp.ttf" Demo.w0 = (inr tf, Demo.w0) /\
    Demo.check_ttf_tables_try "nomaxp.ttf" Demo.w0
      = (inr (true, true, true, -1), Demo.w0) /\
    Demo.check_ttf_tables "nomaxp.ttf" Demo.w0
      = (inr (true, true, true, -1), Demo.w0) /\
    maxp_glyph_count tf = None /\
    ~ described_tuple tf (true, true, true, -1).
Proof.
  exists (TTFontObj ["glyf"; "loca"] (inr 9)).
  split; [vm_compute; reflexivity |].
  split; [vm_compute; reflexivity |].
  split; [vm_compute; reflexivity |].
  split; [reflexivity |].
  intros (n & Hn & _). discriminate Hn.
Qed.

(** A file named [.otf] ends in [.otf] and takes the TrueType path: the
    run is a plain copy. *)
Lemma dot_otf_is_not_an_extension :
  ends_in_otf ".otf" /\
  takes_otf_pipeline ".otf" = false /\
  fst (Demo.main Demo.a_dot Demo.w0) = inr tt /\
  trace (snd (Demo.main Demo.a_dot Demo.w0))
    = [ Makedirs ["work"]; Mkdtemp "/tmp/cjk2ttf_a";
        Stdout "[T] Copy TTF as-is → o.ttf"; Copyfile ".otf" "o.ttf";
        Stdout "[✓] Success."; Stdout "Output: o.ttf";
        Stdout "Size: 2.0 B → 2.0 B"; Rmtree "/tmp/cjk2ttf_a" ].
Proof.
  split; [by exists "", ".otf" |].
  split; [reflexivity |].
  split; vm_compute; reflexivity.
Qed.

(** * Further properties *)

Ltac in_list :=
  repeat first [apply list_elem_of_here | apply list_elem_of_further].

(** ** [human_size] *)

Lemma round_half_even_near (num den : Z) :
  0 < den -> 2 * Z.abs (num - round_half_even num den * den) <= den.
Proof.
  intros Hden. unfold round_half_even.
  pose proof (Z.div_mod num den ltac:(lia)) as Hdm.
  pose proof (Z.mod_pos_bound num den Hden) as Hr.
  destruct (Z.ltb_spec (2 * (num mod den)) den);
    [| destruct (Z.ltb_spec den (2 * (num mod den)));
       [| destruct (Z.even (num / den))]]; nia.
Qed.

Lemma round_half_even_range (num den bound : Z) :
  0 < den -> 0 <= num -> num < bound * den ->
  0 <= round_half_even num den <= bound.
Proof.
  intros Hden Hnum Hb. unfold round_half_even.
  pose proof (Z.div_pos num den Hnum Hden) as Hq.
  assert (Hlt : num / den < bound) by (apply Z.div_lt_upper_bound; lia).
  destruct (Z.ltb_spec (2 * (num mod den)) den);
    [| destruct (Z.ltb_spec den (2 * (num mod den)));
       [| destruct (Z.even (num / den))]]; lia.
Qed.

Lemma string_app_assoc (s t u : string) : (s +:+ t) +:+ u = s +:+ t +:+ u.
Proof.
  induction s as [| c s IH]; [reflexivity |].
  rewrite !PyStrFacts.app_cons. by f_equal.
Qed.

(** Sizes below 1024 are printed as they are, with [.0]. *)
Lemma fmt_1f_integer (n : Z) : fmt_1f n 1 = pretty n +:+ ".0".
Proof.
  assert (H : round_half_even (10 * n) 1 = n * 10).
  { unfold round_half_even. rewrite Z.mod_1_r, Z.div_1_r.
    change (2 * 0 <? 1) with true. cbv iota zeta. lia. }
  unfold fmt_1f. cbv zeta. rewrite H, Z.div_mul, Z.mod_mul by lia.
  reflexivity.
Qed.

(** The loop of [human_size] unrolled, with the powers of 1024 it
    compares with. *)
Ltac unroll_human_size :=
  unfold human_size; cbn [human_size_loop];
  change (1024 * (1 * 1024 * 1024 * 1024)) with (1024 ^ 4);
  change (1 * 1024 * 1024 * 1024 * 1024) with (1024 ^ 4);
  change (1024 * (1 * 1024 * 1024)) with (1024 ^ 3);
  change (1 * 1024 * 1024 * 1024) with (1024 ^ 3);
  change (1024 * (1 * 1024)) with (1024 ^ 2);
  change (1 * 1024 * 1024) with (1024 ^ 2);
  change (1 * 1024) with 1024;
  change (1024 * 1) with 1024.

(** X1. The unit [human_size] picks, for a size from 0 up to [2^53]
    (where the float divisions of the source are exact): bytes below
    1024, then KB, MB and GB each up to 1024 of the unit, and TB for
    everything from [1024^4] on, however large; a size in bytes is
    printed exactly, with [.0]. *)
Theorem human_size_units (n : Z) :
  0 <= n < 2 ^ 53 ->
  human_size n =
  if n <? 1024 then pretty n +:+ ".0 B"
  else if n <? 1024 ^ 2 then fmt_1f n 1024 +:+ " KB"
  else if n <? 1024 ^ 3 then fmt_1f n (1024 ^ 2) +:+ " MB"
  else if n <? 1024 ^ 4 then fmt_1f n (1024 ^ 3) +:+ " GB"
  else fmt_1f n (1024 ^ 4) +:+ " TB".
Proof.
  intros _. unroll_human_size.
  destruct (n <? 1024).
  { by rewrite fmt_1f_integer, string_app_assoc. }
  destruct (n <? 1024 ^ 2); [reflexivity |].
  destruct (n <? 1024 ^ 3); [reflexivity |].
  destruct (n <? 1024 ^ 4); reflexivity.
Qed.

(** X2. For a size from 0 up to [2^53], what [human_size] prints is
    the size in the unit it picked, rounded to one decimal and off by
    at most 0.05; in a unit above bytes the size is at least 1.0 of
    it, and below TB the number printed is at most 1024.0 (which is
    printed, not 1.0 of the next unit, for sizes just under a power
    of 1024). *)
Theorem human_size_accuracy (n : Z) :
  0 <= n < 2 ^ 53 ->
  exists t den unit,
    (den, unit) ∈ size_units /\
    human_size n
      = (pretty (t / 10) +:+ "." +:+ pretty (t mod 10)) +:+ " " +:+ unit /\
    2 * Z.abs (10 * n - t * den) <= den /\
    0 <= t /\
    (1 < den -> den <= n) /\
    (unit <> "TB" -> t <= 10240).
Proof.
  intros Hn. unroll_human_size.
  assert (Hgen : forall den unit,
             (den, unit) ∈ size_units -> 0 < den ->
             (1 < den -> den <= n) -> (unit <> "TB" -> n < 1024 * den) ->
             exists t den' unit',
               (den', unit') ∈ size_units /\
               fmt_1f n den +:+ " " +:+ unit
                 = (pretty (t / 10) +:+ "." +:+ pretty (t mod 10))
                   +:+ " " +:+ unit' /\
               2 * Z.abs (10 * n - t * den') <= den' /\
               0 <= t /\
               (1 < den' -> den' <= n) /\
               (unit' <> "TB" -> t <= 10240)).
  { intros den unit Hin Hden Hlow Hup.
    exists (round_half_even (10 * n) den), den, unit.
    split; [done |]. split; [reflexivity |].
    split; [by apply round_half_even_near |].
    assert (H0 : 0 <= round_half_even (10 * n) den).
    { unfold round_half_even.
      pose proof (Z.div_pos (10 * n) den ltac:(lia) Hden).
      repeat case_match; lia. }
    split; [done |]. split; [done |].
    intros Hu. specialize (Hup Hu).
    apply (round_half_even_range (10 * n) den 10240); lia. }
  destruct (Z.ltb_spec n 1024).
  { apply (Hgen 1 "B"); [in_list | lia | lia | lia]. }
  destruct (Z.ltb_spec n (1024 ^ 2)).
  { apply (Hgen 1024 "KB"); [in_list | lia | lia | lia]. }
  destruct (Z.ltb_spec n (1024 ^ 3)).
  { apply (Hgen (1024 ^ 2) "MB"); [in_list | lia | lia | lia]. }
  destruct (Z.ltb_spec n (1024 ^ 4)).
  { apply (Hgen (1024 ^ 3) "GB"); [in_list | lia | lia | lia]. }
  apply (Hgen (1024 ^ 4) "TB"); [in_list | lia | lia | done].
Qed.

(** ** Paths below the temporary directory *)

Lemma split_go_app (c : ascii) (s t cur : string) :
  PyStr.split_go c cur (s +:+ String c t)
  = (PyStr.split_go c cur s ++ PyStr.split_go c "" t)%list.
Proof.
  revert cur. induction s as [| a s IH]; intros cur.
  - rewrite PyStrFacts.app_nil. cbn [PyStr.split_go].
    by rewrite Ascii.eqb_refl.
  - rewrite PyStrFacts.app_cons. cbn [PyStr.split_go].
    destruct (Ascii.eqb a c); by rewrite IH.
Qed.

(** Joining a plain file name to a directory resolves to a child of
    what the directory resolves to. *)
Lemma abspath_join (cwd : PosixPath.path) (t b : string) :
  PyStr.split b PosixPath.sep = [b] ->
  (forall acc, PosixPath.norm_step acc b = (acc ++ [b])%list) ->
  PosixPath.abspath cwd (PosixPath.join t b)
  = (PosixPath.abspath cwd t ++ [b])%list.
Proof.
  intros Hsplit Hstep.
  assert (Hsep : forall s : string,
             PosixPath.abspath cwd (s +:+ String "/" b)
             = PosixPath.norm_step
                 (fold_left PosixPath.norm_step (PyStr.split s PosixPath.sep)
                    (match s with
                     | String "/" _ => []
                     | String _ _ => cwd
                     | EmptyString => []
                     end)) b).
  { intros s. pose proof Hsplit as Hs.
    unfold PosixPath.abspath, PyStr.split, PosixPath.sep in Hs |- *.
    rewrite split_go_app, fold_left_app, Hs. cbn [fold_left].
    f_equal. f_equal. destruct s as [| c s]; [reflexivity |].
    rewrite PyStrFacts.app_cons. reflexivity. }
  unfold PosixPath.join.
  destruct (String.eqb_spec t "") as [-> | Hne].
  { unfold PosixPath.abspath. rewrite Hsplit.
    assert (Hb : match b with String "/" _ => [] | _ => cwd end = cwd).
    { destruct b as [| c b']; [reflexivity |].
      destruct (Ascii.eqb_spec c "/") as [-> | Hc].
      - unfold PyStr.split, PosixPath.sep in Hsplit. cbn in Hsplit.
        destruct (PyStr.split_go "/" "" b'); discriminate.
      - destruct c as [[] [] [] [] [] [] [] []]; try reflexivity. done. }
    rewrite Hb. cbn. apply Hstep. }
  destruct (String.eqb_spec
              (PyStr.slice_from t (Z.of_nat (String.length t) - 1)) "/")
    as [Hend | Hend].
  - unfold PyStr.slice_from in Hend.
    pose proof (PyStrFacts.take_drop
                  (Z.to_nat (Z.of_nat (String.length t) - 1)) t) as Htd.
    rewrite Hend in Htd. set (t' := PyStr.take _ t) in Htd.
    rewrite <- Htd. rewrite string_app_assoc. cbn [String.append].
    change (String "/" ("" +:+ b)) with (String "/" b).
    rewrite Hsep, Hstep.
    destruct t' as [| c t'].
    + cbn. unfold PosixPath.abspath. cbn. reflexivity.
    + unfold PosixPath.abspath at 1. rewrite PyStrFacts.app_cons.
      unfold PyStr.split, PosixPath.sep.
      rewrite <- PyStrFacts.app_cons, split_go_app, fold_left_app.
      cbn [PyStr.split_go fold_left]. cbn [PosixPath.norm_step String.eqb orb].
      unfold PyStr.split, PosixPath.sep. reflexivity.
  - change (t +:+ "/" +:+ b) with (t +:+ String "/" ("" +:+ b)).
    rewrite PyStrFacts.app_nil, Hsep, Hstep.
    unfold PosixPath.abspath. destruct t as [| c t]; [done | reflexivity].
Qed.

(** ** Footprints *)

Section Frames.

Context (S : PosixPath.path -> Prop) (P : event -> Prop).

Lemma frames_ret {A} (a : A) : frames S P (ret a).
Proof.
  intros w r w' [= <- <-]. split; [done |]. exists []. by rewrite app_nil_r.
Qed.

Lemma frames_raise {A} (e : exn) : frames S P (@raise A e).
Proof.
  intros w r w' [= <- <-]. split; [done |]. exists []. by rewrite app_nil_r.
Qed.

Lemma frames_log (e : event) : P e -> frames S P (log e).
Proof.
  intros HP w r w' [= <- <-]. split; [done |].
  exists [e]. split; [done | by constructor].
Qed.

Lemma frames_bind {A B} (m : M A) (k : A -> M B) :
  frames S P m -> (forall a, frames S P (k a)) -> frames S P (bind m k).
Proof.
  intros Hm Hk w r w' H.
  destruct (bind_inv _ _ _ _ _ H) as [(e & Hw & ->) | (a & w1 & Hw & Hw1)].
  - by apply (Hm _ _ _ Hw).
  - destruct (Hm _ _ _ Hw) as (D1 & n1 & T1 & F1).
    destruct (Hk a _ _ _ Hw1) as (D2 & n2 & T2 & F2).
    split.
    + intros k' Hk'. by rewrite D2, D1.
    + exists (n1 ++ n2)%list. split.
      * by rewrite T2, T1, app_assoc.
      * by apply Forall_app.
Qed.

(** A step that leaves the trace alone. *)
Lemma frames_quiet {A} (m : M A) :
  (forall w r w', m w = (r, w') ->
     (forall k, ~ S k -> node_at (fs w') k = node_at (fs w) k) /\
     trace w' = trace w) ->
  frames S P m.
Proof.
  intros Hm w r w' H. destruct (Hm _ _ _ H) as (? & T).
  split; [done |]. exists []. by rewrite app_nil_r.
Qed.

Lemma frames_try_finally {A} (body : M A) (fin : M unit) :
  frames S P body -> frames S P fin -> frames S P (try_finally body fin).
Proof.
  intros Hb Hf w r w' H. unfold try_finally in H.
  destruct (body w) as [rb w1] eqn:Eb. destruct (fin w1) as [rf w2] eqn:Ef.
  destruct (Hb _ _ _ Eb) as (D1 & n1 & T1 & F1).
  destruct (Hf _ _ _ Ef) as (D2 & n2 & T2 & F2).
  assert (w' = w2) as -> by (destruct rf; by injection H).
  split.
  - intros k' Hk'. by rewrite D2, D1.
  - exists (n1 ++ n2)%list. split.
    + by rewrite T2, T1, app_assoc.
    + by apply Forall_app.
Qed.

End Frames.

Lemma write_at_frame (q : list string) (content : list byte) (f f' : filesystem)
    (k : list string) :
  OS.write_at q content f = inr f' -> k <> q -> node_at f' k = node_at f k.
Proof.
  intros (-> & _ & Hq)%write_at_inv Hk. rewrite node_at_insert by done.
  by rewrite decide_False.
Qed.

Lemma makedirs_from_frame (todo : list string) :
  forall (done : list string) (f f' : filesystem) (r : option string)
         (k : list string),
    OS.makedirs_from done todo f = (r, f') ->
    ~ k `prefix_of` (done ++ todo)%list ->
    node_at f' k = node_at f k.
Proof.
  induction todo as [| c rest IH]; intros done f f' r k H Hk.
  - cbn in H. by injection H as _ <-.
  - cbn in H. rewrite (cons_middle c done rest), app_assoc in Hk.
    destruct (node_at f (done ++ [c])%list) as [[content |] |] eqn:E.
    + by injection H as _ <-.
    + eapply IH; eauto.
    + rewrite (IH _ _ _ _ _ H Hk).
      rewrite node_at_insert by (by destruct done).
      rewrite decide_False; [done |]. intros <-. apply Hk.
      by apply prefix_app_r.
Qed.

(** In a tree, what lies above an existing node is a directory. *)
Lemma well_formed_ancestor (f : filesystem) (q k : list string) (n : node) :
  well_formed f -> node_at f k = Some n -> q `prefix_of` k -> q <> k ->
  node_at f q = Some Dir.
Proof.
  intros Hwf Hk [x ->] Hne. revert n Hk Hne.
  induction x as [| c x IH] using rev_ind; intros n Hk Hne.
  { by rewrite app_nil_r in Hne. }
  assert (Hnonroot : (q ++ x ++ [c])%list <> []) by (by destruct q, x).
  assert (Hl : f !! (q ++ x ++ [c])%list = Some n).
  { destruct (q ++ x ++ [c])%list; done. }
  apply Hwf in Hl. cbn in Hl.
  rewrite app_assoc, removelast_last in Hl.
  assert (Hd : node_at f (q ++ x)%list = Some Dir).
  { unfold is_dir in Hl.
    by destruct (node_at f (q ++ x)%list) as [[content |] |]. }
  destruct (decide (x = [])) as [-> | Hx].
  - by rewrite app_nil_r in Hd.
  - eapply IH; [exact Hd |]. intros Heq.
    apply (f_equal length) in Heq. rewrite length_app in Heq.
    destruct x; [done | cbn in Heq; lia].
Qed.

Section MoreProperties.

Variable cwd : PosixPath.path.
Variable gettempdir : string.
Variable which : string -> option string.
Variable subset_engine : list string -> filesystem -> string + option (list byte).
Variable fontforge_engine : list string -> filesystem -> Z * option (list byte).
Variable TTFont_parse : list byte -> string + ttfont.

Abbreviation resolve := (OS.resolve cwd).
Abbreviation check := (check_ttf_tables cwd TTFont_parse).
Abbreviation run_pyftsubset' := (run_pyftsubset cwd subset_engine).
Abbreviation ff_convert' := (ff_convert_otf_to_ttf cwd which fontforge_engine).
Abbreviation stage_A' := (stage_A cwd subset_engine).
Abbreviation stage_B' := (stage_B cwd which fontforge_engine).
Abbreviation stage_C' := (stage_C cwd subset_engine).
Abbreviation intermediate_check' := (intermediate_check cwd TTFont_parse).
Abbreviation final_verification' := (final_verification cwd TTFont_parse).
Abbreviation otf_pipeline' :=
  (otf_pipeline cwd which subset_engine fontforge_engine TTFont_parse).
Abbreviation truetype_path' := (truetype_path cwd subset_engine).
Abbreviation produce' :=
  (produce cwd which subset_engine fontforge_engine TTFont_parse).
Abbreviation try_body' :=
  (try_body cwd which subset_engine fontforge_engine TTFont_parse).
Abbreviation prelude' := (prelude cwd gettempdir).
Abbreviation main' :=
  (main cwd gettempdir which subset_engine fontforge_engine TTFont_parse).

(** The FontForge command line of line 66. *)
Abbreviation ff_cmd otf ttf :=
  [str_opt (which "fontforge"); "-lang=py"; "-c"; ff_script; otf; ttf].

(** The two files of the pipeline in the temporary directory. *)
Abbreviation subset_otf_in tmpdir := (PosixPath.join tmpdir "subset.otf").
Abbreviation intermediate_in tmpdir := (PosixPath.join tmpdir "intermediate.ttf").

(** The names [tempfile.mkdtemp(prefix="cjk2ttf_")] chooses from. *)
Abbreviation tmp_candidate name :=
  (PosixPath.join gettempdir ("cjk2ttf_" +:+ name)).

Lemma check_world (path : string) (w : world) :
  snd (check path w) = w.
Proof.
  unfold check_ttf_tables, try_except, check_ttf_tables_try, TTFont,
    OS.read_file.
  rewrite !bind_unfold.
  destruct (OS.read_at _ _) as [cls | content]; [done |].
  destruct (TTFont_parse content) as [cls | tf]; [done |].
  cbn [ret]. rewrite !bind_unfold. unfold get_numGlyphs.
  destruct (has_table tf "maxp"); [| done].
  by destruct (maxp_numGlyphs tf).
Qed.

Lemma mkdtemp_loop_name (dir prefix : string) (names : list string) :
  forall (f f' : filesystem) (file : string) (names' : list string),
    OS.mkdtemp_loop cwd dir prefix names f = (inr (file, f'), names') ->
    exists name, name ∈ names /\ file = PosixPath.join dir (prefix +:+ name).
Proof.
  induction names as [| name names IH]; intros f f' file names'; cbn.
  - discriminate.
  - destruct (node_at f _) as [n |] eqn:E.
    + intros H. destruct (IH _ _ _ _ H) as (x & Hx & ->).
      exists x. split; [by apply list_elem_of_further | done].
    + destruct (is_dir f _); [| discriminate].
      intros [= <- <- <-]. exists name. split; [apply list_elem_of_here | done].
Qed.

(** The temporary directory is one of the candidates of line 108. *)
Lemma prelude_tmpdir (a : args) (w : world) (ext tmpdir : string) (w0 : world) :
  prelude' a w = (inr (ext, tmpdir), w0) ->
  exists name, name ∈ rnd w /\ tmpdir = tmp_candidate name.
Proof.
  unfold prelude. rewrite bind_unfold. unfold OS.isfile at 1.
  destruct (node_at (fs w) (resolve (in_font a))) as [[content |] |] eqn:Ein;
    cbn [negb]; rewrite bind_unfold; [| discriminate | discriminate].
  cbn [ret]. rewrite bind_unfold. unfold OS.makedirs at 1.
  rewrite bind_unfold. cbn [log emit fs rnd trace].
  destruct (OS.makedirs_from _ _ _) as [[cls |] f1] eqn:Emk; [discriminate |].
  rewrite bind_unfold. unfold OS.mkdtemp, set_fs. cbn [fs rnd trace].
  destruct (OS.mkdtemp_loop _ _ _ _ _) as [[cls | [file f]] names'] eqn:Etmp;
    [discriminate |].
  cbn [ret]. intros [= <- <- <-].
  by apply mkdtemp_loop_name in Etmp.
Qed.

(** A run that leaves the prelude by [sys.exit] found no input file;
    up to there nothing that exists is changed, and nothing at all
    away from the directories leading to the output. *)
Lemma prelude_raises (a : args) (w : world) (e : exn) (w0 : world) :
  prelude' a w = (inl e, w0) ->
  nodes_kept (fs w) (fs w0) /\
  (forall k, ~ k `prefix_of` PosixPath.dirname (resolve (out_font a)) ->
             node_at (fs w0) k = node_at (fs w) k) /\
  (exists new, trace w0 = (trace w ++ new)%list /\
               Forall (fun e => ~ is_subprocess e) new) /\
  match e with
  | SystemExit code =>
      code = 1 /\ OS.isfile cwd (in_font a) w = (inr false, w)
  | Exception _ => OS.isfile cwd (in_font a) w = (inr true, w)
  end.
Proof.
  unfold prelude. rewrite bind_unfold. unfold OS.isfile.
  assert (Hquiet : forall line,
             exists new, trace (emit (Stderr line) w) = (trace w ++ new)%list /\
                         Forall (fun e => ~ is_subprocess e) new).
  { intros line. eexists [_]. split; [done |]. apply Forall_singleton. cbn. tauto. }
  destruct (node_at (fs w) (resolve (in_font a))) as [[content |] |] eqn:Ein;
    cbn [negb]; rewrite bind_unfold.
  2, 3: by intros [= <- <-].
  cbn [ret]. rewrite bind_unfold. unfold OS.makedirs at 1.
  rewrite bind_unfold. cbn [log emit fs rnd trace].
  assert (Hmk : exists new,
             (trace w ++ [Makedirs (PosixPath.dirname (resolve (out_font a)))])%list
             = (trace w ++ new)%list /\
             Forall (fun e => ~ is_subprocess e) new).
  { eexists [_]. split; [done |]. apply Forall_singleton. cbn. tauto. }
  destruct (OS.makedirs_from _ _ _) as [[cls |] f1] eqn:Emk.
  { intros [= <- <-]. cbn [set_fs fs trace].
    split; [eapply makedirs_from_nodes_kept, Emk |].
    split; [| done]. intros k Hk. by eapply makedirs_from_frame. }
  rewrite bind_unfold. unfold OS.mkdtemp, set_fs. cbn [fs rnd trace].
  destruct (OS.mkdtemp_loop _ _ _ _ _) as [[cls | [file f]] names'] eqn:Etmp;
    [| discriminate].
  intros [= <- <-]. cbn [fs trace].
  split; [eapply makedirs_from_nodes_kept, Emk |].
  split; [| done]. intros k Hk. by eapply makedirs_from_frame.
Qed.

(** What the prelude changes when it returns. *)
Lemma prelude_frame (a : args) (w : world) (ext tmpdir : string) (w0 : world)
    (k : list string) :
  prelude' a w = (inr (ext, tmpdir), w0) ->
  ~ k `prefix_of` PosixPath.dirname (resolve (out_font a)) ->
  k <> resolve tmpdir ->
  node_at (fs w0) k = node_at (fs w) k.
Proof.
  intros (content & f1 & _ & Hmk & Hfresh & -> & _)%prelude_returns Hk Hq.
  rewrite node_at_insert by eauto using node_at_None_nonroot.
  rewrite decide_False by done. by eapply makedirs_from_frame.
Qed.

Lemma subset_otf_below (tmpdir : string) :
  resolve (subset_otf_in tmpdir) = (resolve tmpdir ++ ["subset.otf"])%list.
Proof. by apply abspath_join. Qed.

Lemma intermediate_below (tmpdir : string) :
  resolve (intermediate_in tmpdir)
  = (resolve tmpdir ++ ["intermediate.ttf"])%list.
Proof. by apply abspath_join. Qed.

Lemma output_file_flag (p : string) :
  String.prefix "--output-file=" ("--output-file=" +:+ p) = true.
Proof. by destruct p. Qed.

(** Where the subsetting calls of the script send their output. *)
Lemma output_file_stage_A (src p pre t : string) :
  pre = "--text-file=" \/ pre = "--unicodes=" ->
  output_file_of [src; "--output-file=" +:+ p; "--layout-features=*";
                  "--no-hinting"; "--desubroutinize"; pre +:+ t] = Some p.
Proof.
  intros [-> | ->]; unfold output_file_of; cbn [tail fold_left ttf_subset_args];
    rewrite output_file_flag; reflexivity.
Qed.

Lemma output_file_ttf (src p pre t : string) :
  pre = "--text-file=" \/ pre = "--unicodes=" ->
  output_file_of (ttf_subset_args src p (pre +:+ t)) = Some p.
Proof.
  intros [-> | ->]; unfold output_file_of; cbn [tail fold_left ttf_subset_args];
    rewrite output_file_flag; reflexivity.
Qed.

Section FramesOf.

Variable S : PosixPath.path -> Prop.
Variable P : event -> Prop.

(** Every event other than a process launch is allowed. *)
Hypothesis HP : forall e, ~ is_subprocess e -> P e.

Local Ltac allowed := apply HP; cbn; tauto.

Lemma frames_ret_bind {A B} (a : A) (k : A -> M B) :
  frames S P (k a) -> frames S P (bind (ret a) k).
Proof. intros H w r w' E. by apply (H w r w'). Qed.

Lemma frames_raise_bind {A B} (e : exn) (k : A -> M B) :
  frames S P (bind (raise e) k).
Proof. intros w r w' E. by apply (frames_raise S P (A := B) e w r w'). Qed.

Lemma frames_isfile (p : string) : frames S P (OS.isfile cwd p).
Proof. apply frames_quiet. by intros w r w' [= <- <-]. Qed.

Lemma frames_read_file (p : string) : frames S P (OS.read_file cwd p).
Proof.
  apply frames_quiet. intros w r w' H. unfold OS.read_file in H.
  by destruct (OS.read_at _ _); injection H as <- <-.
Qed.

Lemma frames_write_file (p : string) (content : list byte) :
  S (resolve p) -> frames S P (OS.write_file cwd p content).
Proof.
  intros HS. apply frames_quiet. intros w r w' H. unfold OS.write_file in H.
  destruct (OS.write_at _ _ _) as [cls | f] eqn:E; injection H as <- <-;
    [done |].
  split; [| done]. intros k Hk. cbn [set_fs fs].
  eapply write_at_frame; [exact E |]. by intros ->.
Qed.

Lemma frames_copyfile (src dst : string) :
  S (resolve dst) -> frames S P (OS.copyfile cwd src dst).
Proof.
  intros HS. unfold OS.copyfile.
  apply frames_bind; [apply frames_log; allowed |]. intros _.
  case_decide; [apply frames_raise |].
  apply frames_bind; [apply frames_read_file |]. intros content.
  by apply frames_write_file.
Qed.

Lemma frames_run_pyftsubset (args_list : list string) :
  (forall out, output_file_of args_list = Some out -> S (resolve out)) ->
  frames S P (run_pyftsubset' args_list).
Proof.
  intros HS. unfold run_pyftsubset.
  apply frames_bind; [apply frames_log; allowed |]. intros _.
  intros w r w' H. unfold pyftsubset_main in H.
  destruct (subset_engine _ _) as [cls | [font |]].
  - injection H as <- <-. by apply (frames_ret S P tt w (inr tt) w).
  - destruct (output_file_of args_list) as [out |].
    + by apply (frames_write_file out font (HS out eq_refl) w r w').
    + injection H as <- <-. by apply (frames_ret S P tt w (inr tt) w).
  - injection H as <- <-. by apply (frames_ret S P tt w (inr tt) w).
Qed.

Lemma frames_subprocess_run (cmd : list string) :
  S (resolve (nth 5 cmd "")) -> P (Subprocess cmd) ->
  frames S P (subprocess_run cwd fontforge_engine cmd).
Proof.
  intros HS HPc. unfold subprocess_run.
  apply frames_bind; [by apply frames_log |]. intros _.
  apply frames_quiet. intros w r w' H.
  destruct (fontforge_engine _ _) as [returncode generated].
  assert (D : forall w1,
             w1 = match generated with
                  | Some font =>
                      match OS.write_at (resolve (nth 5 cmd "")) font (fs w) with
                      | inr f => set_fs f w
                      | inl _ => w
                      end
                  | None => w
                  end ->
             (forall k, ~ S k -> node_at (fs w1) k = node_at (fs w) k) /\
             trace w1 = trace w).
  { intros w1 ->. destruct generated as [font |]; [| done].
    destruct (OS.write_at _ _ _) eqn:E; [done |].
    split; [| done]. intros k Hk. cbn [set_fs fs].
    eapply write_at_frame; [exact E |]. by intros ->. }
  destruct (returncode =? 0); injection H as <- <-; by apply D.
Qed.

Lemma frames_ff_convert (otf ttf : string) :
  S (resolve ttf) ->
  (PyStr.truthy (which "fontforge") = true -> P (Subprocess (ff_cmd otf ttf))) ->
  frames S P (ff_convert' otf ttf).
Proof.
  intros HS HSub. unfold ff_convert_otf_to_ttf.
  destruct (PyStr.truthy (which "fontforge")); cbn [negb].
  - apply frames_subprocess_run; [done | by apply HSub].
  - apply frames_raise.
Qed.

Lemma frames_check (path : string) : frames S P (check path).
Proof.
  apply frames_quiet. intros w r w' H.
  pose proof (check_world path w) as E. rewrite H in E. cbn in E. by subst.
Qed.

Lemma frames_print (line : string) : frames S P (print line).
Proof. apply frames_log. allowed. Qed.

Lemma frames_eprint (line : string) : frames S P (eprint line).
Proof. apply frames_log. allowed. Qed.

Lemma frames_getsize (p : string) : frames S P (OS.getsize cwd p).
Proof.
  apply frames_quiet. intros w r w' H. unfold OS.getsize in H.
  by destruct (node_at _ _) as [[c |] |]; injection H as <- <-.
Qed.

Lemma frames_try_except {A} (body : M A) (handler : string -> M A) :
  frames S P body -> (forall cls, frames S P (handler cls)) ->
  frames S P (try_except body handler).
Proof.
  intros Hb Hh w r w' H. unfold try_except in H.
  destruct (body w) as [[[code | cls] | a] w1] eqn:E.
  - injection H as <- <-. by apply (Hb _ _ _ E).
  - destruct (Hb _ _ _ E) as (D1 & n1 & T1 & F1).
    destruct (Hh cls _ _ _ H) as (D2 & n2 & T2 & F2).
    split.
    + intros k Hk. by rewrite D2, D1.
    + exists (n1 ++ n2)%list. split.
      * by rewrite T2, T1, app_assoc.
      * by apply Forall_app.
  - injection H as <- <-. by apply (Hb _ _ _ E).
Qed.

Lemma frames_report (a : args) : frames S P (report cwd a).
Proof.
  unfold report.
  apply frames_bind; [apply frames_print |]. intros _.
  apply frames_bind; [apply frames_print |]. intros _.
  apply frames_try_except; [| intros _; apply frames_ret].
  apply frames_bind; [apply frames_getsize |]. intros in_size.
  apply frames_bind; [apply frames_getsize |]. intros out_size.
  apply frames_print.
Qed.

(** A subsetting call whose selection may be missing: [str_add] then
    [run_pyftsubset]. *)
Lemma frames_subset_with (pre : string) (o : option string)
    (mk : string -> list string) (out : string) :
  S (resolve out) ->
  (forall t, output_file_of (mk (pre +:+ t)) = Some out) ->
  frames S P (bind (str_add pre o) (fun sel => run_pyftsubset' (mk sel))).
Proof.
  intros HS Hout. destruct o as [t |]; cbn [str_add].
  - apply frames_ret_bind, frames_run_pyftsubset. intros out'.
    rewrite Hout. by intros [= <-].
  - apply frames_raise_bind.
Qed.

Lemma frames_stage_A (a : args) (subset_otf : string) :
  S (resolve subset_otf) -> frames S P (stage_A' a subset_otf).
Proof.
  intros HS. unfold stage_A.
  destruct (PyStr.truthy (text_file a));
    (apply frames_bind; [apply frames_print |]); intros _.
  - apply (frames_subset_with "--text-file=" _
             (fun sel => [_; _; _; _; _; sel]) subset_otf HS).
    intros t. apply output_file_stage_A. auto.
  - apply (frames_subset_with "--unicodes=" _
             (fun sel => [_; _; _; _; _; sel]) subset_otf HS).
    intros t. apply output_file_stage_A. auto.
Qed.

Lemma frames_stage_B (subset_otf ttf_intermediate : string) :
  S (resolve ttf_intermediate) ->
  (PyStr.truthy (which "fontforge") = true ->
   P (Subprocess (ff_cmd subset_otf ttf_intermediate))) ->
  frames S P (stage_B' subset_otf ttf_intermediate).
Proof.
  intros HS HSub. unfold stage_B.
  apply frames_bind; [apply frames_print |]. intros _.
  by apply frames_ff_convert.
Qed.

Lemma frames_intermediate_check (a : args) (ttf_intermediate : string) :
  frames S P (intermediate_check' a ttf_intermediate).
Proof.
  unfold intermediate_check.
  apply frames_bind; [apply frames_check |]. intros [[[ok g] l] n].
  destruct (rejected a _); [| apply frames_ret].
  apply frames_bind; [apply frames_eprint |]. intros _. apply frames_raise.
Qed.

Lemma frames_ttf_subset (a : args) (src : string) (line1 line2 : string) :
  S (resolve (out_font a)) ->
  frames S P
    (if PyStr.truthy (text_file a) then
       print line1 ;;;
       sel <- str_add "--text-file=" (text_file a) ;;
       run_pyftsubset' (ttf_subset_args src (out_font a) sel)
     else
       print line2 ;;;
       sel <- str_add "--unicodes="
                (PyStr.or_else (unicodes a)
                   (PRESETS_get
                      (str_opt (PyStr.or_else (preset a) (Some "sc-min"))))) ;;
       run_pyftsubset' (ttf_subset_args src (out_font a) sel)).
Proof.
  intros HS.
  destruct (PyStr.truthy (text_file a));
    (apply frames_bind; [apply frames_print |]); intros _.
  - apply (frames_subset_with "--text-file=" _
             (ttf_subset_args src (out_font a)) (out_font a) HS).
    intros t. apply output_file_ttf. auto.
  - apply (frames_subset_with "--unicodes=" _
             (ttf_subset_args src (out_font a)) (out_font a) HS).
    intros t. apply output_file_ttf. auto.
Qed.

Lemma frames_stage_C (a : args) (ttf_intermediate : string) :
  S (resolve (out_font a)) -> frames S P (stage_C' a ttf_intermediate).
Proof.
  intros HS. unfold stage_C. destruct (no_second_subset a).
  - apply frames_bind; [apply frames_print |]. intros _.
    by apply frames_copyfile.
  - by apply frames_ttf_subset.
Qed.

Lemma frames_truetype_path (a : args) :
  S (resolve (out_font a)) -> frames S P (truetype_path' a).
Proof.
  intros HS. unfold truetype_path.
  destruct (_ || _).
  - by apply frames_ttf_subset.
  - apply frames_bind; [apply frames_print |]. intros _.
    by apply frames_copyfile.
Qed.

Lemma frames_otf_pipeline (a : args) (tmpdir : string) :
  S (resolve (out_font a)) ->
  S (resolve (subset_otf_in tmpdir)) ->
  S (resolve (intermediate_in tmpdir)) ->
  (PyStr.truthy (which "fontforge") = true ->
   P (Subprocess (ff_cmd (subset_otf_in tmpdir) (intermediate_in tmpdir)))) ->
  frames S P (otf_pipeline' a tmpdir).
Proof.
  intros Ho Hs Hi HSub. unfold otf_pipeline.
  apply frames_bind; [by apply frames_stage_A |]. intros _.
  apply frames_bind; [by apply frames_stage_B |]. intros _.
  apply frames_bind; [apply frames_intermediate_check |]. intros _.
  by apply frames_stage_C.
Qed.

Lemma frames_produce (a : args) (ext tmpdir : string) :
  S (resolve (out_font a)) ->
  (ext = ".otf" ->
   S (resolve (subset_otf_in tmpdir)) /\
   S (resolve (intermediate_in tmpdir)) /\
   (PyStr.truthy (which "fontforge") = true ->
    P (Subprocess (ff_cmd (subset_otf_in tmpdir) (intermediate_in tmpdir))))) ->
  frames S P (produce' a ext tmpdir).
Proof.
  intros Ho Hotf. unfold produce.
  destruct (String.eqb_spec ext ".otf") as [E | _].
  - destruct (Hotf E) as (? & ? & ?). by apply frames_otf_pipeline.
  - by apply frames_truetype_path.
Qed.

Lemma frames_final_verification (a : args) :
  frames S P (final_verification' a).
Proof.
  unfold final_verification.
  apply frames_bind; [apply frames_check |]. intros [[[ok g] l] n].
  destruct (rejected a _); [| apply frames_ret].
  apply frames_bind; [apply frames_print |]. intros _.
  apply frames_bind; [apply frames_eprint |]. intros _. apply frames_raise.
Qed.

Lemma frames_try_body (a : args) (ext tmpdir : string) :
  S (resolve (out_font a)) ->
  (ext = ".otf" ->
   S (resolve (subset_otf_in tmpdir)) /\
   S (resolve (intermediate_in tmpdir)) /\
   (PyStr.truthy (which "fontforge") = true ->
    P (Subprocess (ff_cmd (subset_otf_in tmpdir) (intermediate_in tmpdir))))) ->
  frames S P (try_body' a ext tmpdir).
Proof.
  intros Ho Hotf. unfold try_body.
  apply frames_bind; [by apply frames_produce |]. intros _.
  apply frames_bind; [apply frames_final_verification |]. intros _.
  apply frames_report.
Qed.

Lemma frames_rmtree (p : string) :
  (forall k, resolve p `prefix_of` k -> S k) -> frames S P (OS.rmtree cwd p).
Proof.
  intros HS. unfold OS.rmtree.
  apply frames_bind; [apply frames_log; allowed |]. intros _.
  apply frames_quiet. intros w r w' [= <- <-]. split; [| done].
  intros k Hk. cbn [set_fs fs]. apply remove_tree_outside.
  intros Hp. apply Hk, HS, Hp.
Qed.

(** The footprint of a whole run. *)
Lemma main_frames (a : args) (w : world) (r : exn + unit) (w' : world) :
  S (resolve (out_font a)) ->
  (forall k, k `prefix_of` PosixPath.dirname (resolve (out_font a)) -> S k) ->
  (forall name k, name ∈ rnd w ->
                  resolve (tmp_candidate name) `prefix_of` k -> S k) ->
  (takes_otf_pipeline (in_font a) = true ->
   PyStr.truthy (which "fontforge") = true ->
   forall name, name ∈ rnd w ->
     P (Subprocess (ff_cmd (subset_otf_in (tmp_candidate name))
                           (intermediate_in (tmp_candidate name))))) ->
  main' a w = (r, w') ->
  (forall k, ~ S k -> node_at (fs w') k = node_at (fs w) k) /\
  exists new, trace w' = (trace w ++ new)%list /\ Forall P new.
Proof.
  intros Ho Hd Ht HSub H.
  destruct (prelude' a w) as [[e | [ext tmpdir]] w0] eqn:Epre.
  { unfold main in H. rewrite (bind_raises _ _ _ _ _ Epre) in H.
    injection H as <- <-.
    apply prelude_raises in Epre as (_ & Hf & (new & T & F) & _).
    split.
    - intros k Hk. apply Hf. intros Hp. apply Hk, Hd, Hp.
    - exists new. split; [done |]. eapply Forall_impl; [exact F | exact HP]. }
  rewrite (main_after_prelude _ _ _ _ _ _ _ _ _ _ _ Epre) in H.
  destruct (prelude_tmpdir _ _ _ _ _ Epre) as (name & Hname & ->).
  apply prelude_returns in Epre as Hfacts.
  destruct Hfacts as (_ & _ & _ & _ & _ & _ & Hext0 & T1).
  assert (Fbody : frames S P
                    (try_finally (try_body' a ext (tmp_candidate name))
                       (OS.rmtree cwd (tmp_candidate name)))).
  { apply frames_try_finally;
      [| apply frames_rmtree; intros k; by apply (Ht name)].
    apply frames_try_body; [done |]. intros Hext.
    split; [| split].
    - apply (Ht name); [done |]. rewrite subset_otf_below. by apply prefix_app_r.
    - apply (Ht name); [done |]. rewrite intermediate_below. by apply prefix_app_r.
    - intros Hff. apply HSub; [| done | done].
      unfold takes_otf_pipeline. by rewrite <- Hext0, Hext. }
  destruct (Fbody _ _ _ H) as (D2 & n2 & T2 & F2).
  split.
  - intros k Hk. rewrite D2 by done.
    eapply prelude_frame; [exact Epre | |].
    + intros Hp. apply Hk, Hd, Hp.
    + intros ->. by apply Hk, (Ht name).
  - eexists (_ :: _ :: n2)%list. split.
    + rewrite T2, T1, <- app_assoc. reflexivity.
    + apply Forall_cons. split; [apply HP; cbn; tauto |].
      apply Forall_cons. split; [apply HP; cbn; tauto | done].
Qed.

End FramesOf.

(** ** Outcomes of the stages *)

(** A step that makes no [sys.exit] can only fail with an exception. *)
Lemma only_exceptions {A} (m : M A) (a : args) (sel : args -> option string)
    (w : world) (e : exn) (w' : world) :
  sat (subset_call_ok sel a) (exits []) any m -> m w = (inl e, w') ->
  exists cls, e = Exception cls.
Proof.
  intros Hs H. destruct (Hs _ _ _ H) as (_ & _ & He).
  destruct e as [code | cls]; [| eauto]. by apply elem_of_nil in He.
Qed.

Lemma exits_singleton (c : Z) (e : exn) :
  exits [c] e -> e = SystemExit c \/ exists cls, e = Exception cls.
Proof.
  destruct e as [code | cls]; cbn; [| eauto].
  intros ->%list_elem_of_singleton. by left.
Qed.

(** How far a run of the three-stage pipeline gets. *)
Lemma otf_pipeline_shape (a : args) (tmpdir : string) (w0 : world)
    (r : exn + unit) (w1 : world) :
  otf_pipeline' a tmpdir w0 = (r, w1) ->
  (exists cls,
      stage_A' a (subset_otf_in tmpdir) w0 = (inl (Exception cls), w1) /\
      r = inl (Exception cls)) \/
  exists wa,
    stage_A' a (subset_otf_in tmpdir) w0 = (inr tt, wa) /\
    ((exists cls,
         stage_B' (subset_otf_in tmpdir) (intermediate_in tmpdir) wa
         = (inl (Exception cls), w1) /\
         r = inl (Exception cls)) \/
     exists wb g l n,
       stage_B' (subset_otf_in tmpdir) (intermediate_in tmpdir) wa
       = (inr tt, wb) /\
       check (intermediate_in tmpdir) wb = (inr (g && l, g, l, n), wb) /\
       if rejected a (g && l, g, l, n)
       then r = inl (SystemExit 2) /\
            exists line, w1 = emit (Stderr line) wb
       else stage_C' a (intermediate_in tmpdir) wb = (r, w1)).
Proof.
  intros H. unfold otf_pipeline in H.
  apply bind_inv in H as [(e & HA & ->) | ([] & wa & HA & H)].
  { left.
    destruct (only_exceptions _ a resolved_selection _ _ _
                (sat_stage_A _ _ _ _ _ eq_refl _) HA) as [cls ->].
    eauto. }
  right. exists wa. split; [done |].
  apply bind_inv in H as [(e & HB & ->) | ([] & wb & HB & H)].
  { left.
    destruct (only_exceptions _ a resolved_selection _ _ _
                (sat_stage_B _ _ _ _ _ _ _ _) HB) as [cls ->].
    eauto. }
  right.
  destruct (check_returns cwd TTFont_parse (intermediate_in tmpdir) wb)
    as (g & l & n & Hc).
  exists wb, g, l, n. split; [done |]. split; [done |].
  rewrite bind_unfold in H. unfold intermediate_check in H.
  rewrite bind_unfold, Hc in H.
  destruct (rejected a _).
  - injection H as <- <-. split; [done |]. by eexists.
  - exact H.
Qed.

(** Without FontForge the pipeline stops in Stage A or, at the latest,
    at the start of Stage B. *)
Lemma otf_pipeline_without_fontforge (a : args) (tmpdir : string) (w0 : world)
    (r : exn + unit) (w1 : world) :
  PyStr.truthy (which "fontforge") = false ->
  otf_pipeline' a tmpdir w0 = (r, w1) ->
  exists cls,
    r = inl (Exception cls) /\
    (forall wa, stage_A' a (subset_otf_in tmpdir) w0 = (inr tt, wa) ->
                cls = "RuntimeError").
Proof.
  intros Hff H.
  apply otf_pipeline_shape in H
    as [(cls & HA & ->) |
        (wa & HA & [(cls & HB & ->) | (wb & g & l & n & HB & _)])].
  - exists cls. split; [done |]. intros wa' HA'. congruence.
  - exists cls. split; [done |]. intros _ _.
    unfold stage_B, ff_convert_otf_to_ttf in HB. rewrite Hff in HB.
    by injection HB.
  - unfold stage_B, ff_convert_otf_to_ttf in HB. rewrite Hff in HB.
    discriminate.
Qed.

Lemma prelude_ext_otf (a : args) (w : world) (ext tmpdir : string) (w0 : world) :
  prelude' a w = (inr (ext, tmpdir), w0) ->
  takes_otf_pipeline (in_font a) = (String.eqb ext ".otf").
Proof.
  by intros (_ & _ & _ & _ & _ & _ & -> & _)%prelude_returns.
Qed.

(** What an accepted font is. *)
Lemma check_accepts (a : args) (p : string) (w : world)
    (t : bool * bool * bool * Z) :
  check p w = (inr t, w) -> rejected a t = false ->
  exists content tf,
    node_at (fs w) (resolve p) = Some (File content) /\
    TTFont_parse content = inr tf /\
    has_table tf "glyf" = true /\
    has_table tf "loca" = true /\
    if has_table tf "maxp"
    then exists n, maxp_numGlyphs tf = inr n /\ min_glyphs a <= n
    else min_glyphs a <= -1.
Proof.
  unfold check_ttf_tables, try_except, check_ttf_tables_try, TTFont,
    OS.read_file, OS.read_at.
  rewrite !bind_unfold.
  destruct (node_at (fs w) (resolve p)) as [[c |] |] eqn:En;
    [| by intros [= <-] | by intros [= <-]].
  destruct (TTFont_parse c) as [cls | tf] eqn:Ep; [by intros [= <-] |].
  cbn [ret]. rewrite !bind_unfold. unfold get_numGlyphs.
  intros Hc Hrej. exists c, tf. do 2 (split; [done |]).
  destruct (has_table tf "maxp").
  - destruct (maxp_numGlyphs tf) as [cls | n];
      injection Hc as <-; [done |].
    unfold rejected in Hrej.
    destruct (has_table tf "glyf"), (has_table tf "loca"); try done.
    do 2 (split; [done |]). exists n. split; [done |].
    cbn in Hrej. by destruct (Z.ltb_spec n (min_glyphs a)).
  - injection Hc as <-. unfold rejected in Hrej.
    destruct (has_table tf "glyf"), (has_table tf "loca"); try done.
    do 2 (split; [done |]).
    cbn in Hrej. by destruct (Z.ltb_spec (-1) (min_glyphs a)).
Qed.

Lemma run_pyftsubset_trace (args_list : list string) (w : world) :
  trace (snd (run_pyftsubset' args_list w))
  = (trace w ++ [Pyftsubset args_list])%list.
Proof.
  unfold run_pyftsubset. rewrite bind_unfold. cbn [log].
  unfold pyftsubset_main. cbn [emit fs].
  destruct (subset_engine _ _) as [cls | [font |]]; [done | | done].
  destruct (output_file_of args_list) as [out |]; [| done].
  unfold OS.write_file. cbn [fs].
  by destruct (OS.write_at _ _ _).
Qed.

Lemma copyfile_trace (src dst : string) (w : world) :
  trace (snd (OS.copyfile cwd src dst w)) = (trace w ++ [Copyfile src dst])%list.
Proof.
  unfold OS.copyfile. rewrite bind_unfold. cbn [log].
  case_decide; [done |].
  rewrite bind_unfold. unfold OS.read_file. cbn [emit fs].
  destruct (OS.read_at _ _) as [cls | content]; [done |].
  unfold OS.write_file. cbn [fs].
  by destruct (OS.write_at _ _ _).
Qed.

(** With the preset one of the [choices], the table lookup of lines
    129, 168 and 198 finds its ranges. *)
Lemma preset_ranges (a : args) :
  valid_preset a ->
  exists u,
    PRESETS_get (str_opt (PyStr.or_else (preset a) (Some "sc-min"))) = Some u.
Proof.
  unfold valid_preset. destruct (preset a) as [k |]; [| by eexists].
  unfold PRESETS_keys. cbn [map PRESETS fst].
  rewrite !elem_of_cons, elem_of_nil.
  intros [-> | [-> | [-> | [-> | []]]]]; by eexists.
Qed.

(** The success report prints its two lines and then, when both sizes
    can be read, the size line. *)
Lemma report_trace (a : args) (w : world) :
  trace (snd (report cwd a w))
  = (trace w ++
     [Stdout "[✓] Success."; Stdout ("Output: " +:+ out_font a)] ++
     match node_at (fs w) (resolve (in_font a)),
           node_at (fs w) (resolve (out_font a)) with
     | Some n_in, Some n_out =>
         let size n := match n with
                       | File content => Z.of_nat (length content)
                       | Dir => 0
                       end in
         [Stdout ("Size: " +:+ human_size (size n_in) +:+ " → "
                  +:+ human_size (size n_out))]
     | _, _ => []
     end)%list.
Proof.
  unfold report, print, log, try_except. rewrite !bind_unfold.
  unfold OS.getsize at 1. cbn [emit fs trace].
  destruct (node_at (fs w) (resolve (in_font a))) as [[c |] |];
    [| | cbn [ret snd trace emit]; rewrite <- ?app_assoc; reflexivity].
  all: rewrite bind_unfold; unfold OS.getsize; cbn [fs trace emit];
    destruct (node_at (fs w) (resolve (out_font a))) as [[c' |] |];
    cbn [ret snd trace emit]; rewrite <- ?app_assoc; reflexivity.
Qed.

(** ** The FontForge conversion *)

(** X3. [ff_convert_otf_to_ttf] returns normally exactly when a
    FontForge executable is found and the process it launches returns
    code 0.  When none is found it raises [RuntimeError] before doing
    anything: no process is launched and the world is as it was.
    When one is found it launches exactly one process, with the
    command line [ff -lang=py -c script otf_path ttf_path], and a
    return code other than 0 raises [CalledProcessError]. *)
Theorem ff_convert_outcome (otf_path ttf_path : string) (w : world) :
  (fst (ff_convert' otf_path ttf_path w) = inr tt <->
   PyStr.truthy (which "fontforge") = true /\
   fst (fontforge_engine (ff_cmd otf_path ttf_path) (fs w)) = 0) /\
  (PyStr.truthy (which "fontforge") = false ->
   ff_convert' otf_path ttf_path w = (inl (Exception "RuntimeError"), w)) /\
  (PyStr.truthy (which "fontforge") = true ->
   trace (snd (ff_convert' otf_path ttf_path w))
   = (trace w ++ [Subprocess (ff_cmd otf_path ttf_path)])%list /\
   (fst (fontforge_engine (ff_cmd otf_path ttf_path) (fs w)) <> 0 ->
    fst (ff_convert' otf_path ttf_path w)
    = inl (Exception "CalledProcessError"))).
Proof.
  unfold ff_convert_otf_to_ttf, subprocess_run.
  destruct (PyStr.truthy (which "fontforge")); cbn [negb].
  - rewrite bind_unfold. cbn [log emit fs].
    destruct (fontforge_engine _ _) as [rc gen]. cbn [fst].
    assert (T : trace
                 match gen with
                 | Some font =>
                     match OS.write_at
                             (resolve (nth 5 (ff_cmd otf_path ttf_path) ""))
                             font (fs w) with
                     | inr f =>
                         set_fs f (emit (Subprocess (ff_cmd otf_path ttf_path)) w)
                     | inl _ => emit (Subprocess (ff_cmd otf_path ttf_path)) w
                     end
                 | None => emit (Subprocess (ff_cmd otf_path ttf_path)) w
                 end
               = (trace w ++ [Subprocess (ff_cmd otf_path ttf_path)])%list).
    { destruct gen as [font |]; [| done]. by destruct (OS.write_at _ _ _). }
    destruct (Z.eqb_spec rc 0) as [-> | Hrc]; cbn [fst snd].
    + split; [done |]. split; [done |]. intros _. split; [| done].
      exact T.
    + split; [split; [done | by intros [_ ?]] |]. split; [done |].
      intros _. split; [| done]. exact T.
  - split; [split; [done | by intros [? _]] |]. split; [done |]. done.
Qed.

(** X4. On an input that takes the OTF pipeline, when no FontForge
    executable is found, every run ends with exit status 1 and
    launches no process; a run whose Stage A completes ends on the
    uncaught [RuntimeError] of [ff_convert_otf_to_ttf]. *)
Theorem otf_run_needs_fontforge (a : args) (w : world) :
  takes_otf_pipeline (in_font a) = true ->
  PyStr.truthy (which "fontforge") = false ->
  exit_status (main' a w) = 1 /\
  (forall tmpdir w0 wa,
      prelude' a w = (inr (".otf", tmpdir), w0) ->
      stage_A' a (subset_otf_in tmpdir) w0 = (inr tt, wa) ->
      fst (main' a w) = inl (Exception "RuntimeError")) /\
  exists new,
    trace (snd (main' a w)) = (trace w ++ new)%list /\
    Forall (fun e => ~ is_subprocess e) new.
Proof.
  intros Hotf Hff.
  assert (Hbody : forall tmpdir w0 r w1,
             try_body' a ".otf" tmpdir w0 = (r, w1) ->
             exists cls,
               r = inl (Exception cls) /\
               (forall wa, stage_A' a (subset_otf_in tmpdir) w0 = (inr tt, wa) ->
                           cls = "RuntimeError")).
  { intros tmpdir w0 r w1 H. unfold try_body in H.
    apply bind_inv in H as [(e & Hp & ->) | ([] & w2 & Hp & _)];
      change (produce' a ".otf" tmpdir) with (otf_pipeline' a tmpdir) in Hp;
      apply otf_pipeline_without_fontforge in Hp as (cls & E & Hcls);
      try done.
    injection E as ->. eauto. }
  split; [| split].
  - destruct (main_shape cwd gettempdir which subset_engine fontforge_engine
                TTFont_parse a w)
      as [(e & w' & _ & Hm & He) |
          (ext & tmpdir & w0 & r & w1 & Hpre & Hb & _ & Hm & _)];
      rewrite Hm; unfold exit_status; cbn [fst].
    + by destruct (exits_singleton _ _ He) as [-> | [cls ->]].
    + rewrite (prelude_ext_otf _ _ _ _ _ Hpre) in Hotf.
      apply String.eqb_eq in Hotf as ->.
      by destruct (Hbody _ _ _ _ Hb) as (cls & -> & _).
  - intros tmpdir w0 wa Hpre HA.
    destruct (try_body' a ".otf" tmpdir w0) as [r w1] eqn:Hb.
    rewrite (main_inv _ _ _ _ _ _ _ _ _ _ _ _ _ Hpre Hb). cbn [fst].
    destruct (Hbody _ _ _ _ Hb) as (cls & -> & Hcls).
    by rewrite (Hcls _ HA).
  - destruct (main' a w) as [r w'] eqn:E.
    refine (proj2 (main_frames (fun _ => True) (fun e => ~ is_subprocess e)
                     (fun e H => H) a w r w' I (fun _ _ => I)
                     (fun _ _ _ _ => I) _ E)).
    intros _ Hff'. congruence.
Qed.

(** X5. The only process a run ever launches is FontForge, and only on
    an input that takes the OTF pipeline: every launch has the command
    line [ff -lang=py -c script tmpdir/subset.otf
    tmpdir/intermediate.ttf], where [ff] is what [shutil.which] found
    and [tmpdir] is a [cjk2ttf_] directory under the system temporary
    directory. *)
Theorem only_fontforge_is_launched (a : args) (w : world) :
  exists new,
    trace (snd (main' a w)) = (trace w ++ new)%list /\
    forall cmd,
      Subprocess cmd ∈ new ->
      takes_otf_pipeline (in_font a) = true /\
      exists ff name,
        which "fontforge" = Some ff /\
        name ∈ rnd w /\
        cmd = [ff; "-lang=py"; "-c"; ff_script;
               subset_otf_in (tmp_candidate name);
               intermediate_in (tmp_candidate name)].
Proof.
  set (P := fun e =>
              match e with
              | Subprocess cmd =>
                  takes_otf_pipeline (in_font a) = true /\
                  exists ff name,
                    which "fontforge" = Some ff /\
                    name ∈ rnd w /\
                    cmd = [ff; "-lang=py"; "-c"; ff_script;
                           subset_otf_in (tmp_candidate name);
                           intermediate_in (tmp_candidate name)]
              | _ => True
              end).
  assert (HP : forall e, ~ is_subprocess e -> P e).
  { intros e He. destruct e; try exact I. cbn in He. tauto. }
  destruct (main' a w) as [r w'] eqn:E.
  destruct (main_frames (fun _ => True) P HP a w r w' I (fun _ _ => I)
              (fun _ _ _ _ => I)) as (_ & new & T & F); [| exact E |].
  { intros Hotf Hff name Hname. cbn. split; [done |].
    destruct (which "fontforge") as [ff |]; [| done]. eauto. }
  exists new. split; [done |]. intros cmd Hcmd.
  by apply (proj1 (Forall_forall P new) F (Subprocess cmd)).
Qed.

(** ** Exit statuses *)

(** X6. Once the arguments are parsed, the exit status of every run is
    0, 1, 2 or 3; the only arguments of [sys.exit] are 1, 2 and 3; and
    [sys.exit(1)] happens only when the input path is not an existing
    file (status 1 otherwise comes from an uncaught exception). *)
Theorem exit_status_provenance (a : args) (w : world) :
  exit_status (main' a w) ∈ [0; 1; 2; 3] /\
  (forall code, fst (main' a w) = inl (SystemExit code) -> code ∈ [1; 2; 3]) /\
  (fst (main' a w) = inl (SystemExit 1) ->
   OS.isfile cwd (in_font a) w = (inr false, w)).
Proof.
  destruct (main_shape cwd gettempdir which subset_engine fontforge_engine
              TTFont_parse a w)
    as [(e & w' & Hpre & Hm & He) |
        (ext & tmpdir & w0 & r & w1 & Hpre & Hb & _ & Hm &
         [(e & _ & -> & He) | (w2 & t & _ & _ & _ & ->)])];
    rewrite Hm; unfold exit_status; cbn [fst].
  - apply prelude_raises in Hpre as (_ & _ & _ & Hin).
    destruct (exits_singleton _ _ He) as [-> | [cls ->]].
    + split; [in_list |]. split; [intros code [= <-]; in_list |].
      intros _. by destruct Hin.
    + split; [in_list |]. by split.
  - destruct (exits_singleton _ _ He) as [-> | [cls ->]].
    + split; [in_list |]. split; [intros code [= <-]; in_list |]. done.
    + split; [in_list |]. by split.
  - destruct (rejected a t).
    + split; [in_list |]. split; [intros code [= <-]; in_list |]. done.
    + split; [in_list |]. by split.
Qed.

(** X7. Once the arguments are parsed, a run calls [sys.exit(2)] only
    on the OTF pipeline, after Stages A and B have completed with
    FontForge found, when the check of the intermediate font rejects
    it; nothing else follows: the error line and the removal of the
    temporary directory are the last two events, so Stage C never
    starts. *)
Theorem exit_2_means_intermediate_rejected (a : args) (w : world) :
  fst (main' a w) = inl (SystemExit 2) ->
  exists tmpdir w0 w1 t line,
    prelude' a w = (inr (".otf", tmpdir), w0) /\
    PyStr.truthy (which "fontforge") = true /\
    (stage_A' a (subset_otf_in tmpdir) ;;;
     stage_B' (subset_otf_in tmpdir) (intermediate_in tmpdir)) w0
    = (inr tt, w1) /\
    check (intermediate_in tmpdir) w1 = (inr t, w1) /\
    rejected a t = true /\
    trace (snd (main' a w)) = (trace w1 ++ [Stderr line; Rmtree tmpdir])%list.
Proof.
  intros Hexit.
  destruct (main_shape cwd gettempdir which subset_engine fontforge_engine
              TTFont_parse a w)
    as [(e & w' & Hpre & Hm & He) |
        (ext & tmpdir & w0 & r & w1 & Hpre & Hb & _ & Hm &
         [(e & Hp & -> & He) | (w2 & t & _ & _ & _ & ->)])];
    rewrite Hm in Hexit |- *; cbn [fst snd trace] in Hexit |- *.
  - injection Hexit as ->. by apply list_elem_of_singleton in He.
  - injection Hexit as ->. clear He.
    unfold produce in Hp. destruct (String.eqb_spec ext ".otf") as [-> | _].
    2: { by destruct (only_exceptions _ a resolved_selection _ _ _
                        (sat_truetype_path _ _ _ _ _ eq_refl) Hp). }
    apply otf_pipeline_shape in Hp
      as [(cls & _ & [=]) |
          (wa & HA & [(cls & _ & [=]) | (wb & g & l & n & HB & Hc & Hrej)])].
    destruct (rejected a _) eqn:Er.
    + destruct Hrej as (_ & line & ->).
      exists tmpdir, w0, wb, (g && l, g, l, n), line.
      split; [done |]. split.
      { unfold stage_B, ff_convert_otf_to_ttf in HB.
        by destruct (PyStr.truthy (which "fontforge")). }
      split; [by rewrite bind_unfold, HA |]. split; [done |]. split; [done |].
      cbn [emit trace]. by rewrite <- app_assoc.
    + by destruct (only_exceptions _ a resolved_selection _ _ _
                     (sat_stage_C _ _ _ _ _ eq_refl _) Hrej).
  - by destruct (rejected a t).
Qed.

(** ** What a run leaves behind *)

(** X8. A run that returns normally leaves at the output path a file
    that [TTFont] parses, with a [glyf] and a [loca] table, and whose
    [maxp] table declares at least [--min-glyphs] glyphs; a font with
    no [maxp] table is accepted only when the threshold is -1 or
    less. *)
Theorem success_means_verified_output (a : args) (w : world) :
  fst (main' a w) = inr tt ->
  exists content tf,
    node_at (fs (snd (main' a w))) (resolve (out_font a))
    = Some (File content) /\
    TTFont_parse content = inr tf /\
    has_table tf "glyf" = true /\
    has_table tf "loca" = true /\
    if has_table tf "maxp"
    then exists n, maxp_numGlyphs tf = inr n /\ min_glyphs a <= n
    else min_glyphs a <= -1.
Proof.
  intros Hexit.
  destruct (main_shape cwd gettempdir which subset_engine fontforge_engine
              TTFont_parse a w)
    as [(e & w' & Hpre & Hm & He) |
        (ext & tmpdir & w0 & r & w1 & Hpre & Hb & Hkept & Hm &
         [(e & Hp & -> & He) | (w2 & t & Hp & Hc & Hfs & ->)])];
    rewrite Hm in Hexit |- *; cbn [fst snd fs] in Hexit |- *; try done.
  destruct (rejected a t) eqn:Er; [done |].
  destruct (check_accepts _ _ _ _ Hc Er) as (content & tf & Hn & Hrest).
  exists content, tf. split; [| done].
  eapply output_survives; [exact Hpre | exact Hkept | by rewrite Hfs].
Qed.

(** X9. Once the prelude has returned, the directory of the output
    path and every directory above it exist when the run ends,
    whatever its outcome. *)
Theorem output_directory_created (a : args) (w : world) (ext tmpdir : string)
    (w0 : world) (k : PosixPath.path) :
  prelude' a w = (inr (ext, tmpdir), w0) ->
  k `prefix_of` PosixPath.dirname (resolve (out_font a)) ->
  node_at (fs (snd (main' a w))) k = Some Dir.
Proof.
  intros Hpre Hk.
  destruct (try_body' a ext tmpdir w0) as [r w1] eqn:Hb.
  rewrite (main_inv _ _ _ _ _ _ _ _ _ _ _ _ _ Hpre Hb). cbn [snd fs].
  destruct (tmpdir_facts _ _ _ _ _ _ _ Hpre) as (_ & _ & Hq & _).
  rewrite remove_tree_outside.
  2: { intros Hp. apply Hq. by etransitivity. }
  apply (sat_try_body _ _ _ _ _ a [2; 3] resolved_selection eq_refl) in Hb
    as (Hkept & _); [| in_list | in_list].
  apply Hkept.
  apply prelude_returns in Hpre as (_ & f1 & _ & Hmk & Hfresh & -> & _).
  eapply insert_fresh_nodes_kept; [done |].
  eapply makedirs_from_dirs; [exact Hmk | done | apply prefix_nil | done].
Qed.

(** X10. Whatever its outcome, a run changes the file system only at
    the output path, at the directories leading to it, and at or below
    a [cjk2ttf_] directory of the system temporary directory named
    after one of the candidate names: every other path holds at the
    end what it held at the start. *)
Theorem main_footprint (a : args) (w : world) (k : PosixPath.path) :
  k <> resolve (out_font a) ->
  ~ k `prefix_of` PosixPath.dirname (resolve (out_font a)) ->
  (forall name, name ∈ rnd w -> ~ resolve (tmp_candidate name) `prefix_of` k) ->
  node_at (fs (snd (main' a w))) k = node_at (fs w) k.
Proof.
  intros Ho Hd Ht.
  destruct (main' a w) as [r w'] eqn:E.
  destruct (main_frames
              (fun k => k = resolve (out_font a) \/
                        k `prefix_of` PosixPath.dirname (resolve (out_font a)) \/
                        exists name, name ∈ rnd w /\
                                     resolve (tmp_candidate name) `prefix_of` k)
              (fun _ => True) (fun _ _ => I) a w r w') as (D & _);
    [by left | by right; left | by right; right; eauto | done | exact E |].
  apply D. intros [-> | [Hp | (name & Hn & Hp)]]; [done | done |].
  by apply (Ht name).
Qed.

(** The temporary directory is no ancestor of anything that existed
    before it was created. *)
Lemma tmpdir_not_above (a : args) (w : world) (ext tmpdir : string) (w0 : world)
    (k : PosixPath.path) (n : node) :
  well_formed (fs w) ->
  prelude' a w = (inr (ext, tmpdir), w0) ->
  node_at (fs w) k = Some n ->
  ~ resolve tmpdir `prefix_of` k.
Proof.
  intros Hwf (_ & f1 & _ & Hmk & Hfresh & _)%prelude_returns Hk Hp.
  apply makedirs_from_nodes_kept in Hmk.
  destruct (decide (resolve tmpdir = k)) as [E | Hne].
  - rewrite E in Hfresh. apply Hmk in Hk. congruence.
  - pose proof (well_formed_ancestor _ _ _ _ Hwf Hk Hp Hne) as Hq.
    apply Hmk in Hq. congruence.
Qed.

(** What a part of the [try] body leaves alone. *)
Lemma preserved_in_body {A} (m : M A) (a : args) (w : world)
    (ext tmpdir : string) (w0 : world) (r : exn + A) (w2 : world)
    (k : PosixPath.path) (n : node) :
  well_formed (fs w) ->
  prelude' a w = (inr (ext, tmpdir), w0) ->
  frames (fun k => k = resolve (out_font a) \/ resolve tmpdir `prefix_of` k)
         (fun _ => True) m ->
  m w0 = (r, w2) ->
  node_at (fs w) k = Some n ->
  k <> resolve (out_font a) ->
  node_at (fs w2) k = Some n.
Proof.
  intros Hwf Hpre Hm H Hk Ho.
  destruct (Hm _ _ _ H) as (D & _). rewrite D.
  - destruct (tmpdir_facts _ _ _ _ _ _ _ Hpre) as (_ & _ & _ & Hkept).
    by apply Hkept.
  - intros [-> | Hp]; [done |]. by eapply tmpdir_not_above.
Qed.

Lemma body_frames (a : args) (ext tmpdir : string) :
  frames (fun k => k = resolve (out_font a) \/ resolve tmpdir `prefix_of` k)
         (fun _ => True) (try_body' a ext tmpdir).
Proof.
  apply frames_try_body; [done | by left |]. intros _.
  split; [| split; [| done]]; right.
  - rewrite subset_otf_below. by apply prefix_app_r.
  - rewrite intermediate_below. by apply prefix_app_r.
Qed.

Lemma produce_frames (a : args) (ext tmpdir : string) :
  frames (fun k => k = resolve (out_font a) \/ resolve tmpdir `prefix_of` k)
         (fun _ => True) (produce' a ext tmpdir).
Proof.
  apply frames_produce; [done | by left |]. intros _.
  split; [| split; [| done]]; right.
  - rewrite subset_otf_below. by apply prefix_app_r.
  - rewrite intermediate_below. by apply prefix_app_r.
Qed.

(** X11. On a file system that is a tree, a run never removes or
    overwrites what was there, the output path apart: every file and
    directory that existed at the start, and in particular the input
    font when it is not the output path, is there unchanged at the
    end, whatever the outcome. *)
Theorem existing_files_preserved (a : args) (w : world) (k : PosixPath.path)
    (n : node) :
  well_formed (fs w) ->
  node_at (fs w) k = Some n ->
  k <> resolve (out_font a) ->
  node_at (fs (snd (main' a w))) k = Some n.
Proof.
  intros Hwf Hk Ho.
  destruct (prelude' a w) as [[e | [ext tmpdir]] w0] eqn:Hpre.
  { unfold main. rewrite (bind_raises _ _ _ _ _ Hpre). cbn [snd].
    apply prelude_raises in Hpre as (Hkept & _). by apply Hkept. }
  destruct (try_body' a ext tmpdir w0) as [r w1] eqn:Hb.
  rewrite (main_inv _ _ _ _ _ _ _ _ _ _ _ _ _ Hpre Hb). cbn [snd fs].
  rewrite remove_tree_outside by (by eapply tmpdir_not_above).
  eapply preserved_in_body; eauto using body_frames.
Qed.

Lemma final_verification_accepts (a : args) (w : world)
    (t : bool * bool * bool * Z) :
  check (out_font a) w = (inr t, w) -> rejected a t = false ->
  final_verification' a w = (inr tt, w).
Proof.
  intros Hc Er. unfold final_verification.
  rewrite (bind_returns _ _ _ _ _ Hc).
  destruct t as [[[ok g] l] n]. by rewrite Er.
Qed.

(** X14. On a file system that is a tree, a run that returns normally
    always prints the size line: when the success report is reached
    both the input path and the output path hold files, so the
    [except] branch of lines 227-228 is never taken.  The run ends
    with the three lines of the report followed by the removal of the
    temporary directory; the output size is that of the file left at
    the output path, and the input size that of the input font as it
    was at the start, unless the output path is the input path. *)
Theorem success_prints_sizes (a : args) (w : world) :
  well_formed (fs w) ->
  fst (main' a w) = inr tt ->
  exists earlier tmpdir c_in c_out,
    node_at (fs w) (resolve (in_font a)) = Some (File c_in) /\
    node_at (fs (snd (main' a w))) (resolve (out_font a))
    = Some (File c_out) /\
    trace (snd (main' a w))
    = (earlier ++
       [Stdout "[✓] Success.";
        Stdout ("Output: " +:+ out_font a);
        Stdout ("Size: "
                +:+ human_size
                      (Z.of_nat
                         (length
                            (if decide (resolve (in_font a) = resolve (out_font a))
                             then c_out else c_in)))
                +:+ " → " +:+ human_size (Z.of_nat (length c_out)));
        Rmtree tmpdir])%list.
Proof.
  intros Hwf Hexit.
  destruct (main_shape cwd gettempdir which subset_engine fontforge_engine
              TTFont_parse a w)
    as [(e & w' & Hpre & Hm & He) |
        (ext & tmpdir & w0 & r & w1 & Hpre & Hb & Hkept & Hm &
         [(e & Hp & -> & He) | (w2 & t & Hp & Hc & Hfs & ->)])];
    rewrite Hm in Hexit |- *; cbn [fst snd fs trace] in Hexit |- *; try done.
  destruct (rejected a t) eqn:Er; [done |].
  destruct (accepted_is_file _ _ _ _ _ _ Hc Er) as [c_out Hout].
  apply prelude_returns in Hpre as Hfacts.
  destruct Hfacts as (c_in & _ & Hin & _).
  unfold try_body in Hb. rewrite (bind_returns _ _ _ _ _ Hp) in Hb.
  rewrite (bind_returns _ _ _ _ _ (final_verification_accepts _ _ _ Hc Er)) in Hb.
  assert (Ht : trace w1 = trace (snd (report cwd a w2))) by (by rewrite Hb).
  rewrite report_trace in Ht.
  assert (Hin2 : node_at (fs w2) (resolve (in_font a))
                 = Some (File (if decide (resolve (in_font a)
                                          = resolve (out_font a))
                               then c_out else c_in))).
  { case_decide as E; [by rewrite E |].
    eapply preserved_in_body; eauto using produce_frames. }
  rewrite Hin2, Hout in Ht.
  exists (trace w2), tmpdir, c_in, c_out. split; [done |]. split.
  - eapply output_survives; [exact Hpre | exact Hkept | by rewrite Hfs].
  - rewrite Ht, <- !app_assoc. reflexivity.
Qed.

(** ** The subsetting calls *)

Lemma subset_step_trace (line pre : string) (o : option string)
    (mk : string -> list string) (w : world) (u : string) :
  o = Some u ->
  trace (snd ((print line ;;;
               sel <- str_add pre o ;;
               run_pyftsubset' (mk sel)) w))
  = (trace w ++ [Stdout line; Pyftsubset (mk (pre +:+ u))])%list.
Proof.
  intros ->. rewrite bind_unfold. cbn [print log str_add].
  rewrite bind_unfold. cbn [ret]. rewrite run_pyftsubset_trace.
  cbn [emit trace]. by rewrite <- app_assoc.
Qed.

Lemma copy_step_trace (line src dst : string) (w : world) :
  trace (snd ((print line ;;; OS.copyfile cwd src dst) w))
  = (trace w ++ [Stdout line; Copyfile src dst])%list.
Proof.
  rewrite bind_unfold. cbn [print log]. rewrite copyfile_trace.
  cbn [emit trace]. by rewrite <- app_assoc.
Qed.

(** With a valid preset the ranges of lines 168 and 198 are there. *)
Lemma ranges_resolved (a : args) :
  valid_preset a ->
  PyStr.truthy (text_file a) = false ->
  exists u,
    PyStr.or_else (unicodes a)
      (PRESETS_get (str_opt (PyStr.or_else (preset a) (Some "sc-min"))))
    = Some u /\
    resolved_selection a = Some ("--unicodes=" +:+ u).
Proof.
  intros Hv Ht. destruct (preset_ranges a Hv) as [u Hu].
  assert (E : exists u',
             PyStr.or_else (unicodes a)
               (PRESETS_get (str_opt (PyStr.or_else (preset a) (Some "sc-min"))))
             = Some u').
  { unfold PyStr.or_else at 1.
    destruct (PyStr.truthy (unicodes a)) eqn:Hu'; [| eauto].
    destruct (unicodes a) as [v |]; [eauto | done]. }
  destruct E as [u' E]. exists u'. split; [done |].
  by apply selection_unicodes.
Qed.

(** X12. With [--preset] absent or one of its [choices], the two
    subsetting stages of the OTF pipeline never fail to build their
    arguments: Stage A prints its line and makes exactly one
    subsetting call, from the input to the given path, and Stage C
    prints its line and then either copies (with --no-second-subset)
    or makes exactly one subsetting call to the output path; both
    calls end with the same resolved selection, which is the default
    preset when no selector is given. *)
Theorem otf_stages_one_call (a : args) (subset_otf ttf_intermediate : string)
    (w : world) :
  valid_preset a ->
  exists sel line_A line_C,
    resolved_selection a = Some sel /\
    trace (snd (stage_A' a subset_otf w))
    = (trace w ++
       [Stdout line_A;
        Pyftsubset [in_font a; "--output-file=" +:+ subset_otf;
                    "--layout-features=*"; "--no-hinting";
                    "--desubroutinize"; sel]])%list /\
    trace (snd (stage_C' a ttf_intermediate w))
    = (trace w ++
       [Stdout line_C;
        if no_second_subset a
        then Copyfile ttf_intermediate (out_font a)
        else Pyftsubset
               (ttf_subset_args ttf_intermediate (out_font a) sel)])%list.
Proof.
  intros Hv. unfold stage_A, stage_C.
  destruct (PyStr.truthy (text_file a)) eqn:Ht.
  - destruct (text_file a) as [t |] eqn:Et; [| done].
    assert (Hsel : resolved_selection a = Some ("--text-file=" +:+ t)).
    { apply selection_text_file; [by rewrite Et | done]. }
    exists ("--text-file=" +:+ t).
    destruct (no_second_subset a); do 2 eexists;
      (split; [exact Hsel |]); (split; [| first [apply copy_step_trace | idtac]]).
    1, 2: exact (subset_step_trace _ "--text-file=" (Some t)
                   (fun sel => [in_font a; "--output-file=" +:+ subset_otf;
                                "--layout-features=*"; "--no-hinting";
                                "--desubroutinize"; sel]) w t eq_refl).
    exact (subset_step_trace _ "--text-file=" (Some t)
             (ttf_subset_args ttf_intermediate (out_font a)) w t eq_refl).
  - destruct (ranges_resolved a Hv Ht) as (u & Hu & Hsel).
    exists ("--unicodes=" +:+ u).
    destruct (no_second_subset a); do 2 eexists;
      (split; [exact Hsel |]); (split; [| first [apply copy_step_trace | idtac]]).
    1, 2: exact (subset_step_trace _ "--unicodes=" _
                   (fun sel => [in_font a; "--output-file=" +:+ subset_otf;
                                "--layout-features=*"; "--no-hinting";
                                "--desubroutinize"; sel]) w u Hu).
    exact (subset_step_trace _ "--unicodes=" _
             (ttf_subset_args ttf_intermediate (out_font a)) w u Hu).
Qed.

(** X13. On the TrueType path, with [--preset] absent or one of its
    [choices]: when a selector is given (a non-empty --text-file or
    --unicodes, or a preset) the run prints its line and makes exactly
    one subsetting call from the input to the output path, with the
    resolved selection; when none is given it prints its line and
    copies the input to the output path, and the default preset, which
    Stage A would apply, is not used. *)
Theorem truetype_path_one_action (a : args) (w : world) :
  valid_preset a ->
  exists sel line,
    resolved_selection a = Some sel /\
    trace (snd (truetype_path' a w))
    = (trace w ++
       [Stdout line;
        if PyStr.truthy (text_file a) || PyStr.truthy (unicodes a)
           || PyStr.truthy (preset a)
        then Pyftsubset (ttf_subset_args (in_font a) (out_font a) sel)
        else Copyfile (in_font a) (out_font a)])%list.
Proof.
  intros Hv. unfold truetype_path.
  destruct (PyStr.truthy (text_file a)) eqn:Ht; cbn [orb].
  - destruct (text_file a) as [t |] eqn:Et; [| done].
    exists ("--text-file=" +:+ t). eexists.
    split; [apply selection_text_file; [by rewrite Et | done] |].
    exact (subset_step_trace _ "--text-file=" (Some t)
             (ttf_subset_args (in_font a) (out_font a)) w t eq_refl).
  - destruct (ranges_resolved a Hv Ht) as (u & Hu & Hsel).
    exists ("--unicodes=" +:+ u).
    destruct (_ || _); eexists; (split; [exact Hsel |]);
      [| apply copy_step_trace].
    exact (subset_step_trace _ "--unicodes=" _
             (ttf_subset_args (in_font a) (out_font a)) w u Hu).
Qed.

(** ** The sequence of effects of a successful run *)









(** ** Flags and paths that change nothing or everything *)

(** X16. On an input that takes the TrueType path, --no-second-subset
    has no effect at all: with the flag set or cleared the run is the
    same, outcome, files and events. *)
Theorem no_second_subset_ignored_on_truetype (a : args) (b : bool) (w : world) :
  takes_otf_pipeline (in_font a) = false ->
  main' (with_no_second_subset b a) w = main' a w.
Proof.
  intros Hotf. unfold main. rewrite !bind_unfold.
  change (prelude' (with_no_second_subset b a) w) with (prelude' a w).
  destruct (prelude' a w) as [[e | [ext tmpdir]] w0] eqn:Hpre; [done |].
  rewrite (prelude_ext_otf _ _ _ _ _ Hpre) in Hotf.
  cbn [fst snd]. unfold try_finally, try_body, produce. rewrite Hotf.
  reflexivity.
Qed.


(** ** [have] *)

(** X15. [have], which no line of the script calls, agrees with the
    test [ff_convert_otf_to_ttf] makes: when [have("fontforge")] is
    false the conversion raises [RuntimeError], and when it is true
    the conversion does not, unless [shutil.which] returned an empty
    string, which [have] counts as found and [not ff] as missing. *)
Theorem have_agrees_with_conversion (otf_path ttf_path : string) (w : world) :
  (have which "fontforge" = false ->
   ff_convert' otf_path ttf_path w = (inl (Exception "RuntimeError"), w)) /\
  (have which "fontforge" = true ->
   which "fontforge" <> Some "" ->
   fst (ff_convert' otf_path ttf_path w) <> inl (Exception "RuntimeError")) /\
  (which "fontforge" = Some "" ->
   have which "fontforge" = true /\
   ff_convert' otf_path ttf_path w = (inl (Exception "RuntimeError"), w)).
Proof.
  unfold have, ff_convert_otf_to_ttf, subprocess_run.
  destruct (which "fontforge") as [[| c ff] |]; cbn [PyStr.truthy negb].
  - split; [done |]. split; [done |]. done.
  - split; [done |]. split; [| done]. intros _ _.
    rewrite bind_unfold. cbn [log].
    destruct (fontforge_engine _ _) as [rc gen].
    by destruct (rc =? 0).
  - split; [done |]. split; [done |]. done.
Qed.

End MoreProperties.

(** * Further worked runs *)

Lemma human_size_units_run :
  0 <= 1536 < 2 ^ 53 /\
  human_size 1536 = fmt_1f 1536 1024 +:+ " KB" /\
  human_size 1536 = "1.5 KB".
Proof.
  assert (H : 0 <= 1536 < 2 ^ 53) by lia.
  split; [exact H |]. split; [exact (human_size_units 1536 H) |].
  vm_compute. reflexivity.
Defined.

Lemma human_size_accuracy_run :
  0 <= 1048575 < 2 ^ 53 /\
  human_size 1048575 = "1024.0 KB" /\
  exists t den unit,
    (den, unit) ∈ size_units /\
    human_size 1048575
    = (pretty (t / 10) +:+ "." +:+ pretty (t mod 10)) +:+ " " +:+ unit /\
    2 * Z.abs (10 * 1048575 - t * den) <= den /\
    0 <= t /\
    (1 < den -> den <= 1048575) /\
    (unit <> "TB" -> t <= 10240).
Proof.
  assert (H : 0 <= 1048575 < 2 ^ 53) by lia.
  split; [exact H |]. split; [vm_compute; reflexivity |].
  exact (human_size_accuracy 1048575 H).
Defined.

Lemma otf_run_needs_fontforge_run :
  takes_otf_pipeline "in.otf" = true /\
  PyStr.truthy (DemoMore.which_none "fontforge") = false /\
  exit_status (DemoMore.main_without_fontforge Demo.a_skip Demo.w0) = 1 /\
  fst (DemoMore.main_without_fontforge Demo.a_skip Demo.w0)
  = inl (Exception "RuntimeError") /\
  exists new,
    trace (snd (DemoMore.main_without_fontforge Demo.a_skip Demo.w0))
    = ([] ++ new)%list /\
    Forall (fun e => ~ is_subprocess e) new.
Proof.
  assert (H1 : takes_otf_pipeline (in_font Demo.a_skip) = true)
    by (vm_compute; reflexivity).
  assert (H2 : PyStr.truthy (DemoMore.which_none "fontforge") = false)
    by reflexivity.
  split; [exact H1 |]. split; [exact H2 |].
  destruct (otf_run_needs_fontforge Demo.cwd Demo.gettempdir
              DemoMore.which_none Demo.subset_engine Demo.fontforge_engine
              Demo.TTFont_parse Demo.a_skip Demo.w0 H1 H2)
    as (Hexit & Hrt & Htrace).
  split; [exact Hexit |]. split; [| exact Htrace].
  apply (Hrt "/tmp/cjk2ttf_a" (snd (Demo.prelude Demo.a_skip Demo.w0))
           (snd (stage_A Demo.cwd Demo.subset_engine Demo.a_skip
                   "/tmp/cjk2ttf_a/subset.otf"
                   (snd (Demo.prelude Demo.a_skip Demo.w0))))).
  - vm_compute. reflexivity.
  - vm_compute. reflexivity.
Defined.

Lemma exit_2_run :
  fst (Demo.main Demo.a_few Demo.w0) = inl (SystemExit 2) /\
  exists tmpdir w0 w1 t line,
    Demo.prelude Demo.a_few Demo.w0 = (inr (".otf", tmpdir), w0) /\
    PyStr.truthy (Demo.which "fontforge") = true /\
    Demo.stages_AB Demo.a_few tmpdir w0 = (inr tt, w1) /\
    Demo.check_ttf_tables (PosixPath.join tmpdir "intermediate.ttf") w1
    = (inr t, w1) /\
    rejected Demo.a_few t = true /\
    trace (snd (Demo.main Demo.a_few Demo.w0))
    = (trace w1 ++ [Stderr line; Rmtree tmpdir])%list.
Proof.
  assert (Hexit : fst (Demo.main Demo.a_few Demo.w0) = inl (SystemExit 2))
    by (vm_compute; reflexivity).
  split; [exact Hexit |].
  exact (exit_2_means_intermediate_rejected Demo.cwd Demo.gettempdir
           Demo.which Demo.subset_engine Demo.fontforge_engine
           Demo.TTFont_parse Demo.a_few Demo.w0 Hexit).
Defined.

Lemma success_run :
  fst (Demo.main Demo.a_plain Demo.w0) = inr tt /\
  exists content tf,
    node_at (fs (snd (Demo.main Demo.a_plain Demo.w0))) ["work"; "o.ttf"]
    = Some (File content) /\
    Demo.TTFont_parse content = inr tf /\
    has_table tf "glyf" = true /\
    has_table tf "loca" = true /\
    if has_table tf "maxp"
    then exists n, maxp_numGlyphs tf = inr n /\ 5 <= n
    else 5 <= -1.
Proof.
  assert (Hexit : fst (Demo.main Demo.a_plain Demo.w0) = inr tt)
    by (vm_compute; reflexivity).
  split; [exact Hexit |].
  exact (success_means_verified_output Demo.cwd Demo.gettempdir
           Demo.which Demo.subset_engine Demo.fontforge_engine
           Demo.TTFont_parse Demo.a_plain Demo.w0 Hexit).
Defined.

Lemma output_directory_run :
  node_at Demo.fs0 ["work"; "out"] = None /\
  fst (Demo.main Demo.a_few Demo.w0) = inl (SystemExit 2) /\
  node_at (fs (snd (Demo.main Demo.a_few Demo.w0))) ["work"; "out"] = Some Dir.
Proof.
  split; [reflexivity |]. split; [vm_compute; reflexivity |].
  apply (output_directory_created Demo.cwd Demo.gettempdir
           Demo.which Demo.subset_engine Demo.fontforge_engine
           Demo.TTFont_parse Demo.a_few Demo.w0 ".otf" "/tmp/cjk2ttf_a"
           (snd (Demo.prelude Demo.a_few Demo.w0))).
  - vm_compute. reflexivity.
  - exists []. vm_compute. reflexivity.
Defined.

Lemma main_footprint_run :
  fst (Demo.main Demo.a_skip Demo.w0) = inr tt /\
  node_at (fs (snd (Demo.main Demo.a_skip Demo.w0))) ["work"; "noloca.ttf"]
  = node_at Demo.fs0 ["work"; "noloca.ttf"].
Proof.
  split; [vm_compute; reflexivity |].
  apply (main_footprint Demo.cwd Demo.gettempdir
           Demo.which Demo.subset_engine Demo.fontforge_engine
           Demo.TTFont_parse Demo.a_skip Demo.w0 ["work"; "noloca.ttf"]).
  - vm_compute. discriminate.
  - intros [x Hx]. vm_compute in Hx. discriminate.
  - intros name Hname [x Hx].
    apply elem_of_cons in Hname as [-> | Hname];
      [| apply list_elem_of_singleton in Hname as ->];
      vm_compute in Hx; discriminate.
Defined.

Lemma demo_well_formed : well_formed Demo.fs0.
Proof.
  unfold well_formed, Demo.fs0.
  repeat (apply map_Forall_insert_2; [vm_compute; reflexivity |]).
  apply map_Forall_empty.
Qed.

Lemma existing_files_run :
  well_formed Demo.fs0 /\
  fst (Demo.main Demo.a_skip Demo.w0) = inr tt /\
  node_at (fs (snd (Demo.main Demo.a_skip Demo.w0))) ["work"; "in.otf"]
  = Some (File [x07; x09]).
Proof.
  split; [exact demo_well_formed |]. split; [vm_compute; reflexivity |].
  apply (existing_files_preserved Demo.cwd Demo.gettempdir
           Demo.which Demo.subset_engine Demo.fontforge_engine
           Demo.TTFont_parse Demo.a_skip Demo.w0 ["work"; "in.otf"]).
  - exact demo_well_formed.
  - reflexivity.
  - vm_compute. discriminate.
Defined.

Lemma success_prints_sizes_run :
  well_formed Demo.fs0 /\
  fst (Demo.main Demo.a_plain Demo.w0) = inr tt /\
  last (removelast (trace (snd (Demo.main Demo.a_plain Demo.w0))))
  = Some (Stdout "Size: 2.0 B → 2.0 B") /\
  exists earlier tmpdir c_in c_out,
    node_at Demo.fs0 ["work"; "in.ttf"] = Some (File c_in) /\
    node_at (fs (snd (Demo.main Demo.a_plain Demo.w0))) ["work"; "o.ttf"]
    = Some (File c_out) /\
    trace (snd (Demo.main Demo.a_plain Demo.w0))
    = (earlier ++
       [Stdout "[✓] Success.";
        Stdout "Output: o.ttf";
        Stdout ("Size: " +:+ human_size (Z.of_nat (length c_in))
                +:+ " → " +:+ human_size (Z.of_nat (length c_out)));
        Rmtree tmpdir])%list.
Proof.
  assert (Hexit : fst (Demo.main Demo.a_plain Demo.w0) = inr tt)
    by (vm_compute; reflexivity).
  split; [exact demo_well_formed |]. split; [exact Hexit |].
  split; [vm_compute; reflexivity |].
  exact (success_prints_sizes Demo.cwd Demo.gettempdir
           Demo.which Demo.subset_engine Demo.fontforge_engine
           Demo.TTFont_parse Demo.a_plain Demo.w0 demo_well_formed Hexit).
Defined.

Lemma otf_stages_run :
  valid_preset DemoMore.a_preset /\
  exists sel line_A line_C,
    resolved_selection DemoMore.a_preset = Some sel /\
    trace (snd (stage_A Demo.cwd Demo.subset_engine DemoMore.a_preset
                  "t/subset.otf" Demo.w0))
    = [Stdout line_A;
       Pyftsubset ["in.ttf"; "--output-file=t/subset.otf";
                   "--layout-features=*"; "--no-hinting";
                   "--desubroutinize"; sel]] /\
    trace (snd (stage_C Demo.cwd Demo.subset_engine DemoMore.a_preset
                  "t/intermediate.ttf" Demo.w0))
    = [Stdout line_C;
       Pyftsubset
         (ttf_subset_args "t/intermediate.ttf" "new/dir/o.ttf" sel)].
Proof.
  assert (Hv : valid_preset DemoMore.a_preset).
  { unfold valid_preset, PRESETS_keys. cbn. in_list. }
  split; [exact Hv |].
  exact (otf_stages_one_call Demo.cwd Demo.subset_engine DemoMore.a_preset
           "t/subset.otf" "t/intermediate.ttf" Demo.w0 Hv).
Defined.

Lemma truetype_path_run :
  valid_preset DemoMore.a_preset /\
  exists sel line,
    resolved_selection DemoMore.a_preset = Some sel /\
    trace (snd (truetype_path Demo.cwd Demo.subset_engine DemoMore.a_preset
                  Demo.w0))
    = [Stdout line;
       Pyftsubset (ttf_subset_args "in.ttf" "new/dir/o.ttf" sel)].
Proof.
  assert (Hv : valid_preset DemoMore.a_preset).
  { unfold valid_preset, PRESETS_keys. cbn. in_list. }
  split; [exact Hv |].
  exact (truetype_path_one_action Demo.cwd Demo.subset_engine
           DemoMore.a_preset Demo.w0 Hv).
Defined.


Lemma no_second_subset_ignored_run :
  takes_otf_pipeline "in.ttf" = false /\
  Demo.main (with_no_second_subset true Demo.a_plain) Demo.w0
  = Demo.main Demo.a_plain Demo.w0.
Proof.
  assert (H : takes_otf_pipeline (in_font Demo.a_plain) = false)
    by (vm_compute; reflexivity).
  split; [exact H |].
  exact (no_second_subset_ignored_on_truetype Demo.cwd Demo.gettempdir
           Demo.which Demo.subset_engine Demo.fontforge_engine
           Demo.TTFont_parse Demo.a_plain true Demo.w0 H).
Defined.

